(** * Community feed: karma / like engine, comment tree, leaderboard

    A shallow embedding of [backend/feed/models.py] and
    [backend/feed/views.py].  The relational store is a record of tables,
    every view is a function from a request and a store to a response and
    a store, and [transaction.atomic()] restores the store it was entered
    with when its body raises. *)

From stdpp Require Import gmap strings list fin_maps sorting pretty.
From Stdlib Require Import ZArith Lia Ascii.

Local Open Scope Z_scope.

(** ** models.py *)

Module Models.

(** [Like.TARGET_CHOICES] *)
Inductive TargetType := TARGET_POST | TARGET_COMMENT.

(** [KarmaTransaction.REASON_CHOICES] *)
Inductive Reason := REASON_POST_LIKE | REASON_COMMENT_LIKE.

#[global] Instance TargetType_eq_dec : EqDecision TargetType.
Proof. solve_decision. Defined.

#[global] Instance Reason_eq_dec : EqDecision Reason.
Proof. solve_decision. Defined.

(** Rows.  Primary keys are the keys of the tables below; foreign keys are
    stored as the key they point to ([author_id], [post_id], ...).
    Timestamps are microseconds on the clock of [timezone.now()]. *)

Record User := mkUser {
  username : string;
  avatar : string;
  total_karma : Z;            (* PositiveIntegerField(default=0) *)
}.

Record Post := mkPost {
  post_author_id : Z;
  post_content : string;
  post_likes_count : Z;       (* PositiveIntegerField(default=0) *)
  post_created_at : Z;
}.

Record Comment := mkComment {
  comment_post_id : Z;
  comment_parent_id : option Z;
  comment_author_id : Z;
  comment_content : string;
  comment_likes_count : Z;    (* PositiveIntegerField(default=0) *)
  comment_created_at : Z;
}.

Record Like := mkLike {
  like_user_id : Z;
  like_target_type : TargetType;
  like_target_id : Z;
  like_created_at : Z;
}.

Record KarmaTransaction := mkKarmaTransaction {
  kt_user_id : Z;             (* the recipient *)
  kt_amount : Z;              (* IntegerField, "Can be negative for unlikes" *)
  kt_reason : Reason;
  kt_source_id : Z;
  kt_liker_id : option Z;     (* null=True *)
  kt_created_at : Z;
}.

(** The store.  [users], [posts] and [comments] are keyed by primary key;
    [likes] and [karma_transactions] are kept in primary-key order, that is
    in the order the rows were inserted. *)
Record Db := mkDb {
  users : gmap Z User;
  posts : gmap Z Post;
  comments : gmap Z Comment;
  likes : list Like;
  karma_transactions : list KarmaTransaction;
}.

Definition set_users (f : gmap Z User → gmap Z User) (db : Db) : Db :=
  mkDb (f (users db)) (posts db) (comments db) (likes db) (karma_transactions db).
Definition set_posts (f : gmap Z Post → gmap Z Post) (db : Db) : Db :=
  mkDb (users db) (f (posts db)) (comments db) (likes db) (karma_transactions db).
Definition set_comments (f : gmap Z Comment → gmap Z Comment) (db : Db) : Db :=
  mkDb (users db) (posts db) (f (comments db)) (likes db) (karma_transactions db).
Definition set_likes (f : list Like → list Like) (db : Db) : Db :=
  mkDb (users db) (posts db) (comments db) (f (likes db)) (karma_transactions db).
Definition set_karma_transactions
    (f : list KarmaTransaction → list KarmaTransaction) (db : Db) : Db :=
  mkDb (users db) (posts db) (comments db) (likes db) (f (karma_transactions db)).

Definition with_total_karma (k : Z) (u : User) : User :=
  mkUser (username u) (avatar u) k.
Definition with_post_likes_count (n : Z) (p : Post) : Post :=
  mkPost (post_author_id p) (post_content p) n (post_created_at p).
Definition with_comment_likes_count (n : Z) (c : Comment) : Comment :=
  mkComment (comment_post_id c) (comment_parent_id c) (comment_author_id c)
            (comment_content c) n (comment_created_at c).

End Models.
Export Models.

(** ** The object-relational layer *)

Module Orm.

(** Exceptions the modelled code paths can raise. *)
Inductive Exc :=
  | Post_DoesNotExist
  | Comment_DoesNotExist
  | User_DoesNotExist
  | User_MultipleObjectsReturned
  | IntegrityError
  | FieldDoesNotExist.

(** A query sequence: reads and writes the store, returns or raises.  The
    store is threaded through also when an exception is raised, because
    outside [transaction.atomic()] every statement commits on its own. *)
Definition Query (A : Type) : Type := Db → (Exc + A) * Db.

Definition ret {A} (a : A) : Query A := λ db, (inr a, db).
Definition raise {A} (e : Exc) : Query A := λ db, (inl e, db).
Definition bind {A B} (m : Query A) (k : A → Query B) : Query B :=
  λ db, match m db with
        | (inl e, db') => (inl e, db')
        | (inr a, db') => k a db'
        end.
Definition read {A} (f : Db → A) : Query A := λ db, (inr (f db), db).
Definition write (f : Db → Db) : Query unit := λ db, (inr tt, f db).

Declare Scope query_scope.
Delimit Scope query_scope with query.
Notation "x <- m ;; k" := (bind m (λ x, k))
  (at level 100, m at next level, right associativity) : query_scope.
Notation "m ;; k" := (bind m (λ _, k))
  (at level 100, right associativity) : query_scope.

Local Open Scope query_scope.

(** [with transaction.atomic(): body]: an exception leaving the block
    rolls the store back to what it was on entry and goes on propagating;
    leaving the block normally (also by [return]) commits. *)
Definition atomic {A} (body : Query A) : Query A :=
  λ db, match body db with
        | (inl e, _) => (inl e, db)
        | (inr a, db') => (inr a, db')
        end.

(** The key the store gives to a new row: one it does not use yet, taken
    here as one past the largest key of the table. *)
Definition next_pk {V} (m : gmap Z V) : Z :=
  1 + map_fold (λ k _ acc, Z.max k acc) 0 m.

(** [Model.objects.get(pk=pk)] *)
Definition get_post (pk : Z) : Query Post :=
  λ db, match posts db !! pk with
        | Some p => (inr p, db)
        | None => (inl Post_DoesNotExist, db)
        end.
Definition get_comment (pk : Z) : Query Comment :=
  λ db, match comments db !! pk with
        | Some c => (inr c, db)
        | None => (inl Comment_DoesNotExist, db)
        end.
Definition get_user (pk : Z) : Query User :=
  λ db, match users db !! pk with
        | Some u => (inr u, db)
        | None => (inl User_DoesNotExist, db)
        end.

(** [Like.objects.filter(user=…, target_type=…, target_id=…)] *)
Definition like_matches (user : Z) (ty : TargetType) (target : Z) (l : Like) : bool :=
  bool_decide (like_user_id l = user)
  && bool_decide (like_target_type l = ty)
  && bool_decide (like_target_id l = target).

Definition likes_filter (user : Z) (ty : TargetType) (target : Z) : Query (list Like) :=
  read (λ db, List.filter (like_matches user ty target) (likes db)).

(** [.exists()] *)
Definition likes_exists (user : Z) (ty : TargetType) (target : Z) : Query bool :=
  rows <- likes_filter user ty target ;;
  ret (match rows with [] => false | _ :: _ => true end).

(** [.first()]: the matching row of least primary key, with its position
    in the table, or [None]. *)
Fixpoint find_like (user : Z) (ty : TargetType) (target : Z)
    (rows : list Like) : option nat :=
  match rows with
  | [] => None
  | l :: rows' =>
      if like_matches user ty target l then Some O
      else S <$> find_like user ty target rows'
  end.

Definition likes_first (user : Z) (ty : TargetType) (target : Z) : Query (option nat) :=
  read (λ db, find_like user ty target (likes db)).

(** [like.delete()] of the row at position [i]. *)
Definition like_delete (i : nat) : Query unit :=
  write (set_likes (λ rows, take i rows ++ drop (S i) rows)).

(** [Like.objects.create(...)]: [unique_together] on
    [(user, target_type, target_id)] makes the insert of a second row for
    one triple an [IntegrityError]. *)
Definition likes_create (user : Z) (ty : TargetType) (target : Z) (now : Z) : Query unit :=
  λ db, match List.filter (like_matches user ty target) (likes db) with
        | [] => (inr tt, set_likes (λ rows, rows ++ [mkLike user ty target now]) db)
        | _ :: _ => (inl IntegrityError, db)
        end.

(** [Post.objects.filter(pk=pk).update(likes_count=F('likes_count') + delta)]:
    one statement in the store, no row matched is no error.  The column is a
    [PositiveIntegerField], whose check constraint refuses a negative value
    with an [IntegrityError]. *)
Definition posts_update_likes_count (pk : Z) (delta : Z) : Query unit :=
  λ db, match posts db !! pk with
        | None => (inr tt, db)
        | Some p =>
            let n := post_likes_count p + delta in
            if bool_decide (0 ≤ n)
            then (inr tt, set_posts (insert pk (with_post_likes_count n p)) db)
            else (inl IntegrityError, db)
        end.

(** [Comment.objects.filter(pk=pk).update(likes_count=F('likes_count') + delta)] *)
Definition comments_update_likes_count (pk : Z) (delta : Z) : Query unit :=
  λ db, match comments db !! pk with
        | None => (inr tt, db)
        | Some c =>
            let n := comment_likes_count c + delta in
            if bool_decide (0 ≤ n)
            then (inr tt, set_comments (insert pk (with_comment_likes_count n c)) db)
            else (inl IntegrityError, db)
        end.

(** [User.objects.filter(pk=pk).update(total_karma=F('total_karma') + delta)] *)
Definition users_update_total_karma (pk : Z) (delta : Z) : Query unit :=
  λ db, match users db !! pk with
        | None => (inr tt, db)
        | Some u =>
            let k := total_karma u + delta in
            if bool_decide (0 ≤ k)
            then (inr tt, set_users (insert pk (with_total_karma k u)) db)
            else (inl IntegrityError, db)
        end.

(** [KarmaTransaction.objects.create(...)]; [created_at] takes its
    default, [timezone.now]. *)
Definition karma_transactions_create (user : Z) (amount : Z) (reason : Reason)
    (source_id : Z) (liker : option Z) (now : Z) : Query unit :=
  write (set_karma_transactions
           (λ rows, rows ++ [mkKarmaTransaction user amount reason source_id liker now])).

(** [User.objects.get_or_create(username=…, defaults={avatar, total_karma})]:
    the key of the row of that name, inserted first when there is none;
    the [get] inside raises when several rows have the name. *)
Definition users_with_username (name : string) (m : gmap Z User) : list (Z * User) :=
  filter (λ kv, username kv.2 = name) (map_to_list m).

Definition users_get_or_create (name : string) (avatar_default : string)
    (total_karma_default : Z) : Query Z :=
  λ db, match users_with_username name (users db) with
        | [] =>
            let pk := next_pk (users db) in
            (inr pk, set_users (insert pk (mkUser name avatar_default total_karma_default)) db)
        | [(pk, _)] => (inr pk, db)
        | _ :: _ :: _ => (inl User_MultipleObjectsReturned, db)
        end.

(** [Post.objects.create(author, content)]: [likes_count] takes its default 0. *)
Definition posts_create (author : Z) (content : string) (now : Z) : Query Z :=
  λ db, let pk := next_pk (posts db) in
        (inr pk, set_posts (insert pk (mkPost author content 0 now)) db).

(** [Comment.objects.create(post, author, content, parent)] *)
Definition comments_create (post : Z) (author : Z) (content : string)
    (parent : option Z) (now : Z) : Query Z :=
  λ db, let pk := next_pk (comments db) in
        (inr pk, set_comments (insert pk (mkComment post parent author content 0 now)) db).

(** [Post.objects.filter(pk=pk).update(comments_count=F('comments_count') + 1)]:
    [Post] declares no field [comments_count], so the statement raises before
    it reaches the store. *)
Definition posts_update_comments_count (pk : Z) : Query unit :=
  raise FieldDoesNotExist.

(** [try: body except E: handler]: an exception the handler does not name
    goes on propagating. *)
Definition try_except {A} (body : Query A) (handler : Exc → option (Query A)) : Query A :=
  λ db, match body db with
        | (inl e, db') =>
            match handler e with
            | Some h => h db'
            | None => (inl e, db')
            end
        | (inr a, db') => (inr a, db')
        end.

End Orm.
Export Orm.

(** ** serializers.py: the validation hooks *)

Module Serializers.

(** Python's [str.strip()] on text held one character per [ascii]: the
    characters [str.isspace] accepts below 256. *)
Definition isspace (a : ascii) : bool :=
  let n := nat_of_ascii a in
  (((9 <=? n) && (n <=? 13)) || ((28 <=? n) && (n <=? 32))
   || (n =? 133) || (n =? 160))%nat.

Fixpoint lstrip (s : string) : string :=
  match s with
  | EmptyString => EmptyString
  | String a s' => if isspace a then lstrip s' else s
  end.

Definition strip (s : string) : string :=
  String.rev (lstrip (String.rev (lstrip s))).

(** [PostCreateSerializer.validate_content]: the cleaned value, or [None]
    for a [ValidationError]. *)
Definition validate_content (value : string) : option string :=
  if (String.length (strip value) <? 1)%nat then None
  else if (2000 <? String.length value)%nat then None
  else Some (strip value).

(** The field [content] of the two create serializers.  [ModelSerializer]
    builds it from [models.TextField(max_length=N)], a column that may not be
    blank: a [CharField(max_length=N)] that trims white space.  Its
    [run_validation] refuses a value that is blank once trimmed, trims the
    value, and runs the validators on the trimmed value: the bound on the
    length and the ban on NUL characters.  [None] is a [ValidationError]. *)
Definition has_nul (s : string) : bool :=
  existsb (λ a, (nat_of_ascii a =? 0)%nat) (String.list_ascii_of_string s).

Definition CharField (max_length : nat) (data : string) : option string :=
  if bool_decide (strip data = EmptyString) then None
  else
    let value := strip data in
    if (max_length <? String.length value)%nat then None
    else if has_nul value then None
    else Some value.

(** [PostCreateSerializer] on the data of a request: the field [content]
    ([Post.content] is a [TextField(max_length=2000)]), then the hook
    [validate_content] on the value the field returns. *)
Definition PostCreateSerializer (data : string) : option string :=
  match CharField 2000 data with
  | Some value => validate_content value
  | None => None
  end.

(** [CommentCreateSerializer.validate_parent]: [value] is the parent
    comment the field resolved to, [post_id] is [initial_data.get('post')]. *)
Definition validate_parent (value : option (Z * Comment)) (post_id : Z)
    : option (option (Z * Comment)) :=
  match value with
  | Some (_, parent) =>
      if bool_decide (comment_post_id parent ≠ post_id) then None else Some value
  | None => Some value
  end.

End Serializers.

(** ** views.py: requests and responses *)

(** What the views read of a request: [request.user] ([Some pk] when
    [request.user.is_authenticated], [None] for an anonymous request) and
    the fields of [request.data] already parsed to their types. *)
Record Request := mkRequest {
  request_user : option Z;
  data_content : string;
  data_post : Z;
  data_parent : option Z;
}.

Inductive Response :=
  | LikeOk (likes karma_awarded : Z)   (* 200 {'success': True, 'likes', 'karma_awarded'} *)
  | UnlikeOk (likes : Z)               (* 200 {'success': True, 'likes'} *)
  | Created (pk : Z)                   (* 201 *)
  | Unauthorized                       (* 401 'Authentication required' *)
  | NotFound                           (* 404 'Post not found' / 'Comment not found' *)
  | AlreadyLiked                       (* 400 'Already liked this post' / '… comment' *)
  | LikeNotFound                       (* 400 'Like not found' *)
  | BadRequest                         (* 400, validation *)
  | ServerError (e : Exc).             (* an exception no view catches: 500 *)

#[global] Instance Exc_eq_dec : EqDecision Exc.
Proof. solve_decision. Defined.

#[global] Instance Response_eq_dec : EqDecision Response.
Proof. solve_decision. Defined.

(** A view: the response and the store left behind. *)
Definition View : Type := Db → Response * Db.

Definition respond (m : Query Response) : View :=
  λ db, match m db with
        | (inr r, db') => (r, db')
        | (inl e, db') => (ServerError e, db')
        end.

(** [_get_current_user], the same body in both view sets: the request's
    user when authenticated, else the demo user, created on first use.
    The result is an object or [None], as the callers test it. *)
Definition demo_avatar : string := "https://api.dicebear.com/7.x/avataaars/svg?seed=demo".

Definition _get_current_user (request : Request) : Query (option Z) :=
  (match request_user request with
   | Some user => ret (Some user)
   | None =>
       demo_user <- users_get_or_create "demo_user" demo_avatar 100 ;;
       ret (Some demo_user)
   end)%query.

Module PostViewSet.
Local Open Scope query_scope.

(** [PostViewSet.like] *)
Definition like (now : Z) (request : Request) (pk : Z) : View :=
  respond (
    user <- _get_current_user request ;;
    match user with
    | None => ret Unauthorized
    | Some user =>
        try_except
          (atomic (
             post <- get_post pk ;;
             liked <- likes_exists user TARGET_POST pk ;;
             if liked : bool then ret AlreadyLiked else
             likes_create user TARGET_POST pk now ;;
             posts_update_likes_count pk 1 ;;
             _ <- get_user (post_author_id post) ;;
             karma_transactions_create (post_author_id post) 5 REASON_POST_LIKE
                                       pk (Some user) now ;;
             users_update_total_karma (post_author_id post) 5 ;;
             post <- get_post pk ;;
             ret (LikeOk (post_likes_count post) 5)))
          (λ e, match e with
                | Post_DoesNotExist => Some (ret NotFound)
                | IntegrityError => Some (ret AlreadyLiked)
                | _ => None
                end)
    end).

(** [PostViewSet.unlike] *)
Definition unlike (request : Request) (pk : Z) : View :=
  respond (
    user <- _get_current_user request ;;
    match user with
    | None => ret Unauthorized
    | Some user =>
        try_except
          (atomic (
             post <- get_post pk ;;
             like <- likes_first user TARGET_POST pk ;;
             match like with
             | None => ret LikeNotFound
             | Some like =>
                 like_delete like ;;
                 posts_update_likes_count pk (-1) ;;
                 post <- get_post pk ;;
                 ret (UnlikeOk (post_likes_count post))
             end))
          (λ e, match e with
                | Post_DoesNotExist => Some (ret NotFound)
                | _ => None
                end)
    end).

(** [PostViewSet.create]: [PostCreateSerializer(data=request.data)],
    [is_valid()], and [save(author=user)] inserts the post. *)
Definition create (now : Z) (request : Request) : View :=
  respond (
    user <- _get_current_user request ;;
    match user with
    | None => ret Unauthorized
    | Some user =>
        match Serializers.PostCreateSerializer (data_content request) with
        | Some content =>
            post <- posts_create user content now ;;
            ret (Created post)
        | None => ret BadRequest
        end
    end).

(** [PostViewSet.comments], the branch of [request.method == 'POST'] *)
Definition comments (now : Z) (request : Request) (pk : Z) : View :=
  respond (
    post <- try_except (post <- get_post pk ;; ret (Some post))
              (λ e, match e with
                    | Post_DoesNotExist => Some (ret None)
                    | _ => None
                    end) ;;
    match post with
    | None => ret NotFound
    | Some _ =>
       user <- _get_current_user request ;;
       match user with
       | None => ret Unauthorized
       | Some user =>
           let content := Serializers.strip (data_content request) in
           let parent_id := data_parent request in
           if bool_decide (content = EmptyString) then ret BadRequest else
           let create_with (parent : option Z) :=
             comment <- comments_create pk user content parent now ;;
             posts_update_comments_count pk ;;
             ret (Created comment) in
           match parent_id with
           | Some parent_id =>
               if bool_decide (parent_id = 0) then create_with None else
               parent <- read (λ db, comments db !! parent_id) ;;
               match parent with
               | Some parent =>
                   if bool_decide (comment_post_id parent = pk)
                   then create_with (Some parent_id)
                   else ret BadRequest
               | None => ret BadRequest
               end
           | None => create_with None
           end
       end
    end).

End PostViewSet.

Module CommentViewSet.
Local Open Scope query_scope.

(** [CommentViewSet.like] *)
Definition like (now : Z) (request : Request) (pk : Z) : View :=
  respond (
    user <- _get_current_user request ;;
    match user with
    | None => ret Unauthorized
    | Some user =>
        try_except
          (atomic (
             comment <- get_comment pk ;;
             liked <- likes_exists user TARGET_COMMENT pk ;;
             if liked : bool then ret AlreadyLiked else
             likes_create user TARGET_COMMENT pk now ;;
             comments_update_likes_count pk 1 ;;
             _ <- get_user (comment_author_id comment) ;;
             karma_transactions_create (comment_author_id comment) 1 REASON_COMMENT_LIKE
                                       pk (Some user) now ;;
             users_update_total_karma (comment_author_id comment) 1 ;;
             comment <- get_comment pk ;;
             ret (LikeOk (comment_likes_count comment) 1)))
          (λ e, match e with
                | Comment_DoesNotExist => Some (ret NotFound)
                | IntegrityError => Some (ret AlreadyLiked)
                | _ => None
                end)
    end).

(** [CommentViewSet.unlike] *)
Definition unlike (request : Request) (pk : Z) : View :=
  respond (
    user <- _get_current_user request ;;
    match user with
    | None => ret Unauthorized
    | Some user =>
        try_except
          (atomic (
             comment <- get_comment pk ;;
             like <- likes_first user TARGET_COMMENT pk ;;
             match like with
             | None => ret LikeNotFound
             | Some like =>
                 like_delete like ;;
                 comments_update_likes_count pk (-1) ;;
                 comment <- get_comment pk ;;
                 ret (UnlikeOk (comment_likes_count comment))
             end))
          (λ e, match e with
                | Comment_DoesNotExist => Some (ret NotFound)
                | _ => None
                end)
    end).

(** [CommentViewSet.create]: [CommentCreateSerializer] resolves [post] and
    [parent] to rows (an unknown key is a validation error), runs
    [validate_parent], cleans [content] ([Comment.content] is a
    [TextField(max_length=1000)]), and [save(author=user)] inserts the
    comment with the cleaned content. *)
Definition create (now : Z) (request : Request) : View :=
  respond (
    user <- _get_current_user request ;;
    match user with
    | None => ret Unauthorized
    | Some user =>
        post <- read (λ db, posts db !! data_post request) ;;
        parent <- read (λ db,
                    match data_parent request with
                    | Some pid => option_map (λ c, Some (pid, c)) (comments db !! pid)
                    | None => Some None
                    end) ;;
        match post, parent with
        | Some _, Some parent =>
            match Serializers.validate_parent parent (data_post request),
                  Serializers.CharField 1000 (data_content request) with
            | Some parent, Some content =>
                comment <- comments_create (data_post request) user
                             content (fst <$> parent) now ;;
                ret (Created comment)
            | _, _ => ret BadRequest
            end
        | _, _ => ret BadRequest
        end
    end).

End CommentViewSet.


(** ** views.py: the leaderboard *)

Module LeaderboardView.

(** [timezone.now() - timedelta(hours=24)], in microseconds *)
Definition twenty_four_hours_ago (now : Z) : Z := now - 24 * 3600 * 1000000.

(** SQL's [SUM] is [NULL] over no rows; [Coalesce] replaces [NULL]. *)
Definition Sum (amounts : list Z) : option Z :=
  match amounts with
  | [] => None
  | _ :: _ => Some (foldr Z.add 0 amounts)
  end.

Definition Coalesce (x : option Z) (d : Z) : Z := default d x.

(** [.filter(created_at__gte=since)] *)
Definition created_at__gte (since : Z) (rows : list KarmaTransaction)
    : list KarmaTransaction :=
  filter (λ t, since ≤ kt_created_at t) rows.

(** [.values('user_id').annotate(karma_24h=Coalesce(Sum('amount'), 0))]:
    one row [(user_id, karma_24h)] per recipient among [rows]. *)
Definition group_amounts (user_id : Z) (rows : list KarmaTransaction) : list Z :=
  kt_amount <$> filter (λ t, kt_user_id t = user_id) rows.

Definition annotate_karma_24h (rows : list KarmaTransaction) : list (Z * Z) :=
  (λ user_id, (user_id, Coalesce (Sum (group_amounts user_id rows)) 0))
    <$> remove_dups (kt_user_id <$> rows).

(** [.order_by('-karma_24h')]: the order of rows of equal karma is the
    store's; the model sorts with a merge sort. *)
Definition karma_ge (a b : Z * Z) : Prop := b.2 ≤ a.2.

#[global] Instance karma_ge_dec a b : Decision (karma_ge a b).
Proof. unfold karma_ge. apply _. Defined.

Definition leaderboard_data (now : Z) (db : Db) : list (Z * Z) :=
  take 5
    (merge_sort karma_ge
       (filter (λ entry, 0 < entry.2)
          (annotate_karma_24h
             (created_at__gte (twenty_four_hours_ago now) (karma_transactions db))))).

(** [enumerate(l, start)] *)
Fixpoint enumerate {A} (l : list A) (start : Z) : list (Z * A) :=
  match l with
  | [] => []
  | x :: l' => (start, x) :: enumerate l' (start + 1)
  end.

(** One element of [result]: [{'user': user, 'karma_24h': …, 'rank': …}],
    the user object as its key and row. *)
Record Entry := mkEntry {
  entry_user : Z * User;
  entry_karma_24h : Z;
  entry_rank : Z;
}.

(** [LeaderboardView.get]: the list handed to [LeaderboardEntrySerializer]. *)
Definition get (now : Z) (db : Db) : list Entry :=
  let leaderboard_data := leaderboard_data now db in
  let user_ids := fst <$> leaderboard_data in
  let users : gmap Z User := filter (λ kv, kv.1 ∈ user_ids) (users db) in
  omap (λ '(rank, entry),
          match users !! entry.1 with
          | Some user => Some (mkEntry (entry.1, user) entry.2 rank)
          | None => None
          end)
       (enumerate leaderboard_data 1).

End LeaderboardView.

(** ** views.py: the comment tree *)

(** The builder sets attributes on the comment objects it is given and
    returns some of these objects.  An object is named by its position in
    the input; the attributes live in a store of their own, shared by all
    the lists that mention the object. *)
Record Attrs := mkAttrs {
  _prefetched_replies : gmap nat (list nat);
  _liked_by_user : gmap nat bool;
}.

Record Builder := mkBuilder {
  attrs : Attrs;
  comment_map : gmap Z nat;
  root_comments : list nat;
}.

Definition first_pass (user_liked_ids : gset Z) (st : Builder)
    (obj : nat * (Z * Comment)) : Builder :=
  let '(comment, (id, _)) := obj in
  mkBuilder
    (mkAttrs (<[comment := []]> (_prefetched_replies (attrs st)))
             (<[comment := bool_decide (id ∈ user_liked_ids)]> (_liked_by_user (attrs st))))
    (<[id := comment]> (comment_map st))
    (root_comments st).

Definition second_pass (st : Builder) (obj : nat * (Z * Comment)) : Builder :=
  let '(comment, (_, row)) := obj in
  match comment_parent_id row with
  | None => mkBuilder (attrs st) (comment_map st) (root_comments st ++ [comment])
  | Some parent_id =>
      match comment_map st !! parent_id with
      | Some parent =>
          mkBuilder
            (mkAttrs (alter (λ replies, replies ++ [comment]) parent
                            (_prefetched_replies (attrs st)))
                     (_liked_by_user (attrs st)))
            (comment_map st) (root_comments st)
      | None => st
      end
  end.

Definition objects (comments : list (Z * Comment)) : list (nat * (Z * Comment)) :=
  imap pair comments.

(** [build_comment_tree(comments, user, user_liked_ids)]: the root objects
    and the attributes the two passes left on the objects. *)
Definition build_comment_tree (comments : list (Z * Comment)) (user : option Z)
    (user_liked_ids : option (gset Z)) : list nat * Attrs :=
  let user_liked_ids := default ∅ user_liked_ids in
  let st := mkBuilder (mkAttrs ∅ ∅) ∅ [] in
  let st := foldl (first_pass user_liked_ids) st (objects comments) in
  let st := foldl second_pass st (objects comments) in
  (root_comments st, attrs st).

(** What [CommentSerializer] makes of an object: its key, the flag, and the
    replies read off [_prefetched_replies], recursively. *)
#[warnings="-register-all"]
Inductive Rendered := Node (id : Z) (liked : bool) (replies : list Rendered).

Fixpoint render (fuel : nat) (comments : list (Z * Comment)) (a : Attrs)
    (comment : nat) : option Rendered :=
  match fuel with
  | O => None
  | S fuel' =>
      match comments !! comment with
      | None => None
      | Some (id, _) =>
          replies ← mapM (render fuel' comments a)
                         (default [] (_prefetched_replies a !! comment)) ;
          Some (Node id (default false (_liked_by_user a !! comment)) replies)
      end
  end.

Definition render_tree (comments : list (Z * Comment)) (user_liked_ids : option (gset Z))
    : option (list Rendered) :=
  let '(roots, a) := build_comment_tree comments None user_liked_ids in
  mapM (render (S (length comments)) comments a) roots.

(** * Vocabulary of the properties *)

Import LeaderboardView.

(** ** The current user *)

(** What [_get_current_user] does to the store when it returns. *)
Inductive resolved (request : Request) (db : Db) (user : Z) (db0 : Db) : Prop :=
  | resolved_authenticated :
      request_user request = Some user → db0 = db → resolved request db user db0
  | resolved_demo_found u :
      request_user request = None →
      users_with_username "demo_user" (users db) = [(user, u)] →
      db0 = db → resolved request db user db0
  | resolved_demo_created :
      request_user request = None →
      users_with_username "demo_user" (users db) = [] →
      user = next_pk (users db) →
      db0 = set_users (insert user (mkUser "demo_user" demo_avatar 100)) db →
      resolved request db user db0.

(** Resolving the user adds at most a row to [users]. *)
Definition user_added (db db0 : Db) : Prop :=
  posts db0 = posts db ∧ comments db0 = comments db ∧ likes db0 = likes db
  ∧ karma_transactions db0 = karma_transactions db
  ∧ users db ⊆ users db0.

(** ** Likes and unlikes *)

(** The routes of [urls.py]: [posts/<pk>/like/], [comments/<pk>/like/] and
    their [unlike] twins. *)
Definition like_target (ty : TargetType) : Z → Request → Z → View :=
  match ty with
  | TARGET_POST => PostViewSet.like
  | TARGET_COMMENT => CommentViewSet.like
  end.

Definition unlike_target (ty : TargetType) : Request → Z → View :=
  match ty with
  | TARGET_POST => PostViewSet.unlike
  | TARGET_COMMENT => CommentViewSet.unlike
  end.

(** Vocabulary to speak of both kinds of target at once. *)
Definition likes_count (ty : TargetType) (pk : Z) (db : Db) : option Z :=
  match ty with
  | TARGET_POST => post_likes_count <$> posts db !! pk
  | TARGET_COMMENT => comment_likes_count <$> comments db !! pk
  end.

Definition target_author (ty : TargetType) (pk : Z) (db : Db) : option Z :=
  match ty with
  | TARGET_POST => post_author_id <$> posts db !! pk
  | TARGET_COMMENT => comment_author_id <$> comments db !! pk
  end.

Definition karma_for (ty : TargetType) : Z :=
  match ty with TARGET_POST => 5 | TARGET_COMMENT => 1 end.

Definition reason_for (ty : TargetType) : Reason :=
  match ty with
  | TARGET_POST => REASON_POST_LIKE
  | TARGET_COMMENT => REASON_COMMENT_LIKE
  end.

Definition set_likes_count (ty : TargetType) (pk : Z) (n : Z) (db : Db) : Db :=
  match ty with
  | TARGET_POST =>
      set_posts (λ m, match m !! pk with
                      | Some p => <[pk := with_post_likes_count n p]> m
                      | None => m
                      end) db
  | TARGET_COMMENT =>
      set_comments (λ m, match m !! pk with
                         | Some c => <[pk := with_comment_likes_count n c]> m
                         | None => m
                         end) db
  end.

(** The store a like that goes through leaves behind. *)
Definition liked_db (ty : TargetType) (now user pk n author : Z) (a : User)
    (db0 : Db) : Db :=
  set_users (insert author (with_total_karma (total_karma a + karma_for ty) a))
    (set_karma_transactions
       (λ rows, rows ++ [mkKarmaTransaction author (karma_for ty) (reason_for ty)
                                            pk (Some user) now])
       (set_likes_count ty pk (n + 1)
          (set_likes (λ rows, rows ++ [mkLike user ty pk now]) db0))).

(** A like as a function of the store [db0] in which the user is resolved. *)
Definition like_result (ty : TargetType) (now user pk : Z) (db0 : Db) : Response * Db :=
  match likes_count ty pk db0, target_author ty pk db0 with
  | Some n, Some author =>
      match List.filter (like_matches user ty pk) (likes db0) with
      | _ :: _ => (AlreadyLiked, db0)
      | [] =>
          if bool_decide (0 ≤ n + 1) then
            match users db0 !! author with
            | None => (ServerError User_DoesNotExist, db0)
            | Some a =>
                if bool_decide (0 ≤ total_karma a + karma_for ty)
                then (LikeOk (n + 1) (karma_for ty),
                      liked_db ty now user pk n author a db0)
                else (AlreadyLiked, db0)
            end
          else (AlreadyLiked, db0)
      end
  | _, _ => (NotFound, db0)
  end.

(** An unlike as a function of the store in which the user is resolved. *)
Definition unlike_result (ty : TargetType) (user pk : Z) (db0 : Db) : Response * Db :=
  match likes_count ty pk db0 with
  | Some n =>
      match find_like user ty pk (likes db0) with
      | None => (LikeNotFound, db0)
      | Some i =>
          if bool_decide (0 ≤ n + -1)
          then (UnlikeOk (n + -1),
                set_likes_count ty pk (n + -1)
                  (set_likes (λ rows, take i rows ++ drop (S i) rows) db0))
          else (ServerError IntegrityError, db0)
      end
  | None => (NotFound, db0)
  end.

(** ** Sequences of mutating requests

    The requests are those to the actions that [views.py] defines on the
    two view sets: [like], [unlike], [create], and the POST branch of
    [PostViewSet.comments].  Both view sets are [ModelViewSet]s, so the
    router also serves the [update], [partial_update] and [destroy] actions
    they inherit from the framework; these are not among the requests
    below, and what is proved of [run] is proved of sequences of like,
    unlike and create requests only. *)

Inductive Op :=
  | OpLike (ty : TargetType) (now : Z) (request : Request) (pk : Z)
  | OpUnlike (ty : TargetType) (request : Request) (pk : Z)
  | OpCreatePost (now : Z) (request : Request)
  | OpCreateComment (now : Z) (request : Request)
  | OpPostComments (now : Z) (request : Request) (pk : Z).

Definition run_op (op : Op) : View :=
  match op with
  | OpLike ty now request pk => like_target ty now request pk
  | OpUnlike ty request pk => unlike_target ty request pk
  | OpCreatePost now request => PostViewSet.create now request
  | OpCreateComment now request => CommentViewSet.create now request
  | OpPostComments now request pk => PostViewSet.comments now request pk
  end.

(** Requests served one after the other: the responses and the last store. *)
Fixpoint run (ops : list Op) (db : Db) : list Response * Db :=
  match ops with
  | [] => ([], db)
  | op :: ops' =>
      let '(r, db1) := run_op op db in
      let '(rs, db2) := run ops' db1 in
      (r :: rs, db2)
  end.

(** A request that created, or deleted, a [Like] row of the target. *)
Definition like_created (ty : TargetType) (pk : Z) (op : Op) (r : Response) : bool :=
  match op, r with
  | OpLike ty' _ _ pk', LikeOk _ _ => bool_decide (ty' = ty) && bool_decide (pk' = pk)
  | _, _ => false
  end.

Definition like_deleted (ty : TargetType) (pk : Z) (op : Op) (r : Response) : bool :=
  match op, r with
  | OpUnlike ty' _ pk', UnlikeOk _ => bool_decide (ty' = ty) && bool_decide (pk' = pk)
  | _, _ => false
  end.

(** The number of requests of a run that [f] selects. *)
Fixpoint count_where (f : Op → Response → bool) (ops : list Op) (rs : list Response) : Z :=
  match ops, rs with
  | op :: ops', r :: rs' => (if f op r then 1 else 0) + count_where f ops' rs'
  | _, _ => 0
  end.

(** The [Like] rows of a target. *)
Definition like_rows (ty : TargetType) (pk : Z) (db : Db) : list Like :=
  filter (λ l, like_target_type l = ty ∧ like_target_id l = pk) (likes db).

(** ** A small program logic for [Query]

    [sat R Q m]: from any store, [m] leaves a store related to it by [R],
    and a value it returns satisfies [Q]. *)
Definition sat {A} (R : relation Db) (Q : A → Prop) (m : Query A) : Prop :=
  ∀ db, R db (m db).2 ∧ match (m db).1 with inr a => Q a | inl _ => True end.

(** What creating a post or a comment may do to the store. *)
Definition creates_only (db db' : Db) : Prop :=
  users db ⊆ users db' ∧ posts db ⊆ posts db' ∧ comments db ⊆ comments db'
  ∧ likes db' = likes db ∧ karma_transactions db' = karma_transactions db.

(** ** What a like or an unlike may answer *)

(** A response that reports a failure of a like or an unlike. *)
Definition is_failure (r : Response) : Prop :=
  match r with
  | NotFound | AlreadyLiked | LikeNotFound | ServerError _ => True
  | _ => False
  end.

(** A like served for [user] in the store [db0]: it goes through, or it
    fails and leaves [db0] as it was. *)
Inductive like_spec (ty : TargetType) (now user pk : Z) (db0 : Db)
    : Response * Db → Prop :=
  | like_spec_ok n author a :
      likes_count ty pk db0 = Some n →
      target_author ty pk db0 = Some author →
      List.filter (like_matches user ty pk) (likes db0) = [] →
      users db0 !! author = Some a →
      0 ≤ n + 1 → 0 ≤ total_karma a + karma_for ty →
      like_spec ty now user pk db0
        (LikeOk (n + 1) (karma_for ty), liked_db ty now user pk n author a db0)
  | like_spec_fail r :
      is_failure r → like_spec ty now user pk db0 (r, db0).

(** The same for an unlike. *)
Inductive unlike_spec (ty : TargetType) (user pk : Z) (db0 : Db)
    : Response * Db → Prop :=
  | unlike_spec_ok n i :
      likes_count ty pk db0 = Some n →
      find_like user ty pk (likes db0) = Some i →
      0 ≤ n + -1 →
      unlike_spec ty user pk db0
        (UnlikeOk (n + -1),
         set_likes_count ty pk (n + -1)
           (set_likes (λ rows, take i rows ++ drop (S i) rows) db0))
  | unlike_spec_fail r :
      is_failure r → unlike_spec ty user pk db0 (r, db0).

(** A flag as a count. *)
Definition b2z (b : bool) : Z := if b then 1 else 0.

(** The karma a recipient has accumulated in the ledger. *)
Definition karma_sum (user : Z) (rows : list KarmaTransaction) : Z :=
  foldr Z.add 0 (kt_amount <$> filter (λ t, kt_user_id t = user) rows).

(** The amounts a like writes to the ledger. *)
Definition like_amount (t : KarmaTransaction) : Prop :=
  (kt_amount t = 5 ∨ kt_amount t = 1) ∧ 0 < kt_amount t.

(** The same request sent by an authenticated user. *)
Definition authenticated (user : Z) (request : Request) : Request :=
  mkRequest (Some user) (data_content request) (data_post request) (data_parent request).

(** ** The leaderboard *)

(** The karma of a recipient in the window, as the spec words it: the sum
    of the amounts of the transactions credited to the recipient whose
    timestamp is at least [now] minus 24 hours. *)
Definition window_sum (now : Z) (user : Z) (rows : list KarmaTransaction) : Z :=
  foldr Z.add 0
    (kt_amount <$>
       filter (λ t, kt_user_id t = user ∧ now - 24 * 3600 * 1000000 ≤ kt_created_at t)
              rows).

(** The rows the query aggregates. *)
Definition recent (now : Z) (db : Db) : list KarmaTransaction :=
  created_at__gte (twenty_four_hours_ago now) (karma_transactions db).

(** [user_id], [karma_24h] and [rank] of an entry. *)
Definition entry_row (e : Entry) : Z * Z * Z :=
  ((entry_user e).1, entry_karma_24h e, entry_rank e).

(** [result] as built by the loop of [get]. *)
Definition rank_entries (users : gmap Z User) (data : list (Z * Z)) (start : Z)
    : list Entry :=
  omap (λ '(rank, entry),
          match users !! entry.1 with
          | Some user => Some (mkEntry (entry.1, user) entry.2 rank)
          | None => None
          end)
       (enumerate data start).

(** [users], the rows fetched for the listed recipients. *)
Definition fetched_users (now : Z) (db : Db) : gmap Z User :=
  filter (λ kv, kv.1 ∈ (leaderboard_data now db).*1) (users db).

(** The grouped rows of positive karma, before ordering and the cut at 5. *)
Definition positive (now : Z) (db : Db) : list (Z * Z) :=
  filter (λ entry, 0 < entry.2) (annotate_karma_24h (recent now db)).

(** ** Stores for the examples *)

Definition hours (h : Z) : Z := h * 3600 * 1000000.

(** A transaction credited to [user] that is [age] hours old at time
    [hours 100]. *)
Definition aged (user amount age : Z) : KarmaTransaction :=
  mkKarmaTransaction user amount
    (if bool_decide (amount = 1) then REASON_COMMENT_LIKE else REASON_POST_LIKE)
    0 None (hours 100 - hours age).

(** The ledger of [LeaderboardTestCase.setUp] in [tests.py]. *)
Definition test_ledger : list KarmaTransaction :=
  ((λ i, aged 1 5 (Z.of_nat i)) <$> seq 0 5)
  ++ ((λ i, aged 2 5 (Z.of_nat i + 1)) <$> seq 0 3)
  ++ ((λ i, aged 2 1 (Z.of_nat i `mod` 24)) <$> seq 0 15)
  ++ ((λ i, aged 3 5 (Z.of_nat i + 1)) <$> seq 0 2)
  ++ ((λ i, aged 3 5 (30 + Z.of_nat i)) <$> seq 0 10).

(** The users of that test: their [total_karma] is unrelated to the ledger. *)
Definition test_db : Db :=
  mkDb {[ 1 := mkUser "user1" "" 1000; 2 := mkUser "user2" "" 500;
          3 := mkUser "user3" "" 2000 ]} ∅ ∅ [] test_ledger.

(** Seven recipients with positive karma, one whose amounts cancel, one
    whose only transaction is too old. *)
Definition crowded_db : Db :=
  mkDb (list_to_map ((λ i, (Z.of_nat i, mkUser ("user" +:+ pretty i) "" 0)) <$> seq 1 9))
       ∅ ∅ []
       (((λ i, aged (Z.of_nat i) (Z.of_nat i) 1) <$> seq 1 7)
        ++ [aged 8 5 2; aged 8 (-5) 1; aged 9 50 25]).

(** ** Invariants of the store *)

(** The triple [unique_together] speaks of. *)
Definition like_key (l : Like) : Z * TargetType * Z :=
  (like_user_id l, like_target_type l, like_target_id l).

(** No two [Like] rows for one (user, target type, target id). *)
Definition likes_unique (db : Db) : Prop := NoDup (like_key <$> likes db).

(** Every [Like] row points at a post or a comment of the store. *)
Definition likes_have_targets (db : Db) : Prop :=
  ∀ l, l ∈ likes db →
       is_Some (likes_count (like_target_type l) (like_target_id l) db).

(** What serving one request can do to the store: a like goes through, an
    unlike goes through, or rows are at most added to [users], [posts] and
    [comments]. *)
Inductive request_effect (db : Db) : Db → Prop :=
  | effect_liked ty now user pk n author a db0 :
      user_added db db0 →
      likes_count ty pk db0 = Some n →
      target_author ty pk db0 = Some author →
      List.filter (like_matches user ty pk) (likes db0) = [] →
      users db0 !! author = Some a →
      0 ≤ n + 1 → 0 ≤ total_karma a + karma_for ty →
      request_effect db (liked_db ty now user pk n author a db0)
  | effect_unliked ty user pk n i db0 :
      user_added db db0 →
      likes_count ty pk db0 = Some n →
      find_like user ty pk (likes db0) = Some i →
      0 ≤ n + -1 →
      request_effect db
        (set_likes_count ty pk (n + -1)
           (set_likes (λ rows, take i rows ++ drop (S i) rows) db0))
  | effect_created db' :
      creates_only db db' → request_effect db db'.

(** One request, as a change of the store: the user is resolved, and then
    nothing more happens, or a like is recorded, or a like is removed, or a
    post or a comment is inserted under a new key. *)
Inductive request_step (db : Db) : Db → Prop :=
  | step_none : request_step db db
  | step_resolved request user db0 :
      resolved request db user db0 → request_step db db0
  | step_liked request user db0 ty now pk n author a :
      resolved request db user db0 →
      likes_count ty pk db0 = Some n →
      target_author ty pk db0 = Some author →
      List.filter (like_matches user ty pk) (likes db0) = [] →
      users db0 !! author = Some a →
      0 ≤ n + 1 → 0 ≤ total_karma a + karma_for ty →
      request_step db (liked_db ty now user pk n author a db0)
  | step_unliked request user db0 ty pk n i :
      resolved request db user db0 →
      likes_count ty pk db0 = Some n →
      find_like user ty pk (likes db0) = Some i → 0 ≤ n + -1 →
      request_step db
        (set_likes_count ty pk (n + -1)
           (set_likes (λ rows, take i rows ++ drop (S i) rows) db0))
  | step_post_created request user db0 content now :
      resolved request db user db0 →
      request_step db
        (set_posts (insert (next_pk (posts db0)) (mkPost user content 0 now)) db0)
  | step_comment_created request user db0 post parent content now :
      resolved request db user db0 →
      is_Some (posts db0 !! post) →
      (∀ pid, parent = Some pid →
         ∃ p, comments db0 !! pid = Some p ∧ comment_post_id p = post) →
      request_step db
        (set_comments
           (insert (next_pk (comments db0)) (mkComment post parent user content 0 now))
           db0).

(** [User.username] is unique. *)
Definition usernames_unique (db : Db) : Prop :=
  ∀ pk1 pk2 u1 u2,
    users db !! pk1 = Some u1 → users db !! pk2 = Some u2 →
    username u1 = username u2 → pk1 = pk2.

(** Every comment is on a post of the store, and its parent, when it has
    one, is an older comment on the same post. *)
Definition comments_ok (db : Db) : Prop :=
  ∀ pk c, comments db !! pk = Some c →
    is_Some (posts db !! comment_post_id c)
    ∧ ∀ pid, comment_parent_id c = Some pid →
        pid < pk
        ∧ ∃ p, comments db !! pid = Some p ∧ comment_post_id p = comment_post_id c.

(** The counter of a target is at least the number of its [Like] rows. *)
Definition counters_cover (db : Db) : Prop :=
  ∀ ty pk n, likes_count ty pk db = Some n →
    Z.of_nat (length (like_rows ty pk db)) ≤ n.

(** The recipient of every ledger row is a user of the store. *)
Definition recipients_exist (db : Db) : Prop :=
  ∀ t, t ∈ karma_transactions db → is_Some (users db !! kt_user_id t).

(** ** The forest the builder leaves *)

(** The object under which the second pass hangs the object [i], given the
    map from ids to objects the first pass made. *)
Definition parent_object (comments : list (Z * Comment)) (cm : gmap Z nat)
    (i : nat) : option nat :=
  c ← comments !! i; pid ← comment_parent_id c.2; cm !! pid.

(** An object that is [d] replies below a root. *)
Inductive at_depth (comments : list (Z * Comment)) (cm : gmap Z nat)
    : nat → nat → Prop :=
  | depth_root r c :
      comments !! r = Some c → comment_parent_id c.2 = None →
      at_depth comments cm r 0
  | depth_reply i p d :
      parent_object comments cm i = Some p → at_depth comments cm p d →
      at_depth comments cm i (S d).

(** The objects whose comment names [id] as its parent, in input order. *)
Definition replies_of (comments : list (Z * Comment)) (id : Z) : list nat :=
  (filter (λ obj, comment_parent_id obj.2.2 = Some id) (objects comments)).*1.

(** ** views.py and serializers.py: reading the comments of a post *)

(** [get_user_liked_ids(user, target_type, target_ids)]; [user] is what
    [_get_current_user] returned, an object of the model (whose
    [is_authenticated] is true) or nothing. *)
Definition get_user_liked_ids (user : option Z) (target_type : TargetType)
    (target_ids : list Z) : Query (gset Z) :=
  match user with
  | None => ret ∅
  | Some user =>
      read (λ db,
        list_to_set
          (like_target_id <$>
             filter (λ l, like_user_id l = user ∧ like_target_type l = target_type
                          ∧ like_target_id l ∈ target_ids)
                    (likes db)))
  end.

(** [Comment.objects.filter(post=post).order_by('created_at')]: the order
    of comments of equal [created_at] is the store's; the model sorts with a
    merge sort. *)
Definition created_le (a b : Z * Comment) : Prop :=
  comment_created_at a.2 ≤ comment_created_at b.2.

#[global] Instance created_le_dec a b : Decision (created_le a b).
Proof. unfold created_le. apply _. Defined.

Definition comments_of_post (pk : Z) : Query (list (Z * Comment)) :=
  read (λ db, merge_sort created_le
                (filter (λ kc, comment_post_id kc.2 = pk) (map_to_list (comments db)))).

(** [CommentSerializer.get_liked_by_current_user]: the flag the view
    attached, for a request with an authenticated user; without the flag,
    a query; for any other request, [False]. *)
Definition get_liked_by_current_user (request : Request) (db : Db) (a : Attrs)
    (obj : nat) (id : Z) : bool :=
  match request_user request with
  | Some user =>
      match _liked_by_user a !! obj with
      | Some liked => liked
      | None =>
          match List.filter (like_matches user TARGET_COMMENT id) (likes db) with
          | [] => false
          | _ :: _ => true
          end
      end
  | None => false
  end.

(** [CommentSerializer] on one object: [get_replies] serializes the
    attached replies with the same serializer, or gives [[]] when none are
    attached.  [None] when the recursion is deeper than [fuel]. *)
Fixpoint to_representation (fuel : nat) (request : Request) (db : Db)
    (comments : list (Z * Comment)) (a : Attrs) (obj : nat) : option Rendered :=
  match fuel with
  | O => None
  | S fuel' =>
      match comments !! obj with
      | None => None
      | Some (id, _) =>
          replies ← match _prefetched_replies a !! obj with
                    | Some replies =>
                        mapM (to_representation fuel' request db comments a) replies
                    | None => Some []
                    end;
          Some (Node id (get_liked_by_current_user request db a obj id) replies)
      end
  end.

(** What a read answers. *)
Inductive Listing (A : Type) :=
  | Listed (data : A)          (* 200 *)
  | ListingNotFound            (* 404 *)
  | ListingError (e : Exc).    (* an exception no view catches: 500 *)
Arguments Listed {A} data.
Arguments ListingNotFound {A}.
Arguments ListingError {A} e.

Definition listing {A} (m : Query (Listing A)) : Db → Listing A * Db :=
  λ db, match m db with
        | (inr r, db') => (r, db')
        | (inl e, db') => (ListingError e, db')
        end.

(** [Post.objects.select_related('author').order_by('-created_at')] *)
Definition newest_first (a b : Z * Post) : Prop :=
  post_created_at b.2 ≤ post_created_at a.2.

#[global] Instance newest_first_dec a b : Decision (newest_first a b).
Proof. unfold newest_first. apply _. Defined.

(** The loop that fills [comments_by_post]. *)
Definition group_by_post (comments_by_post : gmap Z (list (Z * Comment)))
    (comment : Z * Comment) : gmap Z (list (Z * Comment)) :=
  let post_id := comment_post_id comment.2 in
  let comments_by_post :=
    match comments_by_post !! post_id with
    | None => <[post_id := []]> comments_by_post
    | Some _ => comments_by_post
    end in
  alter (λ l, l ++ [comment]) post_id comments_by_post.

(** What [PostSerializer] shows of a post: [id], [likes_count],
    [liked_by_current_user], [comment_count] and [comments]. *)
Record PostData := mkPostData {
  data_id : Z;
  data_likes_count : Z;
  data_liked_by_current_user : bool;
  data_comment_count : nat;
  data_comments : option (list Rendered);
}.

Module PostViewSetGet.
Local Open Scope query_scope.

(** [PostViewSet.comments], the branch of [request.method == 'GET'].  The
    data is [None] when serializing does not end within the fuel. *)
Definition comments (request : Request) (pk : Z)
    : Db → Listing (option (list Rendered)) * Db :=
  listing (
    post <- try_except (post <- get_post pk ;; ret (Some post))
              (λ e, match e with
                    | Post_DoesNotExist => Some (ret None)
                    | _ => None
                    end) ;;
    match post with
    | None => ret ListingNotFound
    | Some _ =>
        user <- _get_current_user request ;;
        comments <- comments_of_post pk ;;
        let comment_ids := comments.*1 in
        comment_liked_ids <- get_user_liked_ids user TARGET_COMMENT comment_ids ;;
        let '(comment_tree, a) :=
          build_comment_tree comments user (Some comment_liked_ids) in
        data <- read (λ db, mapM (to_representation (S (length comments)) request db
                                    comments a) comment_tree) ;;
        ret (Listed data)
    end).

(** [PostViewSet.list] *)
Definition list (request : Request) : Db → Listing (list PostData) * Db :=
  listing (
    posts <- read (λ db, take 20 (merge_sort newest_first (map_to_list (posts db)))) ;;
    let post_ids := posts.*1 in
    user <- _get_current_user request ;;
    all_comments <- read (λ db,
      merge_sort created_le
        (filter (λ kc, comment_post_id kc.2 ∈ post_ids)
                (map_to_list (Models.comments db)))) ;;
    let comments_by_post := foldl group_by_post ∅ all_comments in
    post_liked_ids <- get_user_liked_ids user TARGET_POST post_ids ;;
    let comment_ids := all_comments.*1 in
    comment_liked_ids <- get_user_liked_ids user TARGET_COMMENT comment_ids ;;
    data <- read (λ db,
      (λ post : Z * Post,
         let _liked_by_user := bool_decide (post.1 ∈ post_liked_ids) in
         let post_comments := default [] (comments_by_post !! post.1) in
         let '(_comment_tree, a) :=
           build_comment_tree post_comments user (Some comment_liked_ids) in
         let _comment_count := length post_comments in
         mkPostData post.1 (post_likes_count post.2)
           (match request_user request with
            | Some _ => _liked_by_user
            | None => false
            end)
           _comment_count
           (mapM (to_representation (S (length post_comments)) request db
                    post_comments a) _comment_tree))
      <$> posts) ;;
    ret (Listed data)).

End PostViewSetGet.

(** The [(id, liked_by_current_user)] pairs of a serialized comment and of
    the replies nested in it. *)
Fixpoint flags (t : Rendered) : list (Z * bool) :=
  match t with
  | Node id liked replies =>
      (id, liked)
      :: (fix go (l : list Rendered) : list (Z * bool) :=
            match l with
            | [] => []
            | t :: l => flags t ++ go l
            end) replies
  end.

(** ** admin.py *)

Module PostAdmin.

(** [PostAdmin.content_preview] (and [CommentAdmin.content_preview], the
    same body):
    [obj.content[:50] + '...' if len(obj.content) > 50 else obj.content] *)
Definition content_preview (content : string) : string :=
  if (50 <? String.length content)%nat
  then String.substring 0 50 content +:+ "..."
  else content.

End PostAdmin.

(** Every [Like] row has its ledger row: the karma of the like was
    credited, with the liker and the target as the like names them. *)
Definition likes_paid (db : Db) : Prop :=
  ∀ l, l ∈ likes db →
    ∃ t, t ∈ karma_transactions db
         ∧ kt_liker_id t = Some (like_user_id l)
         ∧ kt_source_id t = like_target_id l
         ∧ kt_reason t = reason_for (like_target_type l)
         ∧ kt_amount t = karma_for (like_target_type l).

(** * Properties *)

(** ** The store and the current user *)

Lemma next_pk_above {V} (m : gmap Z V) k :
  is_Some (m !! k) → k < next_pk m.
Proof.
  unfold next_pk.
  apply (map_fold_weak_ind
           (λ r (m : gmap Z V), is_Some (m !! k) → k < 1 + r)).
  - rewrite lookup_empty. by intros [? ?].
  - intros i x m' r _ IH. rewrite lookup_insert.
    case_decide as Hik; [lia|]. intros Hk. specialize (IH Hk). lia.
Qed.

Lemma next_pk_fresh {V} (m : gmap Z V) : m !! next_pk m = None.
Proof.
  destruct (m !! next_pk m) eqn:E; [|done].
  pose proof (next_pk_above m (next_pk m) (mk_is_Some _ _ E)). lia.
Qed.

Lemma users_with_username_insert name pk u (m : gmap Z User) :
  m !! pk = None → username u = name → users_with_username name m = [] →
  users_with_username name (<[pk := u]> m) = [(pk, u)].
Proof.
  intros Hpk Hu Hnone. unfold users_with_username in *.
  apply Permutation_singleton_r.
  rewrite (map_to_list_insert m pk u Hpk), filter_cons, Hnone.
  by rewrite decide_True.
Qed.

Lemma users_with_username_update name pk u u' (m : gmap Z User) :
  m !! pk = Some u → username u' = username u →
  (users_with_username name (<[pk := u']> m)).*1 ≡ₚ (users_with_username name m).*1.
Proof.
  intros Hpk Hu. unfold users_with_username.
  rewrite <- (insert_delete_id m pk u Hpk) at 2.
  rewrite <- (insert_delete_eq m pk u').
  rewrite !map_to_list_insert by apply lookup_delete_eq.
  rewrite !filter_cons. cbn. rewrite Hu.
  by destruct (decide (username u = name)).
Qed.

(** It returns a user, or fails on a store with two demo users. *)
Lemma _get_current_user_cases request db :
  (∃ user db0, _get_current_user request db = (inr (Some user), db0)
               ∧ resolved request db user db0)
  ∨ _get_current_user request db = (inl User_MultipleObjectsReturned, db).
Proof.
  unfold _get_current_user, users_get_or_create, bind, ret.
  destruct (request_user request) as [user|] eqn:Hu.
  - left. exists user, db. split; [done|]. by constructor 1.
  - destruct (users_with_username "demo_user" (users db))
      as [|[pk u] [|? ?]] eqn:Hf.
    + left. eexists _, _. split; [done|]. by constructor 3.
    + left. exists pk, db. split; [done|]. by econstructor 2.
    + by right.
Qed.

Lemma _get_current_user_inv request db user db0 :
  _get_current_user request db = (inr user, db0) →
  ∃ user', user = Some user' ∧ resolved request db user' db0.
Proof.
  intros Hcur.
  destruct (_get_current_user_cases request db) as [(u & d & Hu & Hres)|Hfail];
    rewrite Hcur in *; simplify_eq. eauto.
Qed.

Lemma resolved_again request db user db0 :
  resolved request db user db0 →
  _get_current_user request db0 = (inr (Some user), db0).
Proof.
  unfold _get_current_user, users_get_or_create, bind, ret.
  intros [Hu -> | u Hu Hf -> | Hu Hf -> ->]; rewrite Hu; [done| |].
  - by rewrite Hf.
  - cbn. rewrite users_with_username_insert; [done| |done|done].
    apply next_pk_fresh.
Qed.

(** A resolved user stays resolved when a row of [users] is rewritten
    under the same name. *)
Lemma resolved_stable request db user db0 pk u u' db1 :
  resolved request db user db0 →
  users db0 !! pk = Some u → username u' = username u →
  users db1 = <[pk := u']> (users db0) →
  _get_current_user request db1 = (inr (Some user), db1).
Proof.
  intros Hres Hpk Hname Hdb1. apply resolved_again in Hres. revert Hres.
  unfold _get_current_user, users_get_or_create, bind, ret.
  destruct (request_user request) as [x|]; [by intros [= ->]|].
  pose proof (users_with_username_update "demo_user" pk u u' (users db0) Hpk Hname)
    as Hperm.
  rewrite <- Hdb1 in Hperm.
  destruct (users_with_username "demo_user" (users db0)) as [|[k v] [|? ?]] eqn:Hf;
    cbn; [|intros [= ->]|done].
  - intros [= Hk Hdb]. exfalso.
    assert (users (set_users (insert (next_pk (users db0))
              (mkUser "demo_user" demo_avatar 100)) db0) = users db0) as Hu
      by (by rewrite Hdb).
    cbn in Hu.
    pose proof (lookup_insert_eq (users db0) (next_pk (users db0))
                  (mkUser "demo_user" demo_avatar 100)) as Hl.
    by rewrite Hu, next_pk_fresh in Hl.
  - apply Permutation_singleton_r in Hperm.
    destruct (users_with_username "demo_user" (users db1)) as [|[k' v'] [|? ?]];
      by simplify_eq/=.
Qed.

Lemma user_added_refl db : user_added db db.
Proof. by repeat split. Qed.

Lemma resolved_frame request db user db0 :
  resolved request db user db0 → user_added db db0.
Proof.
  intros [Hu -> | u Hu Hf -> | Hu Hf -> ->]; repeat split; try done.
  cbn. apply insert_subseteq, next_pk_fresh.
Qed.

(** ** The like / unlike coordinator *)

Ltac unfold_view :=
  unfold like_target, unlike_target, like_result, unlike_result, liked_db,
    PostViewSet.like, PostViewSet.unlike, CommentViewSet.like, CommentViewSet.unlike,
    respond, try_except, atomic, bind, ret, read, write, get_post, get_comment,
    get_user, likes_exists, likes_filter, likes_first, like_delete, likes_create,
    posts_update_likes_count, comments_update_likes_count, users_update_total_karma,
    karma_transactions_create, likes_count, target_author, set_likes_count.

Lemma like_target_result ty now request pk db user db0 :
  _get_current_user request db = (inr (Some user), db0) →
  like_target ty now request pk db = like_result ty now user pk db0.
Proof.
  intros Hres. destruct ty; unfold_view; rewrite Hres; cbn.
  - destruct (posts db0 !! pk) as [p|] eqn:Hp; cbn; [|done].
    destruct (List.filter _ (likes db0)) eqn:Hf; cbn; [|done].
    rewrite Hf; cbn. rewrite Hp; cbn. case_bool_decide; cbn; [|done].
    destruct (users db0 !! post_author_id p) as [a|] eqn:Ha; cbn;
      rewrite ?Ha; cbn; [|done].
    case_bool_decide; cbn; [|done].
    rewrite lookup_insert_eq. unfold set_posts at 2; cbn. by rewrite Hp.
  - destruct (comments db0 !! pk) as [c|] eqn:Hc; cbn; [|done].
    destruct (List.filter _ (likes db0)) eqn:Hf; cbn; [|done].
    rewrite Hf; cbn. rewrite Hc; cbn. case_bool_decide; cbn; [|done].
    destruct (users db0 !! comment_author_id c) as [a|] eqn:Ha; cbn;
      rewrite ?Ha; cbn; [|done].
    case_bool_decide; cbn; [|done].
    rewrite lookup_insert_eq. unfold set_comments at 2; cbn. by rewrite Hc.
Qed.

Lemma unlike_target_result ty request pk db user db0 :
  _get_current_user request db = (inr (Some user), db0) →
  unlike_target ty request pk db = unlike_result ty user pk db0.
Proof.
  intros Hres. destruct ty; unfold_view; rewrite Hres; cbn.
  - destruct (posts db0 !! pk) as [p|] eqn:Hp; cbn; [|done].
    destruct (find_like _ _ _ (likes db0)) eqn:Hf; cbn; [|done].
    rewrite ?Hp; cbn. case_bool_decide; cbn; [|done].
    rewrite lookup_insert_eq. unfold set_posts at 2; cbn. by rewrite Hp.
  - destruct (comments db0 !! pk) as [c|] eqn:Hc; cbn; [|done].
    destruct (find_like _ _ _ (likes db0)) eqn:Hf; cbn; [|done].
    rewrite ?Hc; cbn. case_bool_decide; cbn; [|done].
    rewrite lookup_insert_eq. unfold set_comments at 2; cbn. by rewrite Hc.
Qed.

(** ** The program logic and the views that create rows *)

Section sat_rules.
Context (R : relation Db) `{!PreOrder R}.

Lemma sat_ret {A} (Q : A → Prop) a : Q a → sat R Q (ret a).
Proof. intros HQ db. split; [reflexivity|done]. Qed.

Lemma sat_raise {A} (Q : A → Prop) e : sat R Q (raise e).
Proof. intros db. split; [reflexivity|done]. Qed.

Lemma sat_read {A} (Q : A → Prop) (f : Db → A) : (∀ db, Q (f db)) → sat R Q (read f).
Proof. intros HQ db. split; [reflexivity|apply HQ]. Qed.

Lemma sat_bind {A B} (Q1 : A → Prop) (Q : B → Prop) m (k : A → Query B) :
  sat R Q1 m → (∀ a, Q1 a → sat R Q (k a)) → sat R Q (bind m k).
Proof.
  intros Hm Hk db. unfold bind. specialize (Hm db).
  destruct (m db) as [[e|a] db1]; cbn in *; [by destruct Hm|].
  destruct Hm as [HR Ha]. destruct (Hk a Ha db1) as [HR' HQ].
  split; [by etrans|done].
Qed.

Lemma sat_try_except {A} (Q : A → Prop) body handler :
  sat R Q body → (∀ e h, handler e = Some h → sat R Q h) →
  sat R Q (try_except body handler).
Proof.
  intros Hb Hh db. unfold try_except. specialize (Hb db).
  destruct (body db) as [[e|a] db1]; cbn in *; [|done].
  destruct Hb as [HR _]. destruct (handler e) as [h|] eqn:He; [|done].
  destruct (Hh e h He db1) as [HR' HQ]. split; [by etrans|done].
Qed.

Lemma sat_atomic {A} (Q : A → Prop) (body : Query A) :
  sat R Q body → sat R Q (atomic body).
Proof.
  intros Hb db. unfold atomic. specialize (Hb db).
  destruct (body db) as [[e|a] db1]; [|done]. split; [reflexivity|done].
Qed.

Lemma sat_weaken {A} (Q Q' : A → Prop) m :
  sat R Q m → (∀ a, Q a → Q' a) → sat R Q' m.
Proof.
  intros Hm HQ db. specialize (Hm db).
  destruct (m db) as [[e|a] db1]; cbn in *; [done|]. split; [apply Hm|].
  apply HQ, Hm.
Qed.

Lemma sat_respond (Q : Response → Prop) m db :
  sat R Q m → (∀ e, Q (ServerError e)) →
  R db (respond m db).2 ∧ Q (respond m db).1.
Proof.
  intros Hm He. unfold respond. specialize (Hm db).
  destruct (m db) as [[e|r] db1]; cbn in *; [|done].
  split; [apply Hm|apply He].
Qed.
End sat_rules.

#[local] Instance creates_only_preorder : PreOrder creates_only.
Proof.
  split.
  - by intros db.
  - intros db1 db2 db3 (?&?&?&Hl&Hk) (?&?&?&Hl'&Hk').
    repeat split; try (by etrans); congruence.
Qed.

Lemma sat_get_current_user request :
  sat creates_only is_Some (_get_current_user request).
Proof.
  intros db.
  destruct (_get_current_user_cases request db) as [(user & db0 & -> & Hres)| ->].
  - destruct (resolved_frame _ _ _ _ Hres) as (Hp & Hc & Hl & Hk & Hu).
    cbn. split; [|done]. repeat split; try done; by rewrite ?Hp, ?Hc.
  - split; [reflexivity|done].
Qed.

Lemma sat_posts_create author content now :
  sat creates_only (λ _, True) (posts_create author content now).
Proof.
  intros db. split; [|done]. repeat split; try done.
  apply insert_subseteq, next_pk_fresh.
Qed.

Lemma sat_comments_create post author content parent now :
  sat creates_only (λ _, True) (comments_create post author content parent now).
Proof.
  intros db. split; [|done]. repeat split; try done.
  apply insert_subseteq, next_pk_fresh.
Qed.

Lemma sat_get_post pk : sat creates_only (λ _, True) (get_post pk).
Proof. intros db. unfold get_post. by destruct (posts db !! pk). Qed.

Ltac sat_step :=
  first
    [ simple apply sat_ret; [apply _|]
    | simple apply sat_raise; apply _
    | simple apply sat_atomic; [apply _|]
    | simple apply sat_posts_create
    | simple apply sat_comments_create
    | simple apply sat_get_post
    | simple apply sat_read; [apply _|intros ?]
    | simple apply sat_try_except; [apply _| |intros ? ? ?]
    | eapply sat_bind;
        [apply _|simple apply sat_get_current_user|intros [?|] [? ?]; [|done]]
    | eapply (sat_bind _ (λ _, True)); [|intros ? _]
    | match goal with
      | H : match ?e with _ => _ end = Some _ |- _ => destruct e; simplify_eq
      | |- sat _ _ (match ?x with _ => _ end) => destruct x eqn:?
      | |- sat _ _ (if ?x then _ else _) => destruct x eqn:?
      | |- sat _ _ (let _ := _ in _) => cbv zeta
      end ].

Lemma create_views_frame op db :
  match op with OpLike _ _ _ _ | OpUnlike _ _ _ => False | _ => True end →
  creates_only db (run_op op db).2 ∧ (run_op op db).1 ≠ Unauthorized.
Proof.
  destruct op as [| |now request|now request|now request pk]; try done; intros _; cbn.
  - unfold PostViewSet.create.
    apply (sat_respond creates_only (λ r, r ≠ Unauthorized)); [|done].
    repeat sat_step; try done.
  - unfold CommentViewSet.create.
    apply (sat_respond creates_only (λ r, r ≠ Unauthorized)); [|done].
    repeat sat_step; try done.
  - unfold PostViewSet.comments.
    apply (sat_respond creates_only (λ r, r ≠ Unauthorized)); [|done].
    repeat sat_step; try done.
Qed.

(** *** Effect of one request on one target *)

Lemma like_result_spec ty now user pk db0 :
  like_spec ty now user pk db0 (like_result ty now user pk db0).
Proof.
  unfold like_result.
  destruct (likes_count ty pk db0) as [n|] eqn:Hn; [|by constructor].
  destruct (target_author ty pk db0) as [author|] eqn:Ha; [|by constructor].
  destruct (List.filter _ _) eqn:Hf; [|by constructor].
  case_bool_decide; [|by constructor].
  destruct (users db0 !! author) as [a|] eqn:Hu; [|by constructor].
  case_bool_decide; [|by constructor].
  by eapply like_spec_ok.
Qed.

Lemma unlike_result_spec ty user pk db0 :
  unlike_spec ty user pk db0 (unlike_result ty user pk db0).
Proof.
  unfold unlike_result.
  destruct (likes_count ty pk db0) as [n|] eqn:Hn; [|by constructor].
  destruct (find_like _ _ _ _) as [i|] eqn:Hf; [|by constructor].
  case_bool_decide; [|by constructor].
  by eapply unlike_spec_ok.
Qed.

(** How a request on a target is served: the user is resolved and the
    transaction runs in the store that leaves, or resolving the user fails. *)
Lemma like_target_spec ty now request pk db :
  (∃ user db0, _get_current_user request db = (inr (Some user), db0)
     ∧ resolved request db user db0
     ∧ like_spec ty now user pk db0 (like_target ty now request pk db))
  ∨ like_target ty now request pk db = (ServerError User_MultipleObjectsReturned, db).
Proof.
  destruct (_get_current_user_cases request db) as [(user & db0 & Hcur & Hres)|Hfail].
  - left. exists user, db0. split_and!; [done..|].
    rewrite (like_target_result _ _ _ _ _ _ _ Hcur). apply like_result_spec.
  - right. destruct ty; unfold_view; by rewrite Hfail.
Qed.

Lemma unlike_target_spec ty request pk db :
  (∃ user db0, _get_current_user request db = (inr (Some user), db0)
     ∧ resolved request db user db0
     ∧ unlike_spec ty user pk db0 (unlike_target ty request pk db))
  ∨ unlike_target ty request pk db = (ServerError User_MultipleObjectsReturned, db).
Proof.
  destruct (_get_current_user_cases request db) as [(user & db0 & Hcur & Hres)|Hfail].
  - left. exists user, db0. split_and!; [done..|].
    rewrite (unlike_target_result _ _ _ _ _ _ Hcur). apply unlike_result_spec.
  - right. destruct ty; unfold_view; by rewrite Hfail.
Qed.

(** The same, keeping only what the store looked like. *)
Lemma like_target_frame ty now request pk db :
  ∃ user db0, user_added db db0
    ∧ like_spec ty now user pk db0 (like_target ty now request pk db).
Proof.
  destruct (like_target_spec ty now request pk db) as [(user & db0 & _ & Hres & H)| ->].
  - exists user, db0. eauto using resolved_frame.
  - exists 0, db. split; [apply user_added_refl|by constructor].
Qed.

Lemma unlike_target_frame ty request pk db :
  ∃ user db0, user_added db db0
    ∧ unlike_spec ty user pk db0 (unlike_target ty request pk db).
Proof.
  destruct (unlike_target_spec ty request pk db) as [(user & db0 & _ & Hres & H)| ->].
  - exists user, db0. eauto using resolved_frame.
  - exists 0, db. split; [apply user_added_refl|by constructor].
Qed.

Lemma likes_count_set_likes_count ty pk ty' pk' m db :
  likes_count ty pk (set_likes_count ty' pk' m db)
  = if bool_decide (ty' = ty) && bool_decide (pk' = pk)
    then (λ _, m) <$> likes_count ty pk db
    else likes_count ty pk db.
Proof.
  destruct ty, ty'; cbn; try (by rewrite andb_false_l); rewrite andb_true_l.
  - case_bool_decide as Hpk.
    + subst. destruct (posts db !! pk) eqn:E; rewrite ?lookup_insert_eq, ?E; by cbn.
    + destruct (posts db !! pk') eqn:E; [|done]. by rewrite lookup_insert_ne.
  - case_bool_decide as Hpk.
    + subst. destruct (comments db !! pk) eqn:E; rewrite ?lookup_insert_eq, ?E; by cbn.
    + destruct (comments db !! pk') eqn:E; [|done]. by rewrite lookup_insert_ne.
Qed.

Lemma user_added_likes_count db db0 ty pk :
  user_added db db0 → likes_count ty pk db0 = likes_count ty pk db.
Proof. intros (Hp & Hc & _). destruct ty; cbn; congruence. Qed.

Lemma user_added_target_author db db0 ty pk :
  user_added db db0 → target_author ty pk db0 = target_author ty pk db.
Proof. intros (Hp & Hc & _). destruct ty; cbn; congruence. Qed.

Lemma user_added_like_rows db db0 ty pk :
  user_added db db0 → like_rows ty pk db0 = like_rows ty pk db.
Proof. intros (_ & _ & Hl & _). unfold like_rows. by rewrite Hl. Qed.

Lemma find_like_Some user ty pk rows i :
  find_like user ty pk rows = Some i →
  ∃ l, rows !! i = Some l ∧ like_matches user ty pk l = true.
Proof.
  revert i. induction rows as [|l rows IH]; intros i; cbn; [done|].
  destruct (like_matches user ty pk l) eqn:Hm.
  - intros [= <-]. by exists l.
  - destruct (find_like user ty pk rows) as [j|]; [|done].
    intros [= <-]. by apply IH.
Qed.

Lemma find_like_None user ty pk rows :
  find_like user ty pk rows = None ↔ List.filter (like_matches user ty pk) rows = [].
Proof.
  induction rows as [|l rows IH]; cbn; [done|].
  destruct (like_matches user ty pk l); [done|].
  destruct (find_like user ty pk rows); cbn; [|tauto].
  split; [done|]. intros H. by apply IH in H.
Qed.

Lemma like_matches_spec user ty pk l :
  like_matches user ty pk l = true ↔
  like_user_id l = user ∧ like_target_type l = ty ∧ like_target_id l = pk.
Proof.
  unfold like_matches. rewrite !andb_true_iff, !bool_decide_eq_true. tauto.
Qed.

Lemma like_rows_delete ty pk ty' pk' user i db :
  find_like user ty' pk' (likes db) = Some i →
  Z.of_nat (length (like_rows ty pk
     (set_likes (λ rows, take i rows ++ drop (S i) rows) db)))
  = Z.of_nat (length (like_rows ty pk db))
    - (if bool_decide (ty' = ty) && bool_decide (pk' = pk) then 1 else 0).
Proof.
  intros Hf. apply find_like_Some in Hf as (l & Hl & Hm).
  apply like_matches_spec in Hm as (_ & Hty & Hpk).
  unfold like_rows; cbn.
  rewrite <- (take_drop_middle (likes db) i l Hl) at 3.
  rewrite !filter_app, filter_cons, !length_app.
  destruct (decide _) as [[? ?]|Hn]; cbn.
  - rewrite !bool_decide_eq_true_2 by congruence. cbn. lia.
  - destruct (bool_decide (ty' = ty)) eqn:E1; destruct (bool_decide (pk' = pk)) eqn:E2;
      cbn; try lia.
    apply bool_decide_eq_true in E1, E2. destruct Hn. split; congruence.
Qed.

Lemma like_rows_create ty pk ty' pk' user now db :
  Z.of_nat (length (like_rows ty pk
     (set_likes (λ rows, rows ++ [mkLike user ty' pk' now]) db)))
  = Z.of_nat (length (like_rows ty pk db))
    + (if bool_decide (ty' = ty) && bool_decide (pk' = pk) then 1 else 0).
Proof.
  unfold like_rows; cbn. rewrite filter_app, length_app, filter_cons; cbn.
  destruct (decide _) as [[? ?]|Hn]; cbn.
  - rewrite !bool_decide_eq_true_2 by congruence. cbn. lia.
  - destruct (bool_decide (ty' = ty)) eqn:E1; destruct (bool_decide (pk' = pk)) eqn:E2;
      cbn; try lia.
    apply bool_decide_eq_true in E1, E2. destruct Hn. split; congruence.
Qed.

Lemma like_rows_frame ty pk db db' :
  likes db' = likes db → like_rows ty pk db' = like_rows ty pk db.
Proof. unfold like_rows. by intros ->. Qed.

Lemma likes_count_liked_db ty pk ty' now user pk' n author a db0 :
  likes_count ty pk (liked_db ty' now user pk' n author a db0)
  = if bool_decide (ty' = ty) && bool_decide (pk' = pk)
    then (λ _, n + 1) <$> likes_count ty pk db0
    else likes_count ty pk db0.
Proof.
  unfold liked_db.
  transitivity (likes_count ty pk (set_likes_count ty' pk' (n + 1) db0)).
  - by destruct ty, ty'.
  - apply likes_count_set_likes_count.
Qed.

Lemma like_rows_liked_db ty pk ty' now user pk' n author a db0 :
  Z.of_nat (length (like_rows ty pk (liked_db ty' now user pk' n author a db0)))
  = Z.of_nat (length (like_rows ty pk db0))
    + (if bool_decide (ty' = ty) && bool_decide (pk' = pk) then 1 else 0).
Proof.
  rewrite <- like_rows_create with (user := user) (now := now).
  by destruct ty'.
Qed.

Lemma likes_count_unliked ty pk ty' pk' m i db0 :
  likes_count ty pk
    (set_likes_count ty' pk' m (set_likes (λ rows, take i rows ++ drop (S i) rows) db0))
  = if bool_decide (ty' = ty) && bool_decide (pk' = pk)
    then (λ _, m) <$> likes_count ty pk db0
    else likes_count ty pk db0.
Proof.
  rewrite likes_count_set_likes_count. by destruct ty.
Qed.

Lemma like_rows_unliked ty pk ty' pk' user m i db0 :
  find_like user ty' pk' (likes db0) = Some i →
  Z.of_nat (length (like_rows ty pk
    (set_likes_count ty' pk' m (set_likes (λ rows, take i rows ++ drop (S i) rows) db0))))
  = Z.of_nat (length (like_rows ty pk db0))
    - (if bool_decide (ty' = ty) && bool_decide (pk' = pk) then 1 else 0).
Proof.
  intros Hf. rewrite <- (like_rows_delete _ _ _ _ _ _ _ Hf). by destruct ty'.
Qed.

Lemma creates_only_likes_count ty pk db db' n :
  creates_only db db' → likes_count ty pk db = Some n → likes_count ty pk db' = Some n.
Proof.
  intros (_ & Hp & Hc & _). destruct ty; cbn.
  - destruct (posts db !! pk) as [p|] eqn:E; [|done].
    by rewrite (lookup_weaken _ _ _ _ E Hp).
  - destruct (comments db !! pk) as [c|] eqn:E; [|done].
    by rewrite (lookup_weaken _ _ _ _ E Hc).
Qed.

Lemma step_conservation ty pk op db n :
  likes_count ty pk db = Some n → 0 ≤ n →
  let r := (run_op op db).1 in
  let db' := (run_op op db).2 in
  let n' := n + b2z (like_created ty pk op r) - b2z (like_deleted ty pk op r) in
  likes_count ty pk db' = Some n' ∧ 0 ≤ n'
  ∧ Z.of_nat (length (like_rows ty pk db'))
    = Z.of_nat (length (like_rows ty pk db))
      + b2z (like_created ty pk op r) - b2z (like_deleted ty pk op r).
Proof.
  intros Hn Hpos.
  destruct op as [ty' now request pk'|ty' request pk'|now request|now request|now request pk'].
  - destruct (like_target_frame ty' now request pk' db) as (user & db0 & Hres & Hspec).
    rewrite <- (user_added_likes_count _ _ ty pk Hres) in Hn.
    rewrite <- (user_added_like_rows _ _ ty pk Hres).
    unfold run_op. destruct Hspec as [m author a Hm _ _ _ _ _|r Hr]; unfold fst, snd.
    + rewrite likes_count_liked_db, like_rows_liked_db. unfold like_created, like_deleted.
      destruct (bool_decide (ty' = ty) && bool_decide (pk' = pk)) eqn:E; unfold b2z.
      * apply andb_true_iff in E as [->%bool_decide_eq_true ->%bool_decide_eq_true].
        rewrite Hn in Hm |- *. simplify_eq. cbn. split_and!; [f_equal|..]; lia.
      * rewrite Hn. split_and!; [f_equal|..]; lia.
    + assert (like_created ty pk (OpLike ty' now request pk') r = false) as ->
        by (by destruct r).
      cbn. rewrite Hn. split_and!; [f_equal|..]; lia.
  - destruct (unlike_target_frame ty' request pk' db) as (user & db0 & Hres & Hspec).
    rewrite <- (user_added_likes_count _ _ ty pk Hres) in Hn.
    rewrite <- (user_added_like_rows _ _ ty pk Hres).
    unfold run_op. destruct Hspec as [m i Hm Hf Hge|r Hr]; unfold fst, snd.
    + rewrite likes_count_unliked, (like_rows_unliked _ _ _ _ _ _ _ _ Hf).
      unfold like_created, like_deleted.
      destruct (bool_decide (ty' = ty) && bool_decide (pk' = pk)) eqn:E; unfold b2z.
      * apply andb_true_iff in E as [->%bool_decide_eq_true ->%bool_decide_eq_true].
        rewrite Hn in Hm |- *. simplify_eq. cbn. split_and!; [f_equal|..]; lia.
      * rewrite Hn. split_and!; [f_equal|..]; lia.
    + assert (like_deleted ty pk (OpUnlike ty' request pk') r = false) as ->
        by (by destruct r).
      cbn. rewrite Hn. split_and!; [f_equal|..]; lia.
  - destruct (create_views_frame (OpCreatePost now request) db I) as [Hfr _].
    cbv beta iota zeta delta [like_created like_deleted b2z].
    rewrite (creates_only_likes_count _ _ _ _ _ Hfr Hn).
    rewrite (like_rows_frame _ _ _ _ (proj1 (proj2 (proj2 (proj2 Hfr))))).
    split_and!; [f_equal|..]; lia.
  - destruct (create_views_frame (OpCreateComment now request) db I) as [Hfr _].
    cbv beta iota zeta delta [like_created like_deleted b2z].
    rewrite (creates_only_likes_count _ _ _ _ _ Hfr Hn).
    rewrite (like_rows_frame _ _ _ _ (proj1 (proj2 (proj2 (proj2 Hfr))))).
    split_and!; [f_equal|..]; lia.
  - destruct (create_views_frame (OpPostComments now request pk') db I) as [Hfr _].
    cbv beta iota zeta delta [like_created like_deleted b2z].
    rewrite (creates_only_likes_count _ _ _ _ _ Hfr Hn).
    rewrite (like_rows_frame _ _ _ _ (proj1 (proj2 (proj2 (proj2 Hfr))))).
    split_and!; [f_equal|..]; lia.
Qed.

Lemma run_cons op ops db :
  run (op :: ops) db
  = ((run_op op db).1 :: (run ops (run_op op db).2).1, (run ops (run_op op db).2).2).
Proof.
  change (run (op :: ops) db)
    with (let '(r, db1) := run_op op db in
          let '(rs, db2) := run ops db1 in (r :: rs, db2)).
  destruct (run_op op db) as [r db1]; cbn [fst snd].
  by destruct (run ops db1) as [rs db2].
Qed.

(** ** Sequences of requests *)

(** C8: counter conservation.  Take a target (post or comment) whose
    [likes_count] is [n], not negative, and serve any sequence of mutating
    requests.  The counter ends at [n] plus the number of likes of the target
    that went through minus the number of unlikes of the target that went
    through, which is not negative, and the number of [Like] rows of the
    target has moved by the same difference.  For a target that starts
    without likes, [n] is 0. *)
Theorem counter_conservation ty pk ops db n :
  likes_count ty pk db = Some n → 0 ≤ n →
  let rs := (run ops db).1 in
  let db' := (run ops db).2 in
  let creates := count_where (like_created ty pk) ops rs in
  let deletes := count_where (like_deleted ty pk) ops rs in
  likes_count ty pk db' = Some (n + creates - deletes)
  ∧ 0 ≤ n + creates - deletes
  ∧ Z.of_nat (length (like_rows ty pk db'))
    = Z.of_nat (length (like_rows ty pk db)) + creates - deletes.
Proof.
  revert db n. induction ops as [|op ops IH]; intros db n Hn Hpos.
  - cbn. rewrite Hn. split_and!; [f_equal|..]; lia.
  - cbv zeta. rewrite run_cons. cbn [fst snd].
    destruct (step_conservation ty pk op db n Hn Hpos) as (Hn1 & Hpos1 & Hrows1).
    destruct (IH _ _ Hn1 Hpos1) as (Hn2 & Hpos2 & Hrows2).
    cbn [count_where]. fold (b2z (like_created ty pk op (run_op op db).1)).
    fold (b2z (like_deleted ty pk op (run_op op db).1)).
    rewrite Hn2, Hrows2, Hrows1. split_and!; [f_equal|..]; lia.
Qed.

Lemma counter_conservation_witness :
  let request := mkRequest (Some 2) "" 0 None in
  let db := mkDb {[ 1 := mkUser "alice" "" 0; 2 := mkUser "bob" "" 0 ]}
                 {[ 10 := mkPost 1 "hi" 0 0 ]} ∅ [] [] in
  let ops := [OpLike TARGET_POST 1 request 10; OpLike TARGET_POST 2 request 10;
              OpUnlike TARGET_POST request 10; OpUnlike TARGET_POST request 10;
              OpLike TARGET_POST 3 request 10] in
  (run ops db).1 = [LikeOk 1 5; AlreadyLiked; UnlikeOk 0; LikeNotFound; LikeOk 1 5]
  ∧ likes_count TARGET_POST 10 (run ops db).2 = Some (0 + 2 - 1).
Proof.
  cbv zeta. split; [vm_compute; reflexivity|].
  refine (proj1 (counter_conservation TARGET_POST 10 _ _ 0 _ _));
    [reflexivity|lia].
Defined.

(** ** Likes, unlikes and karma *)

Lemma liked_db_fields ty now user pk n author a db0 :
  let db1 := liked_db ty now user pk n author a db0 in
  users db1 = <[author := with_total_karma (total_karma a + karma_for ty) a]> (users db0)
  ∧ likes db1 = likes db0 ++ [mkLike user ty pk now]
  ∧ karma_transactions db1
    = karma_transactions db0
      ++ [mkKarmaTransaction author (karma_for ty) (reason_for ty) pk (Some user) now].
Proof. by destruct ty. Qed.

Lemma target_author_liked_db ty pk ty' now user pk' n author a db0 :
  target_author ty pk (liked_db ty' now user pk' n author a db0)
  = target_author ty pk db0.
Proof.
  destruct ty, ty'; cbn; try done.
  - destruct (posts db0 !! pk') as [p|] eqn:E; [|done].
    destruct (decide (pk' = pk)) as [->|Hne].
    + by rewrite lookup_insert_eq, E.
    + by rewrite lookup_insert_ne.
  - destruct (comments db0 !! pk') as [c|] eqn:E; [|done].
    destruct (decide (pk' = pk)) as [->|Hne].
    + by rewrite lookup_insert_eq, E.
    + by rewrite lookup_insert_ne.
Qed.

Lemma like_matches_self user ty pk now :
  like_matches user ty pk (mkLike user ty pk now) = true.
Proof. apply like_matches_spec. by cbn. Qed.

(** C3: two likes in a row by one actor on one target.  The first goes
    through and answers the new count, one more than before; the second is
    answered [AlreadyLiked] and leaves the whole store as the first left it:
    no new [Like] row, the same counter, the same ledger, the same
    [total_karma]. *)
Theorem like_twice ty now now' request pk db user db0 n author a :
  _get_current_user request db = (inr (Some user), db0) →
  likes_count ty pk db = Some n → 0 ≤ n →
  target_author ty pk db = Some author →
  users db !! author = Some a → 0 ≤ total_karma a →
  List.filter (like_matches user ty pk) (likes db) = [] →
  ∃ db1,
    like_target ty now request pk db = (LikeOk (n + 1) (karma_for ty), db1)
    ∧ like_target ty now' request pk db1 = (AlreadyLiked, db1)
    ∧ likes_count ty pk db1 = Some (n + 1).
Proof.
  intros Hcur Hn Hpos Hauthor Ha Hkarma Hnone.
  destruct (_get_current_user_inv _ _ _ _ Hcur) as (? & [= <-] & Hres).
  pose proof (resolved_frame _ _ _ _ Hres) as Hfr.
  rewrite <- (user_added_likes_count _ _ ty pk Hfr) in Hn.
  rewrite <- (user_added_target_author _ _ ty pk Hfr) in Hauthor.
  destruct Hfr as (_ & _ & Hl & _ & Hu). rewrite <- Hl in Hnone.
  apply (lookup_weaken _ _ _ _ Ha) in Hu.
  exists (liked_db ty now user pk n author a db0).
  destruct (liked_db_fields ty now user pk n author a db0) as (Hu1 & Hl1 & _).
  assert (likes_count ty pk (liked_db ty now user pk n author a db0) = Some (n + 1))
    as Hn1.
  { rewrite likes_count_liked_db, !bool_decide_eq_true_2 by done. by rewrite Hn. }
  split_and!; [| |done].
  - rewrite (like_target_result _ _ _ _ _ _ _ Hcur). unfold like_result.
    rewrite Hn, Hauthor, Hnone, Hu.
    rewrite !bool_decide_eq_true_2; [done| |lia]. destruct ty; cbn; lia.
  - rewrite (like_target_result _ _ _ _ _ user _
               (resolved_stable _ _ _ _ author a (with_total_karma _ a) _
                  Hres Hu eq_refl Hu1)).
    unfold like_result.
    rewrite Hn1, target_author_liked_db, Hauthor, Hl1, List.filter_app, Hnone.
    cbn. by rewrite like_matches_self.
Qed.

Lemma like_twice_witness :
  ∃ db1,
    like_target TARGET_POST 7 (mkRequest None "" 0 None) 10
      (mkDb {[ 1 := mkUser "alice" "" 0 ]} {[ 10 := mkPost 1 "hi" 0 0 ]} ∅ [] [])
    = (LikeOk (0 + 1) (karma_for TARGET_POST), db1)
    ∧ like_target TARGET_POST 8 (mkRequest None "" 0 None) 10 db1 = (AlreadyLiked, db1)
    ∧ likes_count TARGET_POST 10 db1 = Some (0 + 1).
Proof.
  eapply (like_twice TARGET_POST 7 8 (mkRequest None "" 0 None) 10
            (mkDb {[ 1 := mkUser "alice" "" 0 ]} {[ 10 := mkPost 1 "hi" 0 0 ]} ∅ [] [])
            2 _ 0 1 (mkUser "alice" "" 0));
    [vm_compute; reflexivity|reflexivity|lia|reflexivity|reflexivity|simpl; lia|reflexivity].
Defined.

(** C4: a like that goes through.  A like of a post or comment that
    exists, that the resolved user does not like yet, and whose counter and
    whose author's [total_karma] are not negative, is answered with success.
    Every like answered with success appends one [KarmaTransaction], of
    amount 5 and reason [post_like] for a post, of amount 1 and reason
    [comment_like] for a comment, crediting the author of the target and
    recording the liker; the author's [total_karma] grows by that amount;
    the response carries the new [likes_count] and the amount. *)
Theorem like_awards_karma ty now request pk db :
  let amount := match ty with TARGET_POST => 5 | TARGET_COMMENT => 1 end in
  let reason := match ty with
                | TARGET_POST => REASON_POST_LIKE
                | TARGET_COMMENT => REASON_COMMENT_LIKE
                end in
  (∀ user db0 n author a,
     _get_current_user request db = (inr (Some user), db0) →
     likes_count ty pk db = Some n → 0 ≤ n →
     target_author ty pk db = Some author →
     users db !! author = Some a → 0 ≤ total_karma a →
     List.filter (like_matches user ty pk) (likes db) = [] →
     ∃ db',
       like_target ty now request pk db = (LikeOk (n + 1) amount, db')
       ∧ karma_transactions db'
         = karma_transactions db
           ++ [mkKarmaTransaction author amount reason pk (Some user) now]
       ∧ total_karma <$> users db' !! author = Some (total_karma a + amount)
       ∧ likes_count ty pk db' = Some (n + 1))
  ∧ (∀ n k db',
       like_target ty now request pk db = (LikeOk n k, db') →
       ∃ user db0 author a,
         _get_current_user request db = (inr (Some user), db0)
         ∧ target_author ty pk db = Some author
         ∧ k = amount
         ∧ karma_transactions db'
           = karma_transactions db
             ++ [mkKarmaTransaction author k reason pk (Some user) now]
         ∧ users db0 !! author = Some a
         ∧ users db' = <[author := with_total_karma (total_karma a + k) a]> (users db0)
         ∧ (∀ a0, users db !! author = Some a0 →
              total_karma <$> users db' !! author = Some (total_karma a0 + k))
         ∧ likes_count ty pk db = Some (n - 1)
         ∧ likes_count ty pk db' = Some n).
Proof.
  cbv zeta. split.
  - intros user db0 n author a Hcur Hn Hpos Hauthor Ha Hkarma Hnone.
    destruct (_get_current_user_inv _ _ _ _ Hcur) as (? & [= <-] & Hres).
    pose proof (resolved_frame _ _ _ _ Hres) as Hfr.
    rewrite <- (user_added_likes_count _ _ ty pk Hfr) in Hn.
    rewrite <- (user_added_target_author _ _ ty pk Hfr) in Hauthor.
    destruct Hfr as (_ & _ & Hl & Hkt & Hu). rewrite <- Hl in Hnone.
    apply (lookup_weaken _ _ _ _ Ha) in Hu.
    exists (liked_db ty now user pk n author a db0).
    destruct (liked_db_fields ty now user pk n author a db0) as (Hu1 & _ & Hk1).
    split_and!.
    + rewrite (like_target_result _ _ _ _ _ _ _ Hcur). unfold like_result.
      rewrite Hn, Hauthor, Hnone, Hu.
      rewrite !bool_decide_eq_true_2; [by destruct ty| |lia]. destruct ty; cbn; lia.
    + rewrite Hk1, Hkt. by destruct ty.
    + rewrite Hu1, lookup_insert_eq. by destruct ty.
    + rewrite likes_count_liked_db, !bool_decide_eq_true_2 by done. by rewrite Hn.
  - intros n k db' Hlike.
    destruct (like_target_spec ty now request pk db)
      as [(user & db0 & Hcur & Hres & Hspec)|Hfail]; [|by rewrite Hfail in Hlike].
    rewrite Hlike in Hspec.
    inversion Hspec as [m author a Hm Hauthor Hnone Ha Hge Hk|r Hr]; subst; [|done].
    pose proof (resolved_frame _ _ _ _ Hres) as Hfr.
    rewrite (user_added_likes_count _ _ ty pk Hfr) in Hm.
    rewrite (user_added_target_author _ _ ty pk Hfr) in Hauthor.
    destruct (liked_db_fields ty now user pk m author a db0) as (Hu1 & _ & Hk1).
    destruct Hfr as (_ & _ & _ & Hkt & Hsub).
    exists user, db0, author, a.
    split_and!; [done|done|by destruct ty| |done|done|..].
    + rewrite Hk1, Hkt. by destruct ty.
    + intros a0 Ha0. apply (lookup_weaken _ _ _ _ Ha0) in Hsub.
      rewrite Hu1, lookup_insert_eq. by simplify_eq.
    + rewrite Hm. f_equal. lia.
    + rewrite likes_count_liked_db, !bool_decide_eq_true_2 by done.
      rewrite (user_added_likes_count _ _ ty pk (resolved_frame _ _ _ _ Hres)), Hm.
      done.
Qed.

(** Bob likes Alice's post, and then her comment on it: 5 and 1. *)
Lemma like_awards_karma_witness :
  let request := mkRequest (Some 2) "" 0 None in
  let db := mkDb {[ 1 := mkUser "alice" "" 0; 2 := mkUser "bob" "" 0 ]}
                 {[ 10 := mkPost 1 "hi" 0 0 ]}
                 {[ 20 := mkComment 10 None 1 "first" 0 1 ]} [] [] in
  (∃ db',
     like_target TARGET_POST 7 request 10 db = (LikeOk (0 + 1) 5, db')
     ∧ karma_transactions db'
       = karma_transactions db ++ [mkKarmaTransaction 1 5 REASON_POST_LIKE 10 (Some 2) 7]
     ∧ total_karma <$> users db' !! 1 = Some (0 + 5)
     ∧ likes_count TARGET_POST 10 db' = Some (0 + 1))
  ∧ (∃ db',
       like_target TARGET_COMMENT 8 request 20 db = (LikeOk (0 + 1) 1, db')
       ∧ karma_transactions db'
         = karma_transactions db
           ++ [mkKarmaTransaction 1 1 REASON_COMMENT_LIKE 20 (Some 2) 8]
       ∧ total_karma <$> users db' !! 1 = Some (0 + 1)
       ∧ likes_count TARGET_COMMENT 20 db' = Some (0 + 1)).
Proof.
  intros request db. split.
  - refine (proj1 (like_awards_karma TARGET_POST 7 request 10 db)
              2 db 0 1 (mkUser "alice" "" 0) _ _ _ _ _ _ _);
      [reflexivity|reflexivity|lia|reflexivity|reflexivity|simpl; lia|reflexivity].
  - refine (proj1 (like_awards_karma TARGET_COMMENT 8 request 20 db)
              2 db 0 1 (mkUser "alice" "" 0) _ _ _ _ _ _ _);
      [reflexivity|reflexivity|lia|reflexivity|reflexivity|simpl; lia|reflexivity].
Defined.

Lemma unlike_target_ledger ty request pk db :
  karma_transactions (unlike_target ty request pk db).2 = karma_transactions db.
Proof.
  destruct (unlike_target_frame ty request pk db) as (user & db0 & Hfr & Hspec).
  destruct Hfr as (_ & _ & _ & Hkt & _).
  destruct Hspec as [n i _ _ _|r _]; cbn [snd]; [|done].
  rewrite <- Hkt. by destruct ty.
Qed.

(** C5: an unlike never touches the ledger, whatever it answers; when it
    goes through, the [Like] row it found is deleted and [likes_count] is one
    less; cached totals are as the resolved user found them.  So after a like
    and an unlike every recipient's karma sum is what it was after the like. *)
Theorem unlike_keeps_karma ty request pk db :
  let r := (unlike_target ty request pk db).1 in
  let db' := (unlike_target ty request pk db).2 in
  karma_transactions db' = karma_transactions db
  ∧ (∀ recipient,
       karma_sum recipient (karma_transactions db')
       = karma_sum recipient (karma_transactions db))
  ∧ (∀ n, r = UnlikeOk n →
       ∃ user db0 i,
         _get_current_user request db = (inr (Some user), db0)
         ∧ find_like user ty pk (likes db) = Some i
         ∧ likes db' = take i (likes db) ++ drop (S i) (likes db)
         ∧ likes_count ty pk db = Some (n + 1)
         ∧ likes_count ty pk db' = Some n
         ∧ users db' = users db0)
  ∧ (∀ now request' recipient,
       let db1 := (like_target ty now request' pk db).2 in
       karma_sum recipient (karma_transactions (unlike_target ty request pk db1).2)
       = karma_sum recipient (karma_transactions db1)).
Proof.
  pose proof (unlike_target_ledger ty request pk) as Hledger.
  cbv zeta. split_and!.
  - apply Hledger.
  - intros recipient. by rewrite Hledger.
  - intros n Hr.
    destruct (unlike_target_spec ty request pk db)
      as [(user & db0 & Hcur & Hres & Hspec)|Hfail]; [|by rewrite Hfail in Hr].
    pose proof (resolved_frame _ _ _ _ Hres) as Hfr.
    destruct Hspec as [m i Hm Hf Hge|r Hfailure]; cbn [fst snd] in *;
      [|by subst].
    injection Hr as <-.
    rewrite (user_added_likes_count _ _ ty pk Hfr) in Hm.
    exists user, db0, i. destruct Hfr as (_ & _ & Hl & _ & _). rewrite <- Hl.
    split_and!; try done.
    + by destruct ty.
    + rewrite Hm. f_equal. lia.
    + rewrite likes_count_unliked, !bool_decide_eq_true_2 by done.
      rewrite (user_added_likes_count _ _ ty pk (resolved_frame _ _ _ _ Hres)), Hm.
      done.
    + by destruct ty.
  - intros now request' recipient. by rewrite Hledger.
Qed.

Lemma unlike_keeps_karma_witness :
  let db := mkDb {[ 1 := mkUser "alice" "" 5; 2 := mkUser "bob" "" 0 ]}
                 {[ 10 := mkPost 1 "hi" 1 0 ]} ∅ [mkLike 2 TARGET_POST 10 3]
                 [mkKarmaTransaction 1 5 REASON_POST_LIKE 10 (Some 2) 3] in
  let request := mkRequest (Some 2) "" 0 None in
  (unlike_target TARGET_POST request 10 db).1 = UnlikeOk 0
  ∧ likes_count TARGET_POST 10 (unlike_target TARGET_POST request 10 db).2 = Some 0
  ∧ karma_transactions (unlike_target TARGET_POST request 10 db).2
    = [mkKarmaTransaction 1 5 REASON_POST_LIKE 10 (Some 2) 3].
Proof.
  cbv zeta.
  destruct (unlike_keeps_karma TARGET_POST (mkRequest (Some 2) "" 0 None) 10
              (mkDb {[ 1 := mkUser "alice" "" 5; 2 := mkUser "bob" "" 0 ]}
                    {[ 10 := mkPost 1 "hi" 1 0 ]} ∅ [mkLike 2 TARGET_POST 10 3]
                    [mkKarmaTransaction 1 5 REASON_POST_LIKE 10 (Some 2) 3]))
    as (Hledger & _ & Hok & _).
  split; [reflexivity|].
  destruct (Hok 0 eq_refl) as (user & db0 & i & _ & _ & _ & _ & Hn & _).
  split; [exact Hn|exact Hledger].
Defined.

Lemma run_op_ledger op db :
  ∃ new, karma_transactions (run_op op db).2 = karma_transactions db ++ new
         ∧ Forall like_amount new.
Proof.
  destruct op as [ty now request pk|ty request pk|now request|now request|now request pk].
  - destruct (like_target_frame ty now request pk db) as (user & db0 & Hfr & Hspec).
    destruct Hfr as (_ & _ & _ & Hkt & _). unfold run_op.
    destruct Hspec as [n author a _ _ _ _ _ _|r _]; cbn [snd].
    + destruct (liked_db_fields ty now user pk n author a db0) as (_ & _ & ->).
      rewrite Hkt.
      exists [mkKarmaTransaction author (karma_for ty) (reason_for ty) pk (Some user) now].
      split; [done|]. apply Forall_singleton. unfold like_amount.
      destruct ty; cbn; split; auto; lia.
    + exists []. by rewrite app_nil_r.
  - exists []. unfold run_op. by rewrite unlike_target_ledger, app_nil_r.
  - destruct (create_views_frame (OpCreatePost now request) db I)
      as [(_ & _ & _ & _ & ->) _]. exists []. by rewrite app_nil_r.
  - destruct (create_views_frame (OpCreateComment now request) db I)
      as [(_ & _ & _ & _ & ->) _]. exists []. by rewrite app_nil_r.
  - destruct (create_views_frame (OpPostComments now request pk) db I)
      as [(_ & _ & _ & _ & ->) _]. exists []. by rewrite app_nil_r.
Qed.

(** C10: whatever requests are served, every [KarmaTransaction] they add
    to the ledger has amount 5 or 1, so a positive one; the rows that were
    there stay, in place. *)
Theorem karma_amounts_positive ops db :
  ∃ new, karma_transactions (run ops db).2 = karma_transactions db ++ new
         ∧ Forall (λ t, (kt_amount t = 5 ∨ kt_amount t = 1) ∧ 0 < kt_amount t) new.
Proof.
  revert db. induction ops as [|op ops IH]; intros db.
  - exists []. by rewrite app_nil_r.
  - rewrite run_cons. cbn [snd].
    destruct (run_op_ledger op db) as (new1 & H1 & Hall1).
    destruct (IH (run_op op db).2) as (new2 & H2 & Hall2).
    exists (new1 ++ new2). rewrite H2, H1, app_assoc. split; [done|].
    by apply Forall_app.
Qed.

(** ** Requests without an authenticated user *)

Lemma resolved_demo_user request db user db0 :
  request_user request = None → resolved request db user db0 →
  username <$> users db0 !! user = Some "demo_user".
Proof.
  intros Hanon [Hu _ | u _ Hf -> | _ _ -> ->]; [congruence| |].
  - assert ((user, u) ∈ users_with_username "demo_user" (users db)) as Hin
      by (rewrite Hf; left).
    apply list_elem_of_filter in Hin as [Hname Hin].
    apply elem_of_map_to_list in Hin. rewrite Hin. cbn in *. by rewrite Hname.
  - cbn. by rewrite lookup_insert_eq.
Qed.

Lemma like_unlike_never_unauthorized op db :
  match op with OpLike _ _ _ _ | OpUnlike _ _ _ => True | _ => False end →
  (run_op op db).1 ≠ Unauthorized.
Proof.
  destruct op as [ty now request pk|ty request pk| | |]; try done; intros _.
  - destruct (like_target_frame ty now request pk db) as (user & db0 & _ & Hspec).
    unfold run_op. by destruct Hspec as [? ? ? _ _ _ _ _ _|[] ?].
  - destruct (unlike_target_frame ty request pk db) as (user & db0 & _ & Hspec).
    unfold run_op. by destruct Hspec as [? ? _ _ _|[] ?].
Qed.

(** C2, as the code has it.  [_get_current_user] never answers "no user":
    a request without an authenticated user is given the demo user, which is
    created on the spot (with [total_karma] 100) when the store has none.  So
    no mutating view ever answers [Unauthorized], and a like or an unlike of
    an unauthenticated request is served exactly as the same request of the
    demo user. *)
Theorem unauthenticated_is_demo_user :
  (∀ request db user db', _get_current_user request db = (inr user, db') →
     ∃ u, user = Some u)
  ∧ (∀ op db, (run_op op db).1 ≠ Unauthorized)
  ∧ (∀ request db user db0,
       request_user request = None →
       _get_current_user request db = (inr (Some user), db0) →
       username <$> users db0 !! user = Some "demo_user"
       ∧ (∀ ty now pk,
            like_target ty now request pk db
            = like_target ty now (authenticated user request) pk db0)
       ∧ (∀ ty pk,
            unlike_target ty request pk db
            = unlike_target ty (authenticated user request) pk db0)).
Proof.
  split_and!.
  - intros request db user db' Hcur.
    destruct (_get_current_user_inv _ _ _ _ Hcur) as (u & -> & _). by exists u.
  - intros op db.
    destruct op; first [by apply like_unlike_never_unauthorized
                       |by apply create_views_frame].
  - intros request db user db0 Hanon Hcur.
    destruct (_get_current_user_inv _ _ _ _ Hcur) as (? & [= <-] & Hres).
    split_and!.
    + by eapply resolved_demo_user.
    + intros ty now pk. rewrite (like_target_result _ _ _ _ _ _ _ Hcur).
      symmetry. by apply like_target_result.
    + intros ty pk. rewrite (unlike_target_result _ _ _ _ _ _ Hcur).
      symmetry. by apply unlike_target_result.
Qed.

Lemma unauthenticated_is_demo_user_witness :
  let request := mkRequest None "" 0 None in
  let db := mkDb {[ 1 := mkUser "alice" "" 0 ]} {[ 10 := mkPost 1 "hi" 0 0 ]} ∅ [] [] in
  let db0 := set_users (insert 2 (mkUser "demo_user" demo_avatar 100)) db in
  like_target TARGET_POST 7 request 10 db
  = like_target TARGET_POST 7 (authenticated 2 request) 10 db0.
Proof.
  cbv zeta.
  refine (proj1 (proj2 (proj2 (proj2 unauthenticated_is_demo_user)
            (mkRequest None "" 0 None) _ 2 _ eq_refl _)) TARGET_POST 7 10).
  vm_compute. reflexivity.
Defined.

(** C2 as the spec words it fails: an unauthenticated like of an existing
    post is answered with success, and the store is changed. *)
Lemma unauthenticated_like_counterexample :
  let request := mkRequest None "" 0 None in
  let db := mkDb {[ 1 := mkUser "alice" "" 0 ]} {[ 10 := mkPost 1 "hi" 0 0 ]} ∅ [] [] in
  ¬ (request_user request = None →
     PostViewSet.like 7 request 10 db = (Unauthorized, db)).
Proof.
  cbv zeta. intros H. specialize (H eq_refl). vm_compute in H. discriminate H.
Qed.

(** ** The leaderboard *)

Lemma get_unfold now db :
  get now db = rank_entries (fetched_users now db) (leaderboard_data now db) 1.
Proof. reflexivity. Qed.

Lemma Coalesce_Sum l : Coalesce (Sum l) 0 = foldr Z.add 0 l.
Proof. by destruct l. Qed.

Lemma karma_24h_window_sum now user rows :
  Coalesce (Sum (group_amounts user
                   (created_at__gte (twenty_four_hours_ago now) rows))) 0
  = window_sum now user rows.
Proof.
  unfold group_amounts, created_at__gte, window_sum, twenty_four_hours_ago.
  by rewrite Coalesce_Sum, list_filter_filter.
Qed.

Lemma elem_of_annotate_karma_24h rows user karma :
  (user, karma) ∈ annotate_karma_24h rows ↔
  user ∈ kt_user_id <$> rows ∧ karma = Coalesce (Sum (group_amounts user rows)) 0.
Proof.
  unfold annotate_karma_24h. rewrite list_elem_of_fmap.
  setoid_rewrite elem_of_remove_dups. split.
  - intros (x & [= -> ->] & Hx). by split.
  - intros [Hu ->]. by exists user.
Qed.

Lemma annotate_karma_24h_users rows :
  (annotate_karma_24h rows).*1 = remove_dups (kt_user_id <$> rows).
Proof.
  unfold annotate_karma_24h. rewrite <- list_fmap_compose. apply list_fmap_id.
Qed.

#[local] Instance karma_ge_trans : Transitive karma_ge.
Proof. unfold karma_ge. intros ???; lia. Qed.

#[local] Instance karma_ge_total : Total karma_ge.
Proof. unfold karma_ge. intros ??; lia. Qed.

Lemma leaderboard_data_unfold now db :
  leaderboard_data now db = take 5 (merge_sort karma_ge (positive now db)).
Proof. reflexivity. Qed.

Lemma elem_of_positive now db user karma :
  (user, karma) ∈ positive now db ↔
  user ∈ kt_user_id <$> recent now db
  ∧ karma = window_sum now user (karma_transactions db) ∧ 0 < karma.
Proof.
  unfold positive. rewrite list_elem_of_filter, elem_of_annotate_karma_24h.
  unfold recent. rewrite karma_24h_window_sum. cbn. tauto.
Qed.

Lemma positive_NoDup now db : NoDup (positive now db).*1.
Proof.
  apply (sublist_NoDup _ (remove_dups (kt_user_id <$> recent now db)));
    [apply NoDup_remove_dups|].
  rewrite <- annotate_karma_24h_users. apply fmap_sublist, sublist_filter.
Qed.

Lemma leaderboard_data_subseteq now db : leaderboard_data now db ⊆ positive now db.
Proof.
  rewrite leaderboard_data_unfold. etrans; [apply subseteq_take|].
  by rewrite merge_sort_Permutation.
Qed.

Lemma leaderboard_data_NoDup now db : NoDup (leaderboard_data now db).*1.
Proof.
  rewrite leaderboard_data_unfold.
  apply (sublist_NoDup _ (merge_sort karma_ge (positive now db)).*1);
    [|apply fmap_sublist, sublist_take].
  rewrite merge_sort_Permutation. apply positive_NoDup.
Qed.

Lemma leaderboard_data_sorted now db : StronglySorted karma_ge (leaderboard_data now db).
Proof.
  rewrite leaderboard_data_unfold.
  apply (StronglySorted_app_1_l _ _ (drop 5 (merge_sort karma_ge (positive now db)))).
  rewrite take_drop. apply StronglySorted_merge_sort; apply _.
Qed.

Lemma leaderboard_data_length now db :
  length (leaderboard_data now db) = (5 `min` length (positive now db))%nat.
Proof.
  rewrite leaderboard_data_unfold, length_take.
  by rewrite merge_sort_Permutation.
Qed.

Lemma fetched_users_lookup now db user :
  user ∈ (leaderboard_data now db).*1 →
  fetched_users now db !! user = users db !! user.
Proof.
  intros Hin. unfold fetched_users.
  destruct (users db !! user) as [u|] eqn:E.
  - by apply map_lookup_filter_Some_2.
  - apply map_lookup_filter_None_2. by left.
Qed.

(** *** The loop that builds [result] *)

Lemma rank_entries_cons users user karma data start :
  rank_entries users ((user, karma) :: data) start
  = match users !! user with
    | Some u => [mkEntry (user, u) karma start]
    | None => []
    end ++ rank_entries users data (start + 1).
Proof. unfold rank_entries. cbn. by destruct (users !! user). Qed.

Lemma elem_of_rank_entries users data start e :
  e ∈ rank_entries users data start →
  ((entry_user e).1, entry_karma_24h e) ∈ data
  ∧ users !! (entry_user e).1 = Some (entry_user e).2
  ∧ start ≤ entry_rank e < start + Z.of_nat (length data).
Proof.
  revert start. induction data as [|[user karma] data IH]; intros start.
  - by intros ?%elem_of_nil.
  - rewrite rank_entries_cons, elem_of_app. intros [Hin|Hin].
    + destruct (users !! user) as [u|] eqn:E; [|by apply elem_of_nil in Hin].
      apply list_elem_of_singleton in Hin as ->. cbn.
      split_and!; [left|done|lia..].
    + destruct (IH _ Hin) as (? & ? & ?). cbn [length].
      split_and!; [by right|done|lia..].
Qed.

Lemma rank_entries_sublist users data start :
  (λ e, ((entry_user e).1, entry_karma_24h e)) <$> rank_entries users data start
  `sublist_of` data.
Proof.
  revert start. induction data as [|[user karma] data IH]; intros start; [done|].
  rewrite rank_entries_cons, fmap_app.
  destruct (users !! user); cbn; [by apply sublist_skip|by apply sublist_cons].
Qed.

Lemma rank_entries_sorted users data start :
  StronglySorted karma_ge data →
  StronglySorted (λ e1 e2, entry_karma_24h e2 ≤ entry_karma_24h e1)
                 (rank_entries users data start).
Proof.
  revert start. induction data as [|[user karma] data IH]; intros start Hs.
  - constructor.
  - apply StronglySorted_inv in Hs as [Hs Hall]. rewrite rank_entries_cons.
    destruct (users !! user); cbn; [|by apply IH].
    constructor; [by apply IH|]. apply Forall_forall. intros e He.
    apply elem_of_rank_entries in He as (Hin & _ & _).
    rewrite Forall_forall in Hall. apply (Hall _ Hin).
Qed.

Lemma rank_entries_all users data start :
  (∀ user, user ∈ data.*1 → is_Some (users !! user)) →
  entry_row <$> rank_entries users data start
  = (λ re, (re.2.1, re.2.2, re.1)) <$> enumerate data start.
Proof.
  revert start. induction data as [|[user karma] data IH]; intros start Hall; [done|].
  rewrite rank_entries_cons.
  destruct (Hall user) as [u ->]; [cbn; left|].
  cbn. f_equal. apply IH. intros x Hx. apply Hall. cbn. by right.
Qed.

Lemma enumerate_ranks {A} (l : list A) start :
  (enumerate l start).*1 = (λ i, start + Z.of_nat i) <$> seq 0 (length l).
Proof.
  revert start. induction l as [|x l IH]; intros start; [done|].
  cbn. f_equal; [lia|]. rewrite IH, <- fmap_S_seq, <- list_fmap_compose.
  apply list_fmap_ext. intros ? ? _. cbn. lia.
Qed.

Lemma enumerate_length {A} (l : list A) start : length (enumerate l start) = length l.
Proof. revert start. induction l; intros; cbn; auto. Qed.

Lemma rank_entries_ext users1 users2 data start (erase : User → User) :
  (∀ user, user ∈ data.*1 → erase <$> users1 !! user = erase <$> users2 !! user) →
  (λ e, ((entry_user e).1, erase (entry_user e).2, entry_karma_24h e, entry_rank e))
    <$> rank_entries users1 data start
  = (λ e, ((entry_user e).1, erase (entry_user e).2, entry_karma_24h e, entry_rank e))
    <$> rank_entries users2 data start.
Proof.
  revert start. induction data as [|[user karma] data IH]; intros start Hall; [done|].
  rewrite !rank_entries_cons, !fmap_app.
  rewrite IH by (intros x Hx; apply Hall; cbn; by right). f_equal.
  specialize (Hall user ltac:(cbn; left)).
  destruct (users1 !! user), (users2 !! user); cbn in *; try done.
  injection Hall as Hall. by rewrite Hall.
Qed.

Lemma filter_none {A} (P : A → Prop) `{!∀ x, Decision (P x)} (l : list A) :
  (∀ x, x ∈ l → ¬ P x) → filter P l = [].
Proof.
  induction l as [|x l IH]; intros Hall; [done|].
  rewrite filter_cons_False by (apply Hall; left).
  apply IH. intros y Hy. apply Hall. by right.
Qed.

Lemma get_ext now db db' :
  recent now db = recent now db' → users db = users db' → get now db = get now db'.
Proof.
  intros Hrecent Husers.
  assert (leaderboard_data now db = leaderboard_data now db') as Hdata
    by (unfold leaderboard_data; fold (recent now db) (recent now db');
        by rewrite Hrecent).
  rewrite !get_unfold. unfold fetched_users. by rewrite Hdata, Husers.
Qed.

Lemma elem_of_get now db e :
  e ∈ get now db →
  ((entry_user e).1, entry_karma_24h e) ∈ positive now db
  ∧ users db !! (entry_user e).1 = Some (entry_user e).2.
Proof.
  rewrite get_unfold. intros (Hin & Hu & _)%elem_of_rank_entries. split.
  - by apply leaderboard_data_subseteq.
  - rewrite <- Hu. symmetry. apply fetched_users_lookup.
    apply list_elem_of_fmap. by eexists (_, _).
Qed.

Lemma elem_of_rank_entries_2 users data start user karma u :
  (user, karma) ∈ data → users !! user = Some u →
  ∃ rank, mkEntry (user, u) karma rank ∈ rank_entries users data start.
Proof.
  revert start. induction data as [|[user' karma'] data IH]; intros start Hin Hu.
  - by apply elem_of_nil in Hin.
  - rewrite rank_entries_cons. apply elem_of_cons in Hin as [[= <- <-]|Hin].
    + exists start. rewrite Hu. apply elem_of_app. left. apply list_elem_of_here.
    + destruct (IH (start + 1) Hin Hu) as [rank Hrank].
      exists rank. apply elem_of_app. by right.
Qed.

Lemma elem_of_recent_users now db user :
  user ∈ kt_user_id <$> recent now db ↔
  ∃ t, t ∈ karma_transactions db ∧ kt_user_id t = user
       ∧ now - 24 * 3600 * 1000000 ≤ kt_created_at t.
Proof.
  unfold recent, created_at__gte, twenty_four_hours_ago.
  rewrite list_elem_of_fmap. split.
  - intros (t & -> & [Ht Hin]%list_elem_of_filter). by exists t.
  - intros (t & Hin & <- & Ht). exists t. split; [done|].
    by apply list_elem_of_filter.
Qed.

(** A sum that is not 0 has a transaction of the window behind it. *)
Lemma window_sum_recent now db user :
  window_sum now user (karma_transactions db) ≠ 0 →
  user ∈ kt_user_id <$> recent now db.
Proof.
  intros Hsum. apply elem_of_recent_users. unfold window_sum in Hsum.
  destruct (filter _ (karma_transactions db)) as [|t l] eqn:E; [done|].
  assert (t ∈ filter (λ t, kt_user_id t = user
                           ∧ now - 24 * 3600 * 1000000 ≤ kt_created_at t)
                     (karma_transactions db)) as Hin by (rewrite E; left).
  apply list_elem_of_filter in Hin as [[? ?] ?]. by exists t.
Qed.

(** A grouped row of positive karma is among the five the query keeps, or
    the query keeps five rows, of other recipients, with at least that
    karma. *)
Lemma leaderboard_data_or_beaten now db user karma :
  (user, karma) ∈ positive now db →
  (user, karma) ∈ leaderboard_data now db
  ∨ (length (leaderboard_data now db) = 5%nat
     ∧ (user ∉ (leaderboard_data now db).*1)
     ∧ ∀ x, x ∈ leaderboard_data now db → karma ≤ x.2).
Proof.
  intros Hin. rewrite leaderboard_data_unfold.
  set (sorted := merge_sort karma_ge (positive now db)).
  assert (StronglySorted karma_ge (take 5 sorted ++ drop 5 sorted)) as Hsorted.
  { rewrite take_drop. apply StronglySorted_merge_sort; apply _. }
  assert (NoDup ((take 5 sorted).*1 ++ (drop 5 sorted).*1)) as Hnodup.
  { rewrite <- fmap_app, take_drop. unfold sorted.
    rewrite merge_sort_Permutation. apply positive_NoDup. }
  assert ((user, karma) ∈ take 5 sorted ++ drop 5 sorted) as Hsplit.
  { rewrite take_drop. unfold sorted. by rewrite merge_sort_Permutation. }
  apply elem_of_app in Hsplit as [Htake|Hdrop]; [by left|right].
  split_and!.
  - rewrite length_take.
    apply list_elem_of_lookup in Hdrop as [i Hi].
    apply lookup_lt_Some in Hi. rewrite length_drop in Hi. lia.
  - intros Hlisted. apply NoDup_app in Hnodup as (_ & Hdisjoint & _).
    apply (Hdisjoint _ Hlisted). apply list_elem_of_fmap. by exists (user, karma).
  - intros x Hx. apply (StronglySorted_app_1_elem_of _ _ _ _ _ Hsorted Hx Hdrop).
Qed.

Lemma get_lists now db user karma u :
  (user, karma) ∈ leaderboard_data now db → users db !! user = Some u →
  ∃ rank, mkEntry (user, u) karma rank ∈ get now db.
Proof.
  intros Hin Hu. rewrite get_unfold. apply elem_of_rank_entries_2; [done|].
  rewrite fetched_users_lookup; [done|].
  apply list_elem_of_fmap. by exists (user, karma).
Qed.

(** C6: the query groups the transactions of the last 24 hours (timestamp
    at least [now] minus 24 hours) by recipient, one row per recipient that
    has such a transaction, carrying the sum of their amounts.  The karma of
    every leaderboard entry is that sum, and a user for whom the sum is
    positive is listed with it, unless five other recipients with at least
    that much are listed instead.  A transaction older than the window
    changes nothing; the aggregate of a recipient without a transaction in
    the window is the integer 0, and the recipient is not listed. *)
Theorem leaderboard_window now db :
  let rows := karma_transactions db in
  (∀ user karma, (user, karma) ∈ annotate_karma_24h (recent now db) ↔
     (∃ t, t ∈ rows ∧ kt_user_id t = user
           ∧ now - 24 * 3600 * 1000000 ≤ kt_created_at t)
     ∧ karma = window_sum now user rows)
  ∧ NoDup (annotate_karma_24h (recent now db)).*1
  ∧ (∀ e, e ∈ get now db →
       entry_karma_24h e = window_sum now (entry_user e).1 rows)
  ∧ (∀ user u, users db !! user = Some u → 0 < window_sum now user rows →
       (∃ rank, mkEntry (user, u) (window_sum now user rows) rank ∈ get now db)
       ∨ ∃ others : list Z,
           length others = 5%nat ∧ NoDup others ∧ (user ∉ others)
           ∧ ∀ v, v ∈ others → window_sum now user rows ≤ window_sum now v rows)
  ∧ (∀ user u, users db !! user = Some u → 0 < window_sum now user rows →
       (length (positive now db) ≤ 5)%nat →
       ∃ rank, mkEntry (user, u) (window_sum now user rows) rank ∈ get now db)
  ∧ (∀ rows1 t rows2,
       rows = rows1 ++ t :: rows2 →
       kt_created_at t < now - 24 * 3600 * 1000000 →
       get now db = get now (set_karma_transactions (λ _, rows1 ++ rows2) db))
  ∧ (∀ user,
       (∀ t, t ∈ rows → kt_user_id t = user →
             kt_created_at t < now - 24 * 3600 * 1000000) →
       Coalesce (Sum (group_amounts user (recent now db))) 0 = 0
       ∧ window_sum now user rows = 0
       ∧ ∀ e, e ∈ get now db → (entry_user e).1 ≠ user).
Proof.
  cbv zeta.
  assert (∀ user, 0 < window_sum now user (karma_transactions db) →
            (user, window_sum now user (karma_transactions db)) ∈ positive now db)
    as Hpositive.
  { intros user Hpos. apply elem_of_positive. split_and!; [|done..].
    apply window_sum_recent. lia. }
  split_and!.
  - intros user karma. rewrite elem_of_annotate_karma_24h, elem_of_recent_users.
    unfold recent. by rewrite karma_24h_window_sum.
  - rewrite annotate_karma_24h_users. apply NoDup_remove_dups.
  - intros e (Hin & _)%elem_of_get. by apply elem_of_positive in Hin as (_ & ? & _).
  - intros user u Hu Hpos.
    destruct (leaderboard_data_or_beaten _ _ _ _ (Hpositive user Hpos))
      as [Hlisted|(Hlen & Hout & Hle)].
    + left. by apply get_lists.
    + right. exists (leaderboard_data now db).*1. split_and!.
      * by rewrite length_fmap.
      * apply leaderboard_data_NoDup.
      * done.
      * intros v ([v' k] & -> & Hv)%list_elem_of_fmap. cbn.
        pose proof (Hle _ Hv) as Hk.
        apply leaderboard_data_subseteq, elem_of_positive in Hv as (_ & <- & _).
        exact Hk.
  - intros user u Hu Hpos Hfew. apply get_lists; [|done].
    rewrite leaderboard_data_unfold, take_ge.
    + rewrite merge_sort_Permutation. by apply Hpositive.
    + by rewrite merge_sort_Permutation.
  - intros rows1 t rows2 Hrows Hold. apply get_ext; [|done].
    unfold recent, created_at__gte, twenty_four_hours_ago. cbn. rewrite Hrows.
    rewrite !filter_app, filter_cons_False; [done|lia].
  - intros user Hold.
    assert (window_sum now user (karma_transactions db) = 0) as Hzero.
    { unfold window_sum. rewrite filter_none; [done|].
      intros t Hin [Hu Ht]. specialize (Hold t Hin Hu). lia. }
    split_and!; [|done|].
    + unfold recent. by rewrite karma_24h_window_sum.
    + intros e (Hin & _)%elem_of_get Huser.
      apply elem_of_positive in Hin as (_ & Hk & Hpos). rewrite Huser in Hk. lia.
Qed.

(** C7: the leaderboard lists only recipients whose karma of the window is
    positive, in descending order of that karma, at most 5 of them, namely 5
    when more than 5 recipients qualify, and ranks them 1, 2, … in the order
    of the list.  The ledger's recipients are users of the store (the
    foreign key of [KarmaTransaction.user]). *)
Theorem leaderboard_top5 now db :
  (∀ t, t ∈ karma_transactions db → is_Some (users db !! kt_user_id t)) →
  let out := get now db in
  (∀ e, e ∈ out → 0 < entry_karma_24h e)
  ∧ (∀ user, window_sum now user (karma_transactions db) ≤ 0 →
       user ∉ (λ e, (entry_user e).1) <$> out)
  ∧ StronglySorted (λ e1 e2, entry_karma_24h e2 ≤ entry_karma_24h e1) out
  ∧ (length out ≤ 5)%nat
  ∧ length out = (5 `min` length (positive now db))%nat
  ∧ entry_rank <$> out = Z.of_nat <$> seq 1 (length out).
Proof.
  intros Hfk.
  assert (entry_row <$> get now db
          = (λ re, (re.2.1, re.2.2, re.1)) <$> enumerate (leaderboard_data now db) 1)
    as Hrows.
  { rewrite get_unfold. apply rank_entries_all. intros user Hin.
    rewrite (fetched_users_lookup _ _ _ Hin).
    apply list_elem_of_fmap in Hin as ([u k] & -> & Hin).
    apply leaderboard_data_subseteq, elem_of_positive in Hin as (Hin & _).
    apply list_elem_of_fmap in Hin as (t & -> & Hin).
    apply Hfk. unfold recent, created_at__gte in Hin.
    by apply list_elem_of_filter in Hin as [_ Hin]. }
  assert (length (get now db) = length (leaderboard_data now db)) as Hlen.
  { rewrite <- (length_fmap entry_row), Hrows, length_fmap. apply enumerate_length. }
  cbv zeta. split_and!.
  - intros e (Hin & _)%elem_of_get. by apply elem_of_positive in Hin as (_ & _ & ?).
  - intros user Hle (e & -> & (Hin & _)%elem_of_get)%list_elem_of_fmap.
    apply elem_of_positive in Hin as (_ & Hk & Hpos). lia.
  - rewrite get_unfold. apply rank_entries_sorted, leaderboard_data_sorted.
  - rewrite Hlen, leaderboard_data_length. lia.
  - by rewrite Hlen, leaderboard_data_length.
  - transitivity (snd <$> (entry_row <$> get now db)).
    { rewrite <- list_fmap_compose. by apply list_fmap_ext. }
    rewrite Hrows, <- list_fmap_compose.
    transitivity ((enumerate (leaderboard_data now db) 1).*1).
    { by apply list_fmap_ext. }
    rewrite enumerate_ranks, Hlen, <- fmap_S_seq, <- list_fmap_compose.
    apply list_fmap_ext. intros ? ? _. cbn. lia.
Qed.

(** C9: the leaderboard does not read [total_karma].  Two stores with the
    same ledger whose users differ at most in [total_karma] yield the same
    sequence of (user, karma, rank), and the same user rows up to
    [total_karma]. *)
Theorem leaderboard_ignores_total_karma now db1 db2 :
  karma_transactions db1 = karma_transactions db2 →
  (∀ pk, with_total_karma 0 <$> users db1 !! pk
         = with_total_karma 0 <$> users db2 !! pk) →
  entry_row <$> get now db1 = entry_row <$> get now db2
  ∧ (λ e, with_total_karma 0 (entry_user e).2) <$> get now db1
    = (λ e, with_total_karma 0 (entry_user e).2) <$> get now db2.
Proof.
  intros Hledger Husers.
  assert (leaderboard_data now db1 = leaderboard_data now db2) as Hdata
    by (unfold leaderboard_data; by rewrite Hledger).
  pose proof (rank_entries_ext (fetched_users now db1) (fetched_users now db2)
                (leaderboard_data now db1) 1 (with_total_karma 0)) as Hext.
  rewrite <- !get_unfold in Hext. rewrite Hdata, <- get_unfold in Hext at 1.
  assert (∀ user, user ∈ (leaderboard_data now db1).*1 →
            with_total_karma 0 <$> fetched_users now db1 !! user
            = with_total_karma 0 <$> fetched_users now db2 !! user) as Hfetched.
  { intros user Hin. rewrite fetched_users_lookup by done.
    rewrite Hdata in Hin. rewrite fetched_users_lookup by done. apply Husers. }
  specialize (Hext Hfetched). split.
  - apply (f_equal (fmap (λ x : Z * User * Z * Z, (x.1.1.1, x.1.2, x.2)))) in Hext.
    rewrite <- !list_fmap_compose in Hext. exact Hext.
  - apply (f_equal (fmap (λ x : Z * User * Z * Z, x.1.1.2))) in Hext.
    rewrite <- !list_fmap_compose in Hext. exact Hext.
Qed.

(** ** The comment tree *)

Lemma elem_of_objects comments i c :
  (i, c) ∈ objects comments ↔ comments !! i = Some c.
Proof.
  unfold objects. rewrite elem_of_lookup_imap. split.
  - by intros (j & y & [= -> ->] & Hj).
  - intros Hi. by exists i, c.
Qed.

Lemma imap_snd {A B} (f : nat → A → B * A) (l : list A) :
  (∀ i x, (f i x).2 = x) → (imap f l).*2 = l.
Proof.
  revert f. induction l as [|x l IH]; intros f Hf; [done|].
  rewrite imap_cons. cbn. rewrite Hf. f_equal. apply IH. intros i y. apply Hf.
Qed.

(** The first pass fills [comment_map] and empties the reply lists. *)
Lemma first_pass_root_comments liked st objs :
  root_comments (foldl (first_pass liked) st objs) = root_comments st.
Proof.
  revert st. induction objs as [|[i [id row]] objs IH]; intros st; [done|].
  cbn. by rewrite IH.
Qed.

Lemma first_pass_comment_map liked st objs id :
  comment_map (foldl (first_pass liked) st objs) !! id = None ↔
  comment_map st !! id = None ∧ id ∉ (objs.*2).*1.
Proof.
  revert st. induction objs as [|[i [id' row]] objs IH]; intros st.
  - cbn. split; [intros ?; split; [done|apply not_elem_of_nil]|tauto].
  - cbn. rewrite IH. cbn. rewrite lookup_insert_None, not_elem_of_cons.
    split; [intros [[? ?] ?]|intros [? [? ?]]]; split_and!; congruence.
Qed.

Lemma first_pass_replies liked st objs :
  map_Forall (λ _ replies, replies = []) (_prefetched_replies (attrs st)) →
  map_Forall (λ _ replies, replies = [])
    (_prefetched_replies (attrs (foldl (first_pass liked) st objs))).
Proof.
  revert st. induction objs as [|[i [id row]] objs IH]; intros st Hall; [done|].
  cbn. apply IH. cbn. by apply map_Forall_insert_2.
Qed.

(** The second pass leaves [comment_map] alone, appends the parentless
    objects to [root_comments], and appends an object to the reply list of
    the object its [parent_id] is mapped to, if any. *)
Lemma second_pass_comment_map st objs :
  comment_map (foldl second_pass st objs) = comment_map st.
Proof.
  revert st. induction objs as [|[i [id row]] objs IH]; intros st; [done|].
  cbn. rewrite IH. destruct (comment_parent_id row) as [pid|]; [|done].
  by destruct (comment_map st !! pid).
Qed.

Lemma second_pass_root_comments st objs :
  root_comments (foldl second_pass st objs)
  = root_comments st
    ++ (filter (λ obj, comment_parent_id obj.2.2 = None) objs).*1.
Proof.
  revert st. induction objs as [|[i [id row]] objs IH]; intros st.
  - cbn. by rewrite app_nil_r.
  - change (foldl second_pass st ((i, (id, row)) :: objs))
      with (foldl second_pass (second_pass st (i, (id, row))) objs).
    rewrite IH, filter_cons. unfold second_pass. cbn [fst snd].
    destruct (comment_parent_id row) as [pid|] eqn:E.
    + rewrite decide_False by done. by destruct (comment_map st !! pid).
    + rewrite decide_True by done. cbn. by rewrite <- app_assoc.
Qed.

Lemma second_pass_replies st objs parent replies comment :
  _prefetched_replies (attrs (foldl second_pass st objs)) !! parent = Some replies →
  comment ∈ replies →
  (∃ old, _prefetched_replies (attrs st) !! parent = Some old ∧ comment ∈ old)
  ∨ (∃ id row pid, (comment, (id, row)) ∈ objs
       ∧ comment_parent_id row = Some pid ∧ comment_map st !! pid = Some parent).
Proof.
  revert st. induction objs as [|[i [id row]] objs IH]; intros st Hlook Hin.
  - left. by exists replies.
  - cbn in Hlook. destruct (IH _ Hlook Hin) as [(old & Hold & Hc)|(id' & row' & pid & Hobj & Hp & Hm)].
    + unfold second_pass in Hold.
      destruct (comment_parent_id row) as [pid|] eqn:Hpid; cbn in Hold;
        [|left; by exists old].
      destruct (comment_map st !! pid) as [p|] eqn:Hmap; cbn in Hold;
        [|left; by exists old].
      rewrite lookup_alter in Hold. case_decide as Hpar.
      * subst p. destruct (_prefetched_replies (attrs st) !! parent) as [old0|] eqn:E;
          [|done]. cbn in Hold. injection Hold as <-.
        apply elem_of_app in Hc as [Hc|Hc].
        -- left. by exists old0.
        -- apply list_elem_of_singleton in Hc as ->. right.
           exists id, row, pid. split_and!; [left|done|done].
      * left. by exists old.
    + right. exists id', row', pid. split_and!; [by right|done|].
      rewrite <- Hm. unfold second_pass.
      destruct (comment_parent_id row) as [pid0|]; [|done].
      by destruct (comment_map st !! pid0).
Qed.

(** C1, as the code has it.  The roots returned are the comments of the
    input that declare no parent, in input order.  A comment that declares
    a parent whose id no comment of the input has is attached nowhere: it is
    not among the roots, and it is in no reply list. *)
Theorem orphans_are_left_out comments user user_liked_ids :
  let roots := (build_comment_tree comments user user_liked_ids).1 in
  let a := (build_comment_tree comments user user_liked_ids).2 in
  roots = (filter (λ obj, comment_parent_id obj.2.2 = None) (objects comments)).*1
  ∧ ∀ comment id row parent_id,
      comments !! comment = Some (id, row) →
      comment_parent_id row = Some parent_id →
      parent_id ∉ comments.*1 →
      (comment ∉ roots)
      ∧ ∀ parent replies,
          _prefetched_replies a !! parent = Some replies → comment ∉ replies.
Proof.
  unfold build_comment_tree. cbn [fst snd].
  set (liked := default ∅ user_liked_ids).
  set (st0 := mkBuilder (mkAttrs ∅ ∅) ∅ []).
  set (st1 := foldl (first_pass liked) st0 (objects comments)).
  assert (root_comments (foldl second_pass st1 (objects comments))
          = (filter (λ obj, comment_parent_id obj.2.2 = None) (objects comments)).*1)
    as Hroots.
  { rewrite second_pass_root_comments. unfold st1.
    by rewrite first_pass_root_comments. }
  split; [done|].
  intros comment id row parent_id Hc Hparent Horphan.
  assert (∀ id' row', (comment, (id', row')) ∈ objects comments →
                      id' = id ∧ row' = row) as Huniq.
  { intros id' row' Hin. apply elem_of_objects in Hin. by simplify_eq. }
  split.
  - rewrite Hroots. intros ([i [id' row']] & Hi & Hin)%list_elem_of_fmap.
    cbn in Hi. subst i. apply list_elem_of_filter in Hin as [Hnone Hin].
    destruct (Huniq _ _ Hin) as [-> ->]. cbn in Hnone. congruence.
  - intros parent replies Hlook Hin.
    destruct (second_pass_replies _ _ _ _ _ Hlook Hin)
      as [(old & Hold & Hc')|(id' & row' & pid & Hobj & Hp & Hm)].
    + assert (old = []) as ->; [|by apply elem_of_nil in Hc'].
      eapply (first_pass_replies liked st0 (objects comments)); [|exact Hold].
      apply map_Forall_empty.
    + destruct (Huniq _ _ Hobj) as [-> ->]. simplify_eq.
      assert (comment_map st1 !! parent_id = None) as Hnone; [|congruence].
      apply first_pass_comment_map. split; [done|].
      unfold objects. by rewrite imap_snd.
Qed.

(** C1 as the spec words it fails: the first comment below declares parent
    99, which no comment of the input has, and the roots returned are the
    second comment alone. *)
Lemma orphan_counterexample :
  let orphan := (1, mkComment 1 (Some 99) 1 "reply" 0 0) in
  let comments := [orphan; (2, mkComment 1 None 1 "root" 0 1)] in
  comments !! 0%nat = Some orphan
  ∧ (99 ∉ comments.*1)
  ∧ (build_comment_tree comments None None).1 = [1%nat]
  ∧ (0%nat ∉ (build_comment_tree comments None None).1)
  ∧ render_tree comments None = Some [Node 2 false []].
Proof.
  cbv zeta. split_and!; [done| |done| |done].
  - apply (bool_decide_unpack _). by vm_compute.
  - apply (bool_decide_unpack _). by vm_compute.
Qed.

Lemma orphans_are_left_out_witness :
  let orphan := (1, mkComment 1 (Some 99) 1 "reply" 0 0) in
  let comments := [orphan; (2, mkComment 1 None 1 "root" 0 1)] in
  (0%nat ∉ (build_comment_tree comments None None).1)
  ∧ ∀ parent replies,
      _prefetched_replies (build_comment_tree comments None None).2 !! parent
      = Some replies → 0%nat ∉ replies.
Proof.
  cbv zeta.
  refine (proj2 (orphans_are_left_out
                   [(1, mkComment 1 (Some 99) 1 "reply" 0 0);
                    (2, mkComment 1 None 1 "root" 0 1)] None None)
            0%nat 1 (mkComment 1 (Some 99) 1 "reply" 0 0) 99 eq_refl eq_refl _).
  apply (bool_decide_unpack _). by vm_compute.
Defined.

(** The tree of [CommentTreeTestCase] in [tests.py]. *)
Example test_build_comment_tree_structure :
  let c parent created := mkComment 1 parent 1 "" 0 created in
  render_tree [(1, c None 0); (2, c (Some 1) 1); (3, c (Some 1) 2);
               (4, c (Some 2) 3); (5, c None 4)] None
  = Some [Node 1 false [Node 2 false [Node 4 false []]; Node 3 false []];
          Node 5 false []].
Proof. by vm_compute. Qed.

(** ** The leaderboard on concrete ledgers *)

Example test_leaderboard_calculates_from_transactions :
  entry_row <$> get (hours 100) test_db = [(2, 30, 1); (1, 25, 2); (3, 10, 3)].
Proof. (vm_compute; done). Qed.

Lemma leaderboard_top5_witness :
  entry_rank <$> get (hours 100) crowded_db = Z.of_nat <$> seq 1 5
  ∧ (λ e, (entry_user e).1) <$> get (hours 100) crowded_db = [7; 6; 5; 4; 3].
Proof.
  assert (∀ t, t ∈ karma_transactions crowded_db →
               is_Some (users crowded_db !! kt_user_id t)) as Hfk.
  { apply Forall_forall. apply (bool_decide_unpack _). (vm_compute; done). }
  destruct (leaderboard_top5 (hours 100) crowded_db Hfk)
    as (_ & _ & _ & _ & Hlen & Hranks).
  split; [|(vm_compute; done)].
  rewrite Hranks, Hlen. (vm_compute; done).
Defined.

(** The ledger of the test: user 3 was credited 60 in all, 50 of it more
    than 24 hours ago, and is listed with 10; in the crowded store the
    transaction of user 9, 25 hours old, changes nothing. *)
Lemma leaderboard_window_witness :
  (∃ rank, mkEntry (3, mkUser "user3" "" 2000) 10 rank ∈ get (hours 100) test_db)
  ∧ karma_sum 3 (karma_transactions test_db) = 60
  ∧ get (hours 100) crowded_db
    = get (hours 100)
        (set_karma_transactions
           (λ _, (((λ i, aged (Z.of_nat i) (Z.of_nat i) 1) <$> seq 1 7)
                  ++ [aged 8 5 2; aged 8 (-5) 1]) ++ []) crowded_db)
  ∧ ∀ e, e ∈ get (hours 100) crowded_db → (entry_user e).1 ≠ 9.
Proof.
  destruct (leaderboard_window (hours 100) test_db) as (_ & _ & _ & _ & Hlisted & _).
  destruct (leaderboard_window (hours 100) crowded_db)
    as (_ & _ & _ & _ & _ & Hold & Hnone).
  assert (window_sum (hours 100) 3 (karma_transactions test_db) = 10) as Hsum
    by (vm_compute; reflexivity).
  split_and!.
  - rewrite <- Hsum. apply Hlisted.
    + vm_compute. reflexivity.
    + rewrite Hsum. lia.
    + apply Nat.leb_le. vm_compute. reflexivity.
  - vm_compute. reflexivity.
  - refine (Hold (((λ i, aged (Z.of_nat i) (Z.of_nat i) 1) <$> seq 1 7)
                  ++ [aged 8 5 2; aged 8 (-5) 1]) (aged 9 50 25) [] _ _).
    + vm_compute. reflexivity.
    + vm_compute. reflexivity.
  - refine (proj2 (proj2 (Hnone 9 _))).
    apply (Forall_forall
             (λ t, kt_user_id t = 9 →
                   kt_created_at t < hours 100 - 24 * 3600 * 1000000)).
    apply (bool_decide_unpack _). vm_compute. exact I.
Defined.

Lemma leaderboard_ignores_total_karma_witness :
  entry_row <$> get (hours 100) test_db
  = entry_row <$>
      get (hours 100)
        (set_users (λ _, {[ 1 := mkUser "user1" "" 0; 2 := mkUser "user2" "" 77777;
                            3 := mkUser "user3" "" 3 ]}) test_db).
Proof.
  refine (proj1 (leaderboard_ignores_total_karma (hours 100) test_db _ eq_refl _)).
  intros pk. unfold test_db, set_users, users.
  rewrite !lookup_insert. repeat case_decide; reflexivity.
Defined.

(** * Further properties *)

(** ** Invariants kept by every request *)

Lemma run_invariant (P : Db → Prop) :
  (∀ op db, P db → P (run_op op db).2) →
  ∀ ops db, P db → P (run ops db).2.
Proof.
  intros Hstep ops. induction ops as [|op ops IH]; intros db HP; [done|].
  rewrite run_cons. cbn [snd]. by apply IH, Hstep.
Qed.

Lemma like_matches_key user ty pk l :
  like_matches user ty pk l = true ↔ like_key l = (user, ty, pk).
Proof.
  rewrite like_matches_spec. unfold like_key. split.
  - by intros (-> & -> & ->).
  - by intros [= -> -> ->].
Qed.

Lemma filter_like_matches_nil user ty pk rows :
  List.filter (like_matches user ty pk) rows = [] →
  (user, ty, pk) ∉ like_key <$> rows.
Proof.
  intros Hnil (l & Hkey & Hin)%list_elem_of_fmap.
  assert (In l (List.filter (like_matches user ty pk) rows)) as Hl.
  { apply filter_In. split; [by apply list_elem_of_In|].
    by apply like_matches_key. }
  by rewrite Hnil in Hl.
Qed.

Lemma take_drop_sublist {A} (l : list A) i :
  take i l ++ drop (S i) l `sublist_of` l.
Proof. rewrite <- delete_take_drop. apply sublist_delete. Qed.

Lemma likes_set_likes_count ty pk n db :
  likes (set_likes_count ty pk n db) = likes db.
Proof. by destruct ty. Qed.

Lemma likes_liked_db ty now user pk n author a db0 :
  likes (liked_db ty now user pk n author a db0) = likes db0 ++ [mkLike user ty pk now].
Proof. by destruct ty. Qed.

Lemma user_added_creates_only db db0 : user_added db db0 → creates_only db db0.
Proof.
  intros (Hp & Hc & Hl & Hk & Hu). unfold creates_only.
  by rewrite Hp, Hc, Hl, Hk.
Qed.

Lemma run_op_effect op db : request_effect db (run_op op db).2.
Proof.
  destruct op as [ty now request pk|ty request pk|now request|now request|now request pk].
  - destruct (like_target_frame ty now request pk db) as (user & db0 & Hfr & Hspec).
    unfold run_op. destruct Hspec as [n author a ? ? ? ? ? ?|r _]; cbn [snd].
    + by eapply effect_liked.
    + by apply effect_created, user_added_creates_only.
  - destruct (unlike_target_frame ty request pk db) as (user & db0 & Hfr & Hspec).
    unfold run_op. destruct Hspec as [n i ? ? ?|r _]; cbn [snd].
    + by eapply effect_unliked.
    + by apply effect_created, user_added_creates_only.
  - apply effect_created, (create_views_frame (OpCreatePost now request) db I).
  - apply effect_created, (create_views_frame (OpCreateComment now request) db I).
  - apply effect_created, (create_views_frame (OpPostComments now request pk) db I).
Qed.

(** X1: the uniqueness of likes is kept.  If no two [Like] rows share
    (user, target type, target id), then after any sequence of mutating
    requests no two rows do. *)
Theorem likes_stay_unique ops db :
  likes_unique db → likes_unique (run ops db).2.
Proof.
  revert db. apply run_invariant. intros op db Huniq. unfold likes_unique in *.
  destruct (run_op_effect op db)
    as [ty now user pk n author a db0 (_ & _ & Hl & _) _ _ Hnone _ _ _
       |ty user pk n i db0 (_ & _ & Hl & _) _ _ _
       |db' (_ & _ & _ & Hl & _)]; rewrite <- ?Hl in Huniq.
  - rewrite likes_liked_db, fmap_app. apply NoDup_app. split_and!; [done| |].
    + intros key Hin ->%list_elem_of_singleton.
      by apply (filter_like_matches_nil _ _ _ _ Hnone).
    + apply NoDup_singleton.
  - rewrite likes_set_likes_count. cbn.
    apply (sublist_NoDup _ _ Huniq), fmap_sublist, take_drop_sublist.
  - done.
Qed.

Lemma likes_stay_unique_witness :
  let request := mkRequest (Some 2) "" 0 None in
  let db := mkDb {[ 1 := mkUser "alice" "" 0; 2 := mkUser "bob" "" 0 ]}
                 {[ 10 := mkPost 1 "hi" 0 0 ]} ∅ [] [] in
  likes_unique
    (run [OpLike TARGET_POST 1 request 10; OpLike TARGET_POST 2 request 10;
          OpUnlike TARGET_POST request 10; OpLike TARGET_POST 3 request 10] db).2.
Proof. cbv zeta. apply likes_stay_unique. apply NoDup_nil_2. Defined.

Lemma run_op_likes_have_targets op db :
  likes_have_targets db → likes_have_targets (run_op op db).2.
Proof.
  intros Hinv.
  destruct (run_op_effect op db)
    as [ty now user pk n author a db0 Hfr Hn _ _ _ _ _
       |ty user pk n i db0 Hfr Hn _ _
       |db' Hfr]; intros l Hin.
  - rewrite likes_liked_db in Hin. rewrite likes_count_liked_db.
    assert (is_Some (likes_count (like_target_type l) (like_target_id l) db0)) as Hsome.
    { apply elem_of_app in Hin as [Hin|Hin];
        [|apply list_elem_of_singleton in Hin as ->; cbn; by rewrite Hn].
      rewrite (user_added_likes_count _ _ _ _ Hfr). apply Hinv.
      destruct Hfr as (_ & _ & Hl & _). by rewrite <- Hl. }
    destruct (_ && _); [|done]. by apply fmap_is_Some.
  - rewrite likes_set_likes_count in Hin. cbn in Hin. rewrite likes_count_unliked.
    assert (is_Some (likes_count (like_target_type l) (like_target_id l) db0)) as Hsome.
    { rewrite (user_added_likes_count _ _ _ _ Hfr). apply Hinv.
      destruct Hfr as (_ & _ & Hl & _). rewrite <- Hl.
      by eapply elem_of_sublist; [|apply take_drop_sublist]. }
    destruct (_ && _); [|done]. by apply fmap_is_Some.
  - destruct Hfr as (Hu & Hp & Hc & Hl & Hk). rewrite Hl in Hin.
    destruct (Hinv l Hin) as [n Hn]. exists n.
    by apply (creates_only_likes_count _ _ db); [repeat split|].
Qed.

(** X2: likes point at targets.  [Like.target_id] is a plain integer, not
    a foreign key; still, if every [Like] row points at a post or comment of
    the store, then after any sequence of like, unlike and create requests
    every row does: these actions insert a row only for a target they have
    just read, and none of them deletes a post or a comment. *)
Theorem likes_keep_targets ops db :
  likes_have_targets db → likes_have_targets (run ops db).2.
Proof. revert db. apply run_invariant. apply run_op_likes_have_targets. Qed.

Lemma likes_keep_targets_witness :
  let request := mkRequest (Some 2) "" 0 None in
  let db := mkDb {[ 1 := mkUser "alice" "" 0; 2 := mkUser "bob" "" 0 ]}
                 {[ 10 := mkPost 1 "hi" 0 0 ]} ∅ [] [] in
  likes_have_targets
    (run [OpLike TARGET_POST 1 request 10; OpLike TARGET_COMMENT 2 request 10;
          OpCreatePost 3 request] db).2.
Proof.
  cbv zeta. apply likes_keep_targets. intros l Hl. by apply elem_of_nil in Hl.
Defined.

(** The cached total of a user and the ledger move together. *)
Lemma karma_sum_app user rows rows' :
  karma_sum user (rows ++ rows') = karma_sum user rows + karma_sum user rows'.
Proof.
  unfold karma_sum. rewrite filter_app, fmap_app.
  induction (kt_amount <$> filter _ rows) as [|x l IH]; cbn; lia.
Qed.

Lemma request_effect_total_karma db db' user row :
  request_effect db db' →
  users db !! user = Some row →
  ∃ row', users db' !! user = Some row'
    ∧ username row' = username row ∧ avatar row' = avatar row
    ∧ total_karma row' - karma_sum user (karma_transactions db')
      = total_karma row - karma_sum user (karma_transactions db).
Proof.
  intros [ty now liker pk n author a db0 Hfr _ _ _ Ha _ _
         |ty liker pk n i db0 Hfr _ _ _
         |db'' Hfr] Hrow.
  - destruct (liked_db_fields ty now liker pk n author a db0) as (-> & _ & ->).
    destruct Hfr as (_ & _ & _ & -> & Hsub).
    apply (lookup_weaken _ _ _ _ Hrow) in Hsub.
    rewrite karma_sum_app. unfold karma_sum at 2. rewrite filter_cons. cbn.
    destruct (decide (author = user)) as [->|Hne].
    + rewrite lookup_insert_eq. simplify_eq. eexists. split; [done|]. cbn.
      split_and!; [done..|]. lia.
    + rewrite lookup_insert_ne by done. exists row. split_and!; [done..|].
      cbn. lia.
  - destruct Hfr as (_ & _ & _ & Hk & Hsub).
    apply (lookup_weaken _ _ _ _ Hrow) in Hsub. exists row.
    assert (∀ x y z db1, users (set_likes_count x y z db1) = users db1) as ->
      by (by intros []).
    assert (∀ x y z db1,
              karma_transactions (set_likes_count x y z db1) = karma_transactions db1)
      as -> by (by intros []).
    cbn. by rewrite Hk.
  - destruct Hfr as (Hsub & _ & _ & _ & ->).
    apply (lookup_weaken _ _ _ _ Hrow) in Hsub. by exists row.
Qed.

(** X3: the cached [total_karma] tracks the ledger.  Over any sequence of
    mutating requests, the [total_karma] of a user of the store grows by
    exactly the sum of the amounts the requests credited to that user in the
    ledger; name and avatar stay. *)
Theorem total_karma_tracks_ledger ops db user row :
  users db !! user = Some row →
  ∃ row', users (run ops db).2 !! user = Some row'
    ∧ username row' = username row ∧ avatar row' = avatar row
    ∧ total_karma row'
      = total_karma row
        + (karma_sum user (karma_transactions (run ops db).2)
           - karma_sum user (karma_transactions db)).
Proof.
  revert db row. induction ops as [|op ops IH]; intros db row Hrow.
  - exists row. cbn. split_and!; [done..|]. lia.
  - rewrite run_cons. cbn [snd].
    destruct (request_effect_total_karma _ _ _ _ (run_op_effect op db) Hrow)
      as (row1 & Hrow1 & Hn1 & Ha1 & Hk1).
    destruct (IH _ _ Hrow1) as (row2 & Hrow2 & Hn2 & Ha2 & Hk2).
    exists row2. split_and!; [done|congruence|congruence|lia].
Qed.

Lemma total_karma_tracks_ledger_witness :
  let request := mkRequest (Some 2) "" 0 None in
  let db := mkDb {[ 1 := mkUser "alice" "" 40; 2 := mkUser "bob" "" 0 ]}
                 {[ 10 := mkPost 1 "hi" 0 0 ]} {[ 10 := mkComment 10 None 1 "c" 0 0 ]}
                 [] [] in
  let ops := [OpLike TARGET_POST 1 request 10; OpLike TARGET_COMMENT 2 request 10;
              OpUnlike TARGET_POST request 10] in
  ∃ row', users (run ops db).2 !! 1 = Some row' ∧ total_karma row' = 40 + (6 - 0).
Proof.
  cbv zeta.
  match goal with
  | |- ∃ row', users (run ?ops ?db).2 !! _ = _ ∧ _ =>
      destruct (total_karma_tracks_ledger ops db 1 (mkUser "alice" "" 40))
        as (row' & Hrow & _ & _ & Hk); [vm_compute; reflexivity|]
  end.
  exists row'. split; [exact Hrow|]. rewrite Hk. vm_compute. reflexivity.
Defined.

(** ** Failures and round trips of the coordinator *)

(** X4: no partial effect.  A like that is not answered with success, and
    likewise an unlike, answers a failure and leaves posts, comments, likes
    and the ledger as they were; at most the demo user was added to
    [users]. *)
Theorem failed_request_changes_nothing ty now request pk db :
  ((∀ n k, (like_target ty now request pk db).1 ≠ LikeOk n k) →
     is_failure (like_target ty now request pk db).1
     ∧ user_added db (like_target ty now request pk db).2)
  ∧ ((∀ n, (unlike_target ty request pk db).1 ≠ UnlikeOk n) →
       is_failure (unlike_target ty request pk db).1
       ∧ user_added db (unlike_target ty request pk db).2).
Proof.
  split.
  - destruct (like_target_frame ty now request pk db) as (user & db0 & Hfr & Hspec).
    destruct Hspec as [n author a _ _ _ _ _ _|r Hr]; cbn [fst snd]; intros Hfail.
    + by destruct (Hfail (n + 1) (karma_for ty)).
    + done.
  - destruct (unlike_target_frame ty request pk db) as (user & db0 & Hfr & Hspec).
    destruct Hspec as [n i _ _ _|r Hr]; cbn [fst snd]; intros Hfail.
    + by destruct (Hfail (n + -1)).
    + done.
Qed.

Lemma failed_request_changes_nothing_witness :
  let request := mkRequest (Some 2) "" 0 None in
  let db := mkDb {[ 1 := mkUser "alice" "" 0; 2 := mkUser "bob" "" 0 ]}
                 {[ 10 := mkPost 1 "hi" 1 0 ]} ∅ [mkLike 2 TARGET_POST 10 0] [] in
  user_added db (like_target TARGET_POST 5 request 10 db).2
  ∧ user_added db (unlike_target TARGET_COMMENT request 10 db).2.
Proof.
  cbv zeta. split.
  - refine (proj2 (proj1 (failed_request_changes_nothing TARGET_POST 5 _ 10 _) _)).
    intros n k. vm_compute. discriminate.
  - refine (proj2 (proj2 (failed_request_changes_nothing TARGET_COMMENT 5 _ 10 _) _)).
    intros n. vm_compute. discriminate.
Defined.

(** X5: what the failures mean.  Once the user is resolved, a like or an
    unlike answers [NotFound] exactly when the store has no such post or
    comment; a like of a target the user already likes answers
    [AlreadyLiked]; an unlike answers [LikeNotFound] exactly when the target
    exists and the user has no [Like] row on it.  None of these changes the
    store the user was resolved in. *)
Theorem like_unlike_failures ty now request pk db user db0 :
  _get_current_user request db = (inr (Some user), db0) →
  ((like_target ty now request pk db).1 = NotFound ↔ likes_count ty pk db = None)
  ∧ ((unlike_target ty request pk db).1 = NotFound ↔ likes_count ty pk db = None)
  ∧ (likes_count ty pk db = None →
       (like_target ty now request pk db).2 = db0
       ∧ (unlike_target ty request pk db).2 = db0)
  ∧ (is_Some (likes_count ty pk db) →
       List.filter (like_matches user ty pk) (likes db) ≠ [] →
       like_target ty now request pk db = (AlreadyLiked, db0))
  ∧ ((unlike_target ty request pk db).1 = LikeNotFound ↔
       is_Some (likes_count ty pk db)
       ∧ List.filter (like_matches user ty pk) (likes db) = [])
  ∧ ((unlike_target ty request pk db).1 = LikeNotFound →
       (unlike_target ty request pk db).2 = db0).
Proof.
  intros Hcur.
  destruct (_get_current_user_inv _ _ _ _ Hcur) as (? & [= <-] & Hres).
  pose proof (resolved_frame _ _ _ _ Hres) as Hfr.
  rewrite (like_target_result _ _ _ _ _ _ _ Hcur).
  rewrite (unlike_target_result _ _ _ _ _ _ Hcur).
  rewrite <- (user_added_likes_count _ _ ty pk Hfr).
  destruct Hfr as (_ & _ & <- & _).
  unfold like_result, unlike_result.
  destruct (likes_count ty pk db0) as [n|] eqn:Hn.
  - assert (is_Some (target_author ty pk db0)) as [author ->].
    { destruct ty; cbn in *.
      - destruct (posts db0 !! pk); [by eexists|done].
      - destruct (comments db0 !! pk); [by eexists|done]. }
    rewrite <- find_like_None.
    assert ((match List.filter (like_matches user ty pk) (likes db0) with
             | [] =>
                 if bool_decide (0 ≤ n + 1)
                 then match users db0 !! author with
                      | Some a =>
                          if bool_decide (0 ≤ total_karma a + karma_for ty)
                          then (LikeOk (n + 1) (karma_for ty),
                                liked_db ty now user pk n author a db0)
                          else (AlreadyLiked, db0)
                      | None => (ServerError User_DoesNotExist, db0)
                      end
                 else (AlreadyLiked, db0)
             | _ :: _ => (AlreadyLiked, db0)
             end).1 ≠ NotFound) as Hlike.
    { destruct (List.filter _ _); [|done]. case_bool_decide; [|done].
      destruct (users db0 !! author); [|done]. by case_bool_decide. }
    split_and!.
    + split; [by intros ?|done].
    + split; [|done].
      destruct (find_like _ _ _ _); [destruct (bool_decide (0 ≤ n + -1))|];
        by intros [=].
    + done.
    + intros _ Hsome. rewrite find_like_None in Hsome.
      by destruct (List.filter _ _).
    + split.
      * destruct (find_like _ _ _ _); [destruct (bool_decide (0 ≤ n + -1)); by intros [=]|].
        by split.
      * by intros [_ ->].
    + destruct (find_like _ _ _ _); [destruct (bool_decide (0 ≤ n + -1)); by intros [=]|done].
  - split_and!.
    + done.
    + done.
    + done.
    + by intros ?%is_Some_None.
    + split; [by intros [=]|]. by intros [?%is_Some_None _].
    + done.
Qed.

Lemma like_unlike_failures_witness :
  let request := mkRequest (Some 2) "" 0 None in
  let db := mkDb {[ 1 := mkUser "alice" "" 0; 2 := mkUser "bob" "" 0 ]}
                 {[ 10 := mkPost 1 "hi" 1 0 ]} ∅ [mkLike 2 TARGET_POST 10 0] [] in
  (like_target TARGET_POST 5 request 11 db).1 = NotFound
  ∧ like_target TARGET_POST 5 request 10 db = (AlreadyLiked, db).
Proof.
  cbv zeta.
  match goal with
  | |- (like_target _ _ ?request _ ?db).1 = _ ∧ _ =>
      pose proof (like_unlike_failures TARGET_POST 5 request 11 db 2 db eq_refl)
        as (Hnf & _);
      pose proof (like_unlike_failures TARGET_POST 5 request 10 db 2 db eq_refl)
        as (_ & _ & _ & Hal & _)
  end.
  split.
  - apply Hnf. vm_compute. reflexivity.
  - apply Hal; [by eexists|]. vm_compute. discriminate.
Defined.

(** ** A like undone, and made again *)

Lemma find_like_app_new user ty pk rows now :
  List.filter (like_matches user ty pk) rows = [] →
  find_like user ty pk (rows ++ [mkLike user ty pk now]) = Some (length rows).
Proof.
  induction rows as [|l rows IH]; cbn; intros Hnil.
  - by rewrite like_matches_self.
  - destruct (like_matches user ty pk l); [done|]. by rewrite IH.
Qed.

Lemma take_drop_app_new {A} (l : list A) x :
  take (length l) (l ++ [x]) ++ drop (S (length l)) (l ++ [x]) = l.
Proof.
  rewrite take_app_length.
  replace (S (length l)) with (length (l ++ [x])) by (rewrite length_app; cbn; lia).
  by rewrite drop_all, app_nil_r.
Qed.

Lemma set_likes_count_undo ty pk n m db db' :
  likes_count ty pk db = Some n →
  posts db' = posts (set_likes_count ty pk m db) →
  comments db' = comments (set_likes_count ty pk m db) →
  posts (set_likes_count ty pk n db') = posts db
  ∧ comments (set_likes_count ty pk n db') = comments db.
Proof.
  destruct ty; cbn; intros Hn -> ->.
  - destruct (posts db !! pk) as [p|] eqn:Hp; [|done]. split; [|done].
    rewrite lookup_insert_eq, insert_insert_eq.
    apply insert_id. rewrite Hp. destruct p. by simplify_eq/=.
  - destruct (comments db !! pk) as [c|] eqn:Hc; [|done]. split; [done|].
    rewrite lookup_insert_eq, insert_insert_eq.
    apply insert_id. rewrite Hc. destruct c. by simplify_eq/=.
Qed.

Lemma likes_count_ext ty pk db db' :
  posts db' = posts db → comments db' = comments db →
  likes_count ty pk db' = likes_count ty pk db
  ∧ target_author ty pk db' = target_author ty pk db.
Proof. destruct ty; cbn; by intros Hp Hc; rewrite ?Hp, ?Hc. Qed.

(** What a like that went through leaves for the unlike of the same
    request. *)
Lemma like_then_unlike_result ty now request pk db n k db1 :
  like_target ty now request pk db = (LikeOk n k, db1) →
  ∃ user db0 author a,
    resolved request db user db0
    ∧ likes_count ty pk db0 = Some (n - 1)
    ∧ target_author ty pk db0 = Some author
    ∧ List.filter (like_matches user ty pk) (likes db0) = []
    ∧ users db0 !! author = Some a
    ∧ k = karma_for ty ∧ 0 ≤ total_karma a + k
    ∧ db1 = liked_db ty now user pk (n - 1) author a db0
    ∧ _get_current_user request db1 = (inr (Some user), db1)
    ∧ unlike_target ty request pk db1
      = if bool_decide (0 ≤ n - 1)
        then (UnlikeOk (n - 1),
              set_likes_count ty pk (n - 1)
                (set_likes (λ rows, take (length (likes db0)) rows
                                    ++ drop (S (length (likes db0))) rows) db1))
        else (ServerError IntegrityError, db1).
Proof.
  intros Hlike.
  destruct (like_target_spec ty now request pk db)
    as [(user & db0 & Hcur & Hres & Hspec)|Hmany]; [|by rewrite Hmany in Hlike].
  rewrite Hlike in Hspec.
  inversion Hspec as [n0 author a Hn Hauthor Hnone Ha Hn0 Hk|r Hr]; [|done].
  subst. replace (n0 + 1 - 1) with n0 by lia.
  destruct (liked_db_fields ty now user pk n0 author a db0) as (Hu & Hl & _).
  assert (_get_current_user request (liked_db ty now user pk n0 author a db0)
          = (inr (Some user), liked_db ty now user pk n0 author a db0)) as Hcur1.
  { by apply (resolved_stable request db user db0 author a
                 (with_total_karma (total_karma a + karma_for ty) a)). }
  exists user, db0, author, a. split_and!; try done.
  rewrite (unlike_target_result _ _ _ _ _ _ Hcur1). unfold unlike_result.
  rewrite likes_count_liked_db, !bool_decide_eq_true_2 by done. cbn [andb].
  rewrite Hn. cbn [fmap option_fmap option_map].
  rewrite Hl, (find_like_app_new _ _ _ _ _ Hnone).
  replace (n0 + 1 + -1) with n0 by lia. done.
Qed.

(** X6: a like undone.  When a like went through on a counter that was not
    negative, the unlike of the same request goes through; it puts back the
    [Like] rows, the posts and the comments the like found, and keeps the
    ledger row and the author's [total_karma] the like wrote. *)
Theorem like_then_unlike ty now request pk db n k db1 :
  like_target ty now request pk db = (LikeOk n k, db1) → 0 ≤ n - 1 →
  let db2 := (unlike_target ty request pk db1).2 in
  (unlike_target ty request pk db1).1 = UnlikeOk (n - 1)
  ∧ posts db2 = posts db ∧ comments db2 = comments db ∧ likes db2 = likes db
  ∧ likes_count ty pk db2 = likes_count ty pk db
  ∧ users db2 = users db1
  ∧ karma_transactions db2 = karma_transactions db1.
Proof.
  intros Hlike Hn0.
  destruct (like_then_unlike_result _ _ _ _ _ _ _ _ Hlike)
    as (user & db0 & author & a & Hres & Hn & _ & _ & _ & _ & _ & Hdb1 & _ & ->).
  rewrite bool_decide_eq_true_2 by done. cbn [fst snd].
  destruct (resolved_frame _ _ _ _ Hres) as (Hp & Hc & Hl & _).
  destruct (liked_db_fields ty now user pk (n - 1) author a db0) as (_ & Hl1 & _).
  rewrite <- Hdb1 in Hl1.
  destruct (set_likes_count_undo ty pk (n - 1) (n - 1 + 1) db0
              (set_likes (λ rows, take (length (likes db0)) rows
                                  ++ drop (S (length (likes db0))) rows) db1))
    as (Hp2 & Hc2); [done|subst db1; by destruct ty..|].
  assert (likes (set_likes_count ty pk (n - 1)
                   (set_likes (λ rows, take (length (likes db0)) rows
                                       ++ drop (S (length (likes db0))) rows) db1))
          = likes db) as Hl2.
  { rewrite likes_set_likes_count. cbn. by rewrite Hl1, take_drop_app_new. }
  split_and!; [done|congruence|congruence|done| |by destruct ty..].
  apply likes_count_ext; congruence.
Qed.

Lemma like_then_unlike_witness :
  let request := mkRequest (Some 2) "" 0 None in
  let db := mkDb {[ 1 := mkUser "alice" "" 0; 2 := mkUser "bob" "" 0 ]}
                 {[ 10 := mkPost 1 "hi" 3 0 ]} ∅ [mkLike 1 TARGET_POST 10 0] [] in
  let db1 := (like_target TARGET_POST 7 request 10 db).2 in
  (unlike_target TARGET_POST request 10 db1).1 = UnlikeOk (4 - 1)
  ∧ likes (unlike_target TARGET_POST request 10 db1).2 = likes db.
Proof.
  cbv zeta.
  match goal with
  | |- (unlike_target _ ?request _ (like_target _ _ _ _ ?db).2).1 = _ ∧ _ =>
      pose proof (like_then_unlike TARGET_POST 7 request 10 db 4 5
                    (like_target TARGET_POST 7 request 10 db).2) as H
  end.
  destruct H as (Hr & _ & _ & Hl & _); [vm_compute; reflexivity|lia|].
  split; [exact Hr|exact Hl].
Defined.

(** X7: karma is awarded again.  After a like and its unlike, the same
    request can like again: the counter is back where the first like left
    it, and the author has been credited twice, in the ledger and in
    [total_karma]. *)
Theorem like_again_awards_again ty now now' request pk db n k db1 :
  like_target ty now request pk db = (LikeOk n k, db1) → 0 ≤ n - 1 →
  let db2 := (unlike_target ty request pk db1).2 in
  let db3 := (like_target ty now' request pk db2).2 in
  ∃ user author a,
    target_author ty pk db = Some author
    ∧ users db1 !! author = Some a
    ∧ (like_target ty now' request pk db2).1 = LikeOk n k
    ∧ likes_count ty pk db3 = Some n
    ∧ karma_transactions db3
      = karma_transactions db
        ++ [mkKarmaTransaction author k (reason_for ty) pk (Some user) now;
            mkKarmaTransaction author k (reason_for ty) pk (Some user) now']
    ∧ total_karma <$> users db3 !! author = Some (total_karma a + k)
    ∧ 0 < k.
Proof.
  intros Hlike Hn0.
  destruct (like_then_unlike_result _ _ _ _ _ _ _ _ Hlike)
    as (user & db0 & author & a & Hres & Hn & Hauthor & Hnone & Ha & -> & Hk
        & Hdb1 & Hcur1 & ->).
  rewrite bool_decide_eq_true_2 by done. cbn [fst snd].
  destruct (resolved_frame _ _ _ _ Hres) as (Hp & Hc & Hl & Hkt & _).
  destruct (liked_db_fields ty now user pk (n - 1) author a db0) as (Hu1 & Hl1 & Hk1).
  rewrite <- Hdb1 in Hu1, Hl1, Hk1.
  set (db2 := set_likes_count ty pk (n - 1) _).
  destruct (set_likes_count_undo ty pk (n - 1) (n - 1 + 1) db0
              (set_likes (λ rows, take (length (likes db0)) rows
                                  ++ drop (S (length (likes db0))) rows) db1))
    as (Hp2 & Hc2); [done|subst db1; by destruct ty..|]. fold db2 in Hp2, Hc2.
  assert (users db2 = users db1) as Hu2 by (by destruct ty).
  assert (karma_transactions db2 = karma_transactions db1) as Hk2 by (by destruct ty).
  assert (likes db2 = likes db0) as Hl2.
  { unfold db2. rewrite likes_set_likes_count. cbn. by rewrite Hl1, take_drop_app_new. }
  assert (_get_current_user request db2 = (inr (Some user), db2)) as Hcur2.
  { eapply (resolved_stable _ _ _ _ author a); [done..| |by rewrite Hu2, Hu1]. done. }
  rewrite (like_target_result _ _ _ _ _ _ _ Hcur2). unfold like_result.
  destruct (likes_count_ext ty pk db0 db2 Hp2 Hc2) as (Hn2 & Hauthor2).
  rewrite Hn2, Hauthor2, Hn, Hauthor.
  rewrite Hl2, Hnone, Hu2, Hu1, lookup_insert_eq.
  assert (0 < karma_for ty) as Hpos by (destruct ty; cbn; lia).
  rewrite !bool_decide_eq_true_2 by (cbn; lia). cbn [fst snd].
  exists user, author, (with_total_karma (total_karma a + karma_for ty) a).
  split_and!.
  - by rewrite <- (user_added_target_author db db0)
      by apply (resolved_frame _ _ _ _ Hres).
  - by rewrite lookup_insert_eq.
  - f_equal. lia.
  - rewrite likes_count_liked_db, !bool_decide_eq_true_2 by done. cbn [andb].
    rewrite Hn2, Hn. cbn. f_equal. lia.
  - destruct (liked_db_fields ty now' user pk (n - 1) author
                (with_total_karma (total_karma a + karma_for ty) a) db2) as (_ & _ & ->).
    by rewrite Hk2, Hk1, Hkt, <- app_assoc.
  - destruct (liked_db_fields ty now' user pk (n - 1) author
                (with_total_karma (total_karma a + karma_for ty) a) db2) as (-> & _ & _).
    by rewrite lookup_insert_eq.
  - done.
Qed.

Lemma like_again_awards_again_witness :
  let request := mkRequest (Some 2) "" 0 None in
  let db := mkDb {[ 1 := mkUser "alice" "" 0; 2 := mkUser "bob" "" 0 ]}
                 {[ 10 := mkPost 1 "hi" 0 0 ]} ∅ [] [] in
  let db1 := (like_target TARGET_POST 7 request 10 db).2 in
  let db2 := (unlike_target TARGET_POST request 10 db1).2 in
  (like_target TARGET_POST 9 request 10 db2).1 = LikeOk 1 5
  ∧ total_karma <$> users (like_target TARGET_POST 9 request 10 db2).2 !! 1 = Some 10.
Proof.
  cbv zeta.
  match goal with
  | |- (like_target _ _ ?request _ (unlike_target _ _ _ (like_target _ _ _ _ ?db).2).2).1
       = _ ∧ _ =>
      pose proof (like_again_awards_again TARGET_POST 7 9 request 10 db 1 5
                    (like_target TARGET_POST 7 request 10 db).2) as H
  end.
  destruct H as (user & author & a & Hauthor & Ha & Hr & _ & _ & Hk & _);
    [vm_compute; reflexivity|lia|].
  split; [exact Hr|].
  vm_compute in Hauthor. injection Hauthor as <-.
  vm_compute in Ha. injection Ha as <-. exact Hk.
Defined.

(** ** The views that create rows, as functions of the store *)

Lemma create_post_result now request db user db0 :
  _get_current_user request db = (inr (Some user), db0) →
  PostViewSet.create now request db
  = match Serializers.PostCreateSerializer (data_content request) with
    | Some content =>
        (Created (next_pk (posts db0)),
         set_posts (insert (next_pk (posts db0)) (mkPost user content 0 now)) db0)
    | None => (BadRequest, db0)
    end.
Proof.
  intros Hcur. unfold PostViewSet.create, respond, bind. rewrite Hcur.
  by destruct (Serializers.PostCreateSerializer _).
Qed.

Lemma create_comment_result now request db user db0 :
  _get_current_user request db = (inr (Some user), db0) →
  CommentViewSet.create now request db
  = match posts db0 !! data_post request,
          match data_parent request with
          | Some pid => option_map (λ c, Some (pid, c)) (comments db0 !! pid)
          | None => Some None
          end with
    | Some _, Some parent =>
        match Serializers.validate_parent parent (data_post request),
              Serializers.CharField 1000 (data_content request) with
        | Some parent, Some content =>
            (Created (next_pk (comments db0)),
             set_comments
               (insert (next_pk (comments db0))
                  (mkComment (data_post request) (fst <$> parent) user
                             content 0 now)) db0)
        | _, _ => (BadRequest, db0)
        end
    | _, _ => (BadRequest, db0)
    end.
Proof.
  intros Hcur. unfold CommentViewSet.create, respond, bind, read. rewrite Hcur.
  cbn. destruct (posts db0 !! data_post request);
    (destruct (data_parent request) as [pid|];
       [destruct (comments db0 !! pid); cbn|]; try done).
  - case_bool_decide; [done|]. by destruct (Serializers.CharField _ _).
  - by destruct (Serializers.CharField _ _).
Qed.

Lemma post_comments_result now request pk db :
  PostViewSet.comments now request pk db
  = match posts db !! pk with
    | None => (NotFound, db)
    | Some _ =>
        match _get_current_user request db with
        | (inl e, db0) => (ServerError e, db0)
        | (inr None, db0) => (Unauthorized, db0)
        | (inr (Some user), db0) =>
            let content := Serializers.strip (data_content request) in
            let created parent :=
              (ServerError FieldDoesNotExist,
               set_comments
                 (insert (next_pk (comments db0)) (mkComment pk parent user content 0 now))
                 db0) in
            if bool_decide (content = EmptyString) then (BadRequest, db0) else
            match data_parent request with
            | Some parent_id =>
                if bool_decide (parent_id = 0) then created None else
                match comments db0 !! parent_id with
                | Some parent =>
                    if bool_decide (comment_post_id parent = pk)
                    then created (Some parent_id) else (BadRequest, db0)
                | None => (BadRequest, db0)
                end
            | None => created None
            end
        end
    end.
Proof.
  unfold PostViewSet.comments, respond, bind, try_except, get_post, ret, read.
  destruct (posts db !! pk) as [p|]; [|done]. cbn.
  destruct (_get_current_user request db) as [[e|[user|]] db0]; [done| |done].
  case_bool_decide; [done|].
  destruct (data_parent request) as [parent_id|]; [|done].
  case_bool_decide; [done|].
  destruct (comments db0 !! parent_id) as [parent|]; [|done].
  by case_bool_decide.
Qed.

Lemma run_op_step op db : request_step db (run_op op db).2.
Proof.
  destruct op as [ty now request pk|ty request pk|now request|now request|now request pk];
    unfold run_op.
  - destruct (like_target_spec ty now request pk db)
      as [(user & db0 & _ & Hres & Hspec)| ->]; [|apply step_none].
    destruct Hspec; cbn [snd]; [by eapply step_liked|by eapply step_resolved].
  - destruct (unlike_target_spec ty request pk db)
      as [(user & db0 & _ & Hres & Hspec)| ->]; [|apply step_none].
    destruct Hspec; cbn [snd]; [by eapply step_unliked|by eapply step_resolved].
  - destruct (_get_current_user_cases request db) as [(user & db0 & Hcur & Hres)|Hfail].
    + rewrite (create_post_result _ _ _ _ _ Hcur).
      destruct (Serializers.PostCreateSerializer _);
        [by eapply step_post_created|by eapply step_resolved].
    + unfold PostViewSet.create, respond, bind. rewrite Hfail. apply step_none.
  - destruct (_get_current_user_cases request db) as [(user & db0 & Hcur & Hres)|Hfail].
    + rewrite (create_comment_result _ _ _ _ _ Hcur).
      destruct (posts db0 !! data_post request) as [p|] eqn:Hp;
        [|destruct (match data_parent request with _ => _ end);
          by eapply step_resolved].
      destruct (data_parent request) as [pid|] eqn:Hpid; cbn.
      * destruct (comments db0 !! pid) as [c|] eqn:Hc; cbn; [|by eapply step_resolved].
        case_bool_decide as Hpost; [by eapply step_resolved|]. cbn.
        destruct (Serializers.CharField _ _); [|by eapply step_resolved].
        eapply step_comment_created; [done|by exists p|].
        intros ? [= <-]. by exists c.
      * destruct (Serializers.CharField _ _); [|by eapply step_resolved].
        eapply step_comment_created; [done|by exists p|done].
    + unfold CommentViewSet.create, respond, bind. rewrite Hfail. apply step_none.
  - rewrite post_comments_result.
    destruct (posts db !! pk) as [p|] eqn:Hp; [|apply step_none].
    destruct (_get_current_user_cases request db)
      as [(user & db0 & Hcur & Hres)|Hfail]; rewrite ?Hcur, ?Hfail; [|apply step_none].
    assert (is_Some (posts db0 !! pk)) as Hp0.
    { destruct (resolved_frame _ _ _ _ Hres) as [Hp0 _]. exists p. by rewrite Hp0. }
    cbv zeta. case_bool_decide; [by eapply step_resolved|].
    destruct (data_parent request) as [parent_id|];
      [|by eapply step_comment_created].
    case_bool_decide; [by eapply step_comment_created|].
    destruct (comments db0 !! parent_id) as [parent|] eqn:Hc; [|by eapply step_resolved].
    case_bool_decide; [|by eapply step_resolved].
    eapply step_comment_created; [done..|]. intros ? [= <-]. by exists parent.
Qed.

(** ** Invariants of the store, request after request *)

Lemma run_responses (P : Db → Prop) (Q : Response → Prop) :
  (∀ op db, P db → P (run_op op db).2 ∧ Q (run_op op db).1) →
  ∀ ops db, P db → P (run ops db).2 ∧ Forall Q (run ops db).1.
Proof.
  intros Hstep ops. induction ops as [|op ops IH]; intros db HP; [by split|].
  rewrite run_cons. cbn [fst snd]. destruct (Hstep op db HP) as [HP1 HQ1].
  destruct (IH _ HP1) as [HP2 HQ2]. split; [done|by constructor].
Qed.

(** *** User names *)

Lemma elem_of_users_with_username name m pk u :
  (pk, u) ∈ users_with_username name m ↔ m !! pk = Some u ∧ username u = name.
Proof.
  unfold users_with_username.
  rewrite list_elem_of_filter, elem_of_map_to_list. cbn. tauto.
Qed.

Lemma users_with_username_NoDup name m : NoDup (users_with_username name m).*1.
Proof.
  unfold users_with_username.
  apply (sublist_NoDup _ (map_to_list m).*1); [apply NoDup_fst_map_to_list|].
  apply fmap_sublist, sublist_filter.
Qed.

Lemma usernames_unique_resolves request db :
  usernames_unique db →
  ∃ user db0, _get_current_user request db = (inr (Some user), db0)
              ∧ resolved request db user db0.
Proof.
  intros Huniq.
  destruct (_get_current_user_cases request db) as [?|Hfail]; [done|].
  exfalso. revert Hfail.
  unfold _get_current_user, users_get_or_create, bind, ret.
  destruct (request_user request); [done|].
  pose proof (users_with_username_NoDup "demo_user" (users db)) as Hnd.
  destruct (users_with_username "demo_user" (users db))
    as [|[pk1 u1] [|[pk2 u2] rest]] eqn:Hf; [done..|]. intros _.
  assert ((pk1, u1) ∈ users_with_username "demo_user" (users db)) as H1
    by (rewrite Hf; apply list_elem_of_here).
  assert ((pk2, u2) ∈ users_with_username "demo_user" (users db)) as H2
    by (rewrite Hf; apply list_elem_of_further, list_elem_of_here).
  apply elem_of_users_with_username in H1 as [H1 Hn1].
  apply elem_of_users_with_username in H2 as [H2 Hn2].
  assert (pk1 = pk2) as -> by (apply (Huniq _ _ _ _ H1 H2); congruence).
  cbn in Hnd. apply NoDup_cons in Hnd as [Hnot _].
  apply Hnot, list_elem_of_here.
Qed.

Lemma usernames_unique_update db db' pk u u' :
  users db !! pk = Some u → username u' = username u →
  users db' = <[pk := u']> (users db) →
  usernames_unique db → usernames_unique db'.
Proof.
  intros Hpk Hname Hdb' Huniq pk1 pk2 u1 u2. rewrite Hdb'.
  destruct (decide (pk1 = pk)) as [->|Hne1], (decide (pk2 = pk)) as [->|Hne2];
    rewrite ?lookup_insert_eq, ?lookup_insert_ne by done; [done|..].
  - intros [= <-] H2 Hn. apply (Huniq _ _ _ _ Hpk H2). congruence.
  - intros H1 [= <-] Hn. apply (Huniq _ _ _ _ H1 Hpk). congruence.
  - apply Huniq.
Qed.

Lemma resolved_usernames_unique request db user db0 :
  resolved request db user db0 → usernames_unique db → usernames_unique db0.
Proof.
  intros [_ -> | u _ _ -> | _ Hnone -> ->] Huniq; [done..|].
  assert (∀ pk u, users db !! pk = Some u → username u ≠ "demo_user") as Hno.
  { intros pk u Hpk Hn.
    assert ((pk, u) ∈ users_with_username "demo_user" (users db)) as Hin
      by by apply elem_of_users_with_username.
    rewrite Hnone in Hin. by apply elem_of_nil in Hin. }
  intros pk1 pk2 u1 u2. cbn.
  destruct (decide (pk1 = next_pk (users db))) as [->|Hne1],
           (decide (pk2 = next_pk (users db))) as [->|Hne2];
    rewrite ?lookup_insert_eq, ?lookup_insert_ne by done; [done|..].
  - intros [= <-] H2 Hn. by destruct (Hno _ _ H2).
  - intros H1 [= <-] Hn. by destruct (Hno _ _ H1).
  - apply Huniq.
Qed.

Lemma request_step_usernames_unique db db' :
  request_step db db' → usernames_unique db → usernames_unique db'.
Proof.
  intros [|request user db0 Hres
          |request user db0 ty now pk n author a Hres _ _ _ Ha _ _
          |request user db0 ty pk n i Hres _ _ _
          |request user db0 content now Hres
          |request user db0 post parent content now Hres _ _] Huniq; [done|..];
    apply (resolved_usernames_unique _ _ _ _ Hres) in Huniq; [done| |by destruct ty|done..].
  eapply (usernames_unique_update db0 _ author a); [done| |by destruct ty|done]. done.
Qed.

Lemma usernames_unique_response op db :
  usernames_unique db → (run_op op db).1 ≠ ServerError User_MultipleObjectsReturned.
Proof.
  intros Huniq.
  destruct op as [ty now request pk|ty request pk|now request|now request|now request pk];
    unfold run_op;
    destruct (usernames_unique_resolves request db Huniq) as (user & db0 & Hcur & _).
  - rewrite (like_target_result _ _ _ _ _ _ _ Hcur). unfold like_result.
    repeat case_match; done.
  - rewrite (unlike_target_result _ _ _ _ _ _ Hcur). unfold unlike_result.
    repeat case_match; done.
  - rewrite (create_post_result _ _ _ _ _ Hcur). by case_match.
  - rewrite (create_comment_result _ _ _ _ _ Hcur). repeat case_match; done.
  - rewrite post_comments_result, Hcur. cbv zeta. repeat case_match; done.
Qed.

(** X8: user names stay unique.  If no two users of the store share a
    [username], no request makes two share one, and no request fails on
    finding the demo user twice. *)
Theorem usernames_stay_unique ops db :
  usernames_unique db →
  usernames_unique (run ops db).2
  ∧ Forall (λ r, r ≠ ServerError User_MultipleObjectsReturned) (run ops db).1.
Proof.
  revert db. apply run_responses. intros op db Huniq. split.
  - exact (request_step_usernames_unique _ _ (run_op_step op db) Huniq).
  - by apply usernames_unique_response.
Qed.

Lemma usernames_stay_unique_witness :
  let request := mkRequest None "" 0 None in
  let db := mkDb {[ 1 := mkUser "alice" "" 0 ]} {[ 10 := mkPost 1 "hi" 0 0 ]} ∅ [] [] in
  Forall (λ r, r ≠ ServerError User_MultipleObjectsReturned)
    (run [OpLike TARGET_POST 1 request 10; OpCreatePost 2 request;
          OpUnlike TARGET_POST request 10] db).1.
Proof.
  cbv zeta. apply usernames_stay_unique.
  intros pk1 pk2 u1 u2 H1 H2 _. cbn [users] in H1, H2.
  apply lookup_singleton_Some in H1 as [<- _].
  by apply lookup_singleton_Some in H2 as [<- _].
Defined.

(** *** Comments and their parents *)

Lemma set_likes_count_shape ty pk n db :
  (∀ k, (λ c, (comment_post_id c, comment_parent_id c))
          <$> comments (set_likes_count ty pk n db) !! k
        = (λ c, (comment_post_id c, comment_parent_id c)) <$> comments db !! k)
  ∧ (∀ k, is_Some (posts db !! k) → is_Some (posts (set_likes_count ty pk n db) !! k)).
Proof.
  destruct ty; cbn.
  - split; [done|]. intros k Hk. destruct (posts db !! pk) as [p|] eqn:Hp; [|done].
    destruct (decide (k = pk)) as [->|Hne];
      by rewrite ?lookup_insert_eq, ?lookup_insert_ne.
  - split; [|done]. intros k. destruct (comments db !! pk) as [c|] eqn:Hc; [|done].
    destruct (decide (k = pk)) as [->|Hne];
      rewrite ?lookup_insert_eq, ?lookup_insert_ne by done; [|done].
    by rewrite Hc.
Qed.

Lemma comments_ok_ext db db' :
  (∀ k, (λ c, (comment_post_id c, comment_parent_id c)) <$> comments db' !! k
        = (λ c, (comment_post_id c, comment_parent_id c)) <$> comments db !! k) →
  (∀ k, is_Some (posts db !! k) → is_Some (posts db' !! k)) →
  comments_ok db → comments_ok db'.
Proof.
  intros Hshape Hposts Hok pk c Hpk.
  pose proof (Hshape pk) as Hs. rewrite Hpk in Hs.
  destruct (comments db !! pk) as [c0|] eqn:Hpk0; [|done].
  injection Hs as Hpost Hparent. destruct (Hok pk c0 Hpk0) as [Hp Hpar].
  rewrite Hpost. split; [by apply Hposts|].
  intros pid Hpid. rewrite Hparent in Hpid.
  destruct (Hpar pid Hpid) as (Hlt & p0 & Hp0 & Hpp). split; [done|].
  pose proof (Hshape pid) as Hs. rewrite Hp0 in Hs.
  destruct (comments db' !! pid) as [p|]; [|done].
  injection Hs as Hpost' _. exists p. split; [done|]. congruence.
Qed.

Lemma request_step_comments_ok db db' :
  request_step db db' → comments_ok db → comments_ok db'.
Proof.
  intros [|request user db0 Hres
          |request user db0 ty now pk n author a Hres _ _ _ _ _ _
          |request user db0 ty pk n i Hres _ _ _
          |request user db0 content now Hres
          |request user db0 post parent content now Hres Hpost Hparent] Hok; [done|..];
    (assert (comments_ok db0) as Hok0;
     [destruct (resolved_frame _ _ _ _ Hres) as (Hp & Hc & _);
      apply (comments_ok_ext db); [by rewrite Hc|by rewrite Hp|done]|]);
    [done|..].
  - destruct (set_likes_count_shape ty pk (n + 1)
                (set_likes (λ rows, rows ++ [mkLike user ty pk now]) db0)) as [Hs Hp].
    apply (comments_ok_ext db0); [| |done]; by destruct ty.
  - destruct (set_likes_count_shape ty pk (n + -1)
                (set_likes (λ rows, take i rows ++ drop (S i) rows) db0)) as [Hs Hp].
    by apply (comments_ok_ext db0).
  - apply (comments_ok_ext db0); [done| |done]. intros k Hk. cbn.
    destruct (decide (k = next_pk (posts db0))) as [->|Hne];
      by rewrite ?lookup_insert_eq, ?lookup_insert_ne.
  - intros pk c. cbn.
    destruct (decide (pk = next_pk (comments db0))) as [->|Hne];
      rewrite ?lookup_insert_eq, ?lookup_insert_ne by done.
    + intros [= <-]. cbn. split; [done|]. intros pid Hpid.
      destruct (Hparent pid Hpid) as (p & Hp & Hpp).
      split; [apply next_pk_above; by exists p|].
      exists p. split; [|done]. rewrite lookup_insert_ne; [done|].
      intros <-. by rewrite next_pk_fresh in Hp.
    + intros Hpk. destruct (Hok0 pk c Hpk) as [Hp Hpar]. split; [done|].
      intros pid Hpid. destruct (Hpar pid Hpid) as (Hlt & p & Hp' & Hpp).
      split; [done|]. exists p. split; [|done]. rewrite lookup_insert_ne; [done|].
      intros <-. by rewrite next_pk_fresh in Hp'.
Qed.

(** X9: comments stay attached.  If every comment of the store is on a
    post of the store and every parent is an older comment on the same post,
    this is still so after any sequence of like, unlike and create requests:
    neither action that creates comments lets a reply cross posts or point
    at a missing comment, and none of these actions changes the post or the
    parent of a comment. *)
Theorem comments_stay_ok ops db : comments_ok db → comments_ok (run ops db).2.
Proof.
  revert db. apply run_invariant. intros op db.
  apply request_step_comments_ok, run_op_step.
Qed.

Lemma comments_stay_ok_witness :
  let db := mkDb {[ 1 := mkUser "alice" "" 0 ]} {[ 10 := mkPost 1 "hi" 0 0 ]} ∅ [] [] in
  comments_ok
    (run [OpCreateComment 1 (mkRequest (Some 1) "first" 10 None);
          OpCreateComment 2 (mkRequest (Some 1) "reply" 10 (Some 1));
          OpCreateComment 3 (mkRequest (Some 1) "stray" 11 (Some 1));
          OpPostComments 4 (mkRequest (Some 1) "again" 0 (Some 2)) 10] db).2.
Proof. cbv zeta. apply comments_stay_ok. intros pk c Hpk. done. Defined.

(** *** Counters and rows *)

Lemma like_rows_none ty pk db :
  likes_have_targets db → likes_count ty pk db = None → like_rows ty pk db = [].
Proof.
  intros Htargets Hnone. apply filter_none. intros l Hl [<- <-].
  destruct (Htargets l Hl) as [n Hn]. congruence.
Qed.

Lemma find_like_like_rows user ty pk i db :
  find_like user ty pk (likes db) = Some i →
  0 < Z.of_nat (length (like_rows ty pk db)).
Proof.
  intros (l & Hl & Hm)%find_like_Some.
  apply like_matches_spec in Hm as (_ & Hty & Hpk).
  assert (l ∈ like_rows ty pk db) as Hin.
  { apply list_elem_of_filter. split; [done|]. by eapply list_elem_of_lookup_2. }
  destruct (like_rows ty pk db); [by apply elem_of_nil in Hin|cbn; lia].
Qed.

Lemma request_step_counters_cover db db' :
  request_step db db' → likes_have_targets db → counters_cover db → counters_cover db'.
Proof.
  intros [|request user db0 Hres
          |request user db0 ty now pk n author a Hres Hn _ _ _ _ _
          |request user db0 ty pk n i Hres Hn Hfind _
          |request user db0 content now Hres
          |request user db0 post parent content now Hres _ _] Htargets Hcover;
    [done|..];
    pose proof (resolved_frame _ _ _ _ Hres) as Hfr;
    (assert (counters_cover db0) as Hcover0;
     [intros ty' pk' n';
      rewrite (user_added_likes_count _ _ _ _ Hfr), (user_added_like_rows _ _ _ _ Hfr);
      apply Hcover|]);
    (assert (likes_have_targets db0) as Htargets0;
     [intros l; rewrite (proj1 (proj2 (proj2 Hfr)));
      intros Hl; rewrite (user_added_likes_count _ _ _ _ Hfr); by apply Htargets|]);
    [done|..]; intros ty' pk' n'.
  - rewrite likes_count_liked_db, like_rows_liked_db.
    destruct (bool_decide (ty = ty') && bool_decide (pk = pk')) eqn:Hsame.
    + apply andb_prop in Hsame as [<-%bool_decide_eq_true <-%bool_decide_eq_true].
      rewrite Hn. intros [= <-]. specialize (Hcover0 _ _ _ Hn). lia.
    + intros Hn'. specialize (Hcover0 _ _ _ Hn'). lia.
  - rewrite likes_count_unliked, (like_rows_unliked _ _ _ _ _ _ _ _ Hfind).
    destruct (bool_decide (ty = ty') && bool_decide (pk = pk')) eqn:Hsame.
    + apply andb_prop in Hsame as [<-%bool_decide_eq_true <-%bool_decide_eq_true].
      rewrite Hn. intros [= <-]. specialize (Hcover0 _ _ _ Hn). lia.
    + intros Hn'. specialize (Hcover0 _ _ _ Hn'). lia.
  - rewrite (like_rows_frame ty' pk' db0) by done.
    destruct ty'; cbn; [|apply (Hcover0 TARGET_COMMENT)].
    destruct (decide (pk' = next_pk (posts db0))) as [->|Hne];
      rewrite ?lookup_insert_eq, ?lookup_insert_ne by done;
      [|apply (Hcover0 TARGET_POST)].
    intros [= <-].
    rewrite (like_rows_none TARGET_POST _ db0 Htargets0); [done|].
    cbn. by rewrite next_pk_fresh.
  - rewrite (like_rows_frame ty' pk' db0) by done.
    destruct ty'; cbn; [apply (Hcover0 TARGET_POST)|].
    destruct (decide (pk' = next_pk (comments db0))) as [->|Hne];
      rewrite ?lookup_insert_eq, ?lookup_insert_ne by done;
      [|apply (Hcover0 TARGET_COMMENT)].
    intros [= <-].
    rewrite (like_rows_none TARGET_COMMENT _ db0 Htargets0); [done|].
    cbn. by rewrite next_pk_fresh.
Qed.

Lemma counters_cover_response op db :
  counters_cover db → (run_op op db).1 ≠ ServerError IntegrityError.
Proof.
  intros Hcover.
  destruct op as [ty now request pk|ty request pk|now request|now request|now request pk];
    unfold run_op.
  - destruct (like_target_spec ty now request pk db)
      as [(user & db0 & Hcur & _ & _)| ->]; [|done].
    rewrite (like_target_result _ _ _ _ _ _ _ Hcur). unfold like_result.
    repeat case_match; done.
  - destruct (unlike_target_spec ty request pk db)
      as [(user & db0 & Hcur & Hres & _)| ->]; [|done].
    rewrite (unlike_target_result _ _ _ _ _ _ Hcur). unfold unlike_result.
    pose proof (resolved_frame _ _ _ _ Hres) as Hfr.
    destruct (likes_count ty pk db0) as [n|] eqn:Hn; [|done].
    destruct (find_like user ty pk (likes db0)) as [i|] eqn:Hfind; [|done].
    rewrite bool_decide_eq_true_2; [done|].
    pose proof (find_like_like_rows _ _ _ _ _ Hfind) as Hrows.
    rewrite (user_added_likes_count _ _ _ _ Hfr) in Hn.
    rewrite (user_added_like_rows _ _ _ _ Hfr) in Hrows.
    specialize (Hcover _ _ _ Hn). lia.
  - destruct (_get_current_user_cases request db) as [(user & db0 & Hcur & _)|Hfail].
    + rewrite (create_post_result _ _ _ _ _ Hcur). by case_match.
    + unfold PostViewSet.create, respond, bind. by rewrite Hfail.
  - destruct (_get_current_user_cases request db) as [(user & db0 & Hcur & _)|Hfail].
    + rewrite (create_comment_result _ _ _ _ _ Hcur). repeat case_match; done.
    + unfold CommentViewSet.create, respond, bind. by rewrite Hfail.
  - rewrite post_comments_result.
    destruct (_get_current_user_cases request db) as [(user & db0 & Hcur & _)|Hfail];
      rewrite ?Hcur, ?Hfail; cbv zeta; repeat case_match; done.
Qed.

(** X10: counters cover rows.  In a store whose [Like] rows point at
    targets, if every [likes_count] is at least the number of [Like] rows of
    its target, then it stays so over any sequence of mutating requests (a
    new post or comment starts at 0 with no row), and no request fails on
    the check that keeps a counter from going below zero. *)
Theorem counters_cover_rows ops db :
  likes_have_targets db → counters_cover db →
  counters_cover (run ops db).2
  ∧ Forall (λ r, r ≠ ServerError IntegrityError) (run ops db).1.
Proof.
  intros Htargets Hcover.
  destruct (run_responses (λ db, likes_have_targets db ∧ counters_cover db)
              (λ r, r ≠ ServerError IntegrityError)) with (ops := ops) (db := db)
    as [[_ Hc] Hr]; [|done..].
  clear. intros op db [Htargets Hcover]. split_and!.
  - by apply run_op_likes_have_targets.
  - exact (request_step_counters_cover _ _ (run_op_step op db) Htargets Hcover).
  - by apply counters_cover_response.
Qed.

Lemma counters_cover_rows_witness :
  let request := mkRequest (Some 2) "" 0 None in
  let db := mkDb {[ 1 := mkUser "alice" "" 0; 2 := mkUser "bob" "" 0 ]}
                 {[ 10 := mkPost 1 "hi" 3 0 ]} ∅ [mkLike 2 TARGET_POST 10 0] [] in
  Forall (λ r, r ≠ ServerError IntegrityError)
    (run [OpUnlike TARGET_POST request 10; OpUnlike TARGET_POST request 10;
          OpCreatePost 1 request; OpLike TARGET_POST 2 request 11] db).1.
Proof.
  cbv zeta. apply counters_cover_rows.
  - intros l ->%list_elem_of_singleton. by eexists.
  - intros [] pk n Hn; [|done]. cbn in Hn.
    destruct (decide (pk = 10)) as [->|Hne].
    + injection Hn as <-. vm_compute. discriminate.
    + by rewrite lookup_singleton_ne in Hn.
Defined.

(** *** Recipients of karma *)

Lemma request_step_recipients_exist db db' :
  request_step db db' → recipients_exist db → recipients_exist db'.
Proof.
  intros [|request user db0 Hres
          |request user db0 ty now pk n author a Hres _ _ _ Ha _ _
          |request user db0 ty pk n i Hres _ _ _
          |request user db0 content now Hres
          |request user db0 post parent content now Hres _ _] Hex; [done|..];
    (assert (recipients_exist db0) as Hex0;
     [destruct (resolved_frame _ _ _ _ Hres) as (_ & _ & _ & Hk & Hu);
      intros t; rewrite Hk; intros Ht; destruct (Hex t Ht) as [u Hu'];
      exists u; by apply (lookup_weaken _ _ _ _ Hu')|]);
    [done| |by destruct ty|done..].
  destruct (liked_db_fields ty now user pk n author a db0) as (Hu & _ & Hk).
  intros t. rewrite Hk, Hu. intros [Ht| ->%list_elem_of_singleton]%elem_of_app.
  - destruct (Hex0 t Ht) as [u Hu'].
    destruct (decide (kt_user_id t = author)) as [->|Hne];
      by rewrite ?lookup_insert_eq, ?lookup_insert_ne.
  - cbn. by rewrite lookup_insert_eq.
Qed.

(** X11: karma goes to users.  If the recipient of every ledger row is a
    user of the store, this is still so after any sequence of mutating
    requests: a like writes its ledger row only after it has read the
    author's row. *)
Theorem recipients_stay_users ops db :
  recipients_exist db → recipients_exist (run ops db).2.
Proof.
  revert db. apply run_invariant. intros op db.
  apply request_step_recipients_exist, run_op_step.
Qed.

Lemma recipients_stay_users_witness :
  let request := mkRequest (Some 2) "" 0 None in
  let db := mkDb {[ 2 := mkUser "bob" "" 0 ]}
                 {[ 10 := mkPost 1 "orphaned" 0 0; 11 := mkPost 2 "mine" 0 0 ]}
                 ∅ [] [] in
  recipients_exist
    (run [OpLike TARGET_POST 1 request 10; OpLike TARGET_POST 2 request 11] db).2.
Proof.
  cbv zeta. apply recipients_stay_users. intros t Ht. by apply elem_of_nil in Ht.
Defined.

(** ** Creating posts: [validate_content] and [PostViewSet.create] *)

Lemma rev_app_chars s t :
  String.list_ascii_of_string (String.rev_app s t)
  = List.rev (String.list_ascii_of_string s) ++ String.list_ascii_of_string t.
Proof.
  revert t. induction s as [|a s IH]; intros t; cbn; [done|].
  by rewrite IH, <- app_assoc.
Qed.

Lemma rev_chars s :
  String.list_ascii_of_string (String.rev s) = List.rev (String.list_ascii_of_string s).
Proof. unfold String.rev. by rewrite rev_app_chars, app_nil_r. Qed.

Lemma chars_inj s t :
  String.list_ascii_of_string s = String.list_ascii_of_string t → s = t.
Proof.
  intros H. rewrite <- (String.string_of_list_ascii_of_string s),
    <- (String.string_of_list_ascii_of_string t). by rewrite H.
Qed.

Lemma chars_length s : length (String.list_ascii_of_string s) = String.length s.
Proof. induction s as [|a s IH]; cbn; [done|by rewrite IH]. Qed.

Lemma rev_involutive s : String.rev (String.rev s) = s.
Proof. apply chars_inj. by rewrite !rev_chars, List.rev_involutive. Qed.

Lemma rev_length s : String.length (String.rev s) = String.length s.
Proof. by rewrite <- !chars_length, rev_chars, length_rev. Qed.

Lemma app_chars s t :
  String.list_ascii_of_string (s +:+ t)
  = String.list_ascii_of_string s ++ String.list_ascii_of_string t.
Proof.
  induction s as [|a s IH]; [done|].
  change (String a s +:+ t) with (String a (s +:+ t)). cbn. by rewrite IH.
Qed.

Lemma app_cons a s t : String a s +:+ t = String a (s +:+ t).
Proof. reflexivity. Qed.

Lemma app_nil s : EmptyString +:+ s = s.
Proof. reflexivity. Qed.

Lemma rev_cons a s : String.rev (String a s) = String.rev s +:+ String a "".
Proof. apply chars_inj. rewrite rev_chars. cbn. by rewrite app_chars, rev_chars. Qed.

Lemma rev_snoc s a : String.rev (s +:+ String a "") = String a (String.rev s).
Proof. by rewrite <- (rev_involutive s) at 1; rewrite <- rev_cons, rev_involutive. Qed.

Lemma lstrip_length s :
  (String.length (Serializers.lstrip s) ≤ String.length s)%nat.
Proof. induction s as [|a s IH]; cbn; [done|]. destruct (Serializers.isspace a); cbn; lia. Qed.

Lemma lstrip_head s a t :
  Serializers.lstrip s = String a t → Serializers.isspace a = false.
Proof.
  induction s as [|b s IH]; cbn; [done|].
  destruct (Serializers.isspace b) eqn:Hb; [done|]. by intros [= <- _].
Qed.

Lemma lstrip_fixed s :
  match s with String a _ => Serializers.isspace a = false | EmptyString => True end →
  Serializers.lstrip s = s.
Proof. destruct s as [|a s]; cbn; [done|]. by intros ->. Qed.

Lemma lstrip_idemp s : Serializers.lstrip (Serializers.lstrip s) = Serializers.lstrip s.
Proof.
  apply lstrip_fixed. destruct (Serializers.lstrip s) eqn:H; [done|].
  by eapply lstrip_head.
Qed.

Lemma lstrip_snoc s a :
  Serializers.isspace a = false →
  Serializers.lstrip (s +:+ String a "") = Serializers.lstrip s +:+ String a "".
Proof.
  intros Ha. induction s as [|b s IH]; [rewrite app_nil; cbn; by rewrite Ha|].
  rewrite app_cons. cbn. destruct (Serializers.isspace b); [done|].
  by rewrite app_cons.
Qed.

(** The text [strip] returns starts with what [lstrip] leaves. *)
Lemma strip_cons s a t :
  Serializers.lstrip s = String a t →
  Serializers.strip s = String a (String.rev (Serializers.lstrip (String.rev t))).
Proof.
  intros Hs. unfold Serializers.strip. rewrite Hs, rev_cons.
  rewrite lstrip_snoc by by eapply lstrip_head. apply rev_snoc.
Qed.

Lemma strip_nil s : Serializers.lstrip s = EmptyString → Serializers.strip s = EmptyString.
Proof. intros Hs. unfold Serializers.strip. by rewrite Hs. Qed.

Lemma lstrip_strip s : Serializers.lstrip (Serializers.strip s) = Serializers.strip s.
Proof.
  destruct (Serializers.lstrip s) as [|a t] eqn:Hs.
  - by rewrite (strip_nil _ Hs).
  - rewrite (strip_cons _ _ _ Hs). apply lstrip_fixed. by eapply lstrip_head.
Qed.

Lemma strip_idemp s : Serializers.strip (Serializers.strip s) = Serializers.strip s.
Proof.
  unfold Serializers.strip at 1. rewrite lstrip_strip.
  unfold Serializers.strip. by rewrite rev_involutive, lstrip_idemp.
Qed.

Lemma strip_length s :
  (String.length (Serializers.strip s) ≤ String.length s)%nat.
Proof.
  unfold Serializers.strip. rewrite rev_length.
  etrans; [apply lstrip_length|]. rewrite rev_length. apply lstrip_length.
Qed.

Lemma strip_ends s :
  (∀ a t, Serializers.strip s = String a t → Serializers.isspace a = false)
  ∧ (∀ a t, String.rev (Serializers.strip s) = String a t → Serializers.isspace a = false).
Proof.
  split; intros a t.
  - rewrite <- lstrip_strip. apply lstrip_head.
  - unfold Serializers.strip. rewrite rev_involutive. apply lstrip_head.
Qed.

Lemma validate_content_Some value content :
  Serializers.validate_content value = Some content →
  content = Serializers.strip value
  ∧ (1 ≤ String.length (Serializers.strip value))%nat
  ∧ (String.length value ≤ 2000)%nat.
Proof.
  unfold Serializers.validate_content.
  destruct (String.length (Serializers.strip value) <? 1)%nat eqn:Hlen; [done|].
  destruct (2000 <? String.length value)%nat eqn:Hmax; [done|].
  intros [= <-]. apply Nat.ltb_ge in Hlen, Hmax. done.
Qed.

Lemma CharField_Some max_length data value :
  Serializers.CharField max_length data = Some value ↔
  value = Serializers.strip data
  ∧ Serializers.strip data ≠ EmptyString
  ∧ (String.length (Serializers.strip data) ≤ max_length)%nat
  ∧ Serializers.has_nul (Serializers.strip data) = false.
Proof.
  unfold Serializers.CharField. case_bool_decide as Hblank.
  { split; [done|]. by intros (_ & ? & _). }
  cbv zeta.
  destruct (max_length <? String.length (Serializers.strip data))%nat eqn:Hmax.
  { apply Nat.ltb_lt in Hmax. split; [done|]. intros (_ & _ & ? & _). lia. }
  apply Nat.ltb_ge in Hmax.
  destruct (Serializers.has_nul (Serializers.strip data)).
  - split; [done|]. by intros (_ & _ & _ & ?).
  - split; [by intros [= <-]|by intros (-> & _)].
Qed.

(** After the field, the hook [validate_content] changes nothing. *)
Lemma PostCreateSerializer_Some data content :
  Serializers.PostCreateSerializer data = Some content ↔
  content = Serializers.strip data
  ∧ Serializers.strip data ≠ EmptyString
  ∧ (String.length (Serializers.strip data) ≤ 2000)%nat
  ∧ Serializers.has_nul (Serializers.strip data) = false.
Proof.
  unfold Serializers.PostCreateSerializer.
  destruct (Serializers.CharField 2000 data) as [value|] eqn:Hfield.
  - apply CharField_Some in Hfield as (-> & Hblank & Hmax & Hnul).
    assert (Serializers.validate_content (Serializers.strip data)
            = Some (Serializers.strip data)) as ->.
    { unfold Serializers.validate_content. rewrite strip_idemp.
      destruct (Serializers.strip data) as [|a t] eqn:Hs; [done|].
      change (String.length (String a t) <? 1)%nat with false.
      by rewrite (proj2 (Nat.ltb_ge _ _)) by done. }
    split; [by intros [= <-]|by intros (-> & _)].
  - split; [done|]. intros (-> & Hrest).
    by rewrite (proj2 (CharField_Some 2000 data _) (conj eq_refl Hrest)) in Hfield.
Qed.

(** X12: what [validate_content] lets through.  An accepted value is at most
    2000 characters long before stripping; the cleaned value is the stripped
    one, it is not empty, not longer than the value, neither starts nor ends
    with white space, and is accepted unchanged when validated again. *)
Theorem validate_content_clean value content :
  Serializers.validate_content value = Some content →
  content = Serializers.strip value
  ∧ content ≠ EmptyString
  ∧ (String.length value ≤ 2000)%nat
  ∧ (String.length content ≤ String.length value)%nat
  ∧ (∀ a t, content = String a t → Serializers.isspace a = false)
  ∧ (∀ a t, String.rev content = String a t → Serializers.isspace a = false)
  ∧ Serializers.validate_content content = Some content.
Proof.
  intros (-> & Hlen & Hmax)%validate_content_Some.
  pose proof (strip_length value) as Hle.
  destruct (strip_ends value) as [Hhead Hlast].
  split_and!; [done| |done..|].
  - intros Hnil. rewrite Hnil in Hlen. cbn in Hlen. lia.
  - unfold Serializers.validate_content. rewrite strip_idemp.
    rewrite (proj2 (Nat.ltb_ge _ _)) by done.
    by rewrite (proj2 (Nat.ltb_ge _ _)) by lia.
Qed.

Lemma validate_content_clean_witness :
  Serializers.validate_content "  hello world  " = Some "hello world"
  ∧ Serializers.validate_content "hello world" = Some "hello world".
Proof.
  split; [vm_compute; reflexivity|].
  apply (validate_content_clean "  hello world  " "hello world").
  vm_compute. reflexivity.
Defined.

(** X13: a post that is created.  [PostViewSet.create] answers
    [Created pk] only for a key no post had; the store gains exactly that
    post, written by the resolved user with the trimmed content, no likes
    and the time of the request, and nothing else is touched but the demo
    user's row.  It does so exactly when the user resolves and the content,
    once trimmed, is not empty, has at most 2000 characters and holds no NUL
    character: then the key is the next one of the table, and otherwise
    nothing is created. *)
Theorem create_post_effect now request db :
  let r := (PostViewSet.create now request db).1 in
  let db' := (PostViewSet.create now request db).2 in
  let content := Serializers.strip (data_content request) in
  (∀ pk, r = Created pk →
     ∃ user db0,
       _get_current_user request db = (inr (Some user), db0)
       ∧ posts db !! pk = None
       ∧ db' = set_posts (insert pk (mkPost user content 0 now)) db0
       ∧ likes_count TARGET_POST pk db' = Some 0
       ∧ content ≠ EmptyString
       ∧ (String.length content ≤ 2000)%nat
       ∧ Serializers.has_nul content = false)
  ∧ (∀ user db0,
       _get_current_user request db = (inr (Some user), db0) →
       content ≠ EmptyString →
       (String.length content ≤ 2000)%nat →
       Serializers.has_nul content = false →
       r = Created (next_pk (posts db)))
  ∧ ((content = EmptyString
      ∨ (2000 < String.length content)%nat
      ∨ Serializers.has_nul content = true) →
     (∀ pk, r ≠ Created pk) ∧ user_added db db')
  ∧ ((∀ pk, r ≠ Created pk) → posts db' = posts db).
Proof.
  cbv zeta.
  destruct (_get_current_user_cases request db) as [(user & db0 & Hcur & Hres)|Hfail].
  - rewrite (create_post_result _ _ _ _ _ Hcur).
    pose proof (resolved_frame _ _ _ _ Hres) as Hfr.
    destruct (Serializers.PostCreateSerializer (data_content request))
      as [content|] eqn:Hv; cbn [fst snd].
    + apply PostCreateSerializer_Some in Hv as (-> & Hblank & Hmax & Hnul).
      split_and!.
      * intros pk [= <-]. exists user, db0. split_and!; try done.
        -- rewrite <- (proj1 Hfr). apply next_pk_fresh.
        -- cbn. by rewrite lookup_insert_eq.
      * intros ? ? _ _ _ _. by rewrite (proj1 Hfr).
      * intros [?|[?|Hn]]; [done|lia|]. by rewrite Hnul in Hn.
      * intros Hnot. by destruct (Hnot (next_pk (posts db0))).
    + split_and!; [done| |by intros _|intros _; apply Hfr].
      intros ? ? _ Hblank Hmax Hnul.
      by rewrite (proj2 (PostCreateSerializer_Some _ _)
                    (conj eq_refl (conj Hblank (conj Hmax Hnul)))) in Hv.
  - assert (PostViewSet.create now request db
            = (ServerError User_MultipleObjectsReturned, db)) as ->
      by (unfold PostViewSet.create, respond, bind; by rewrite Hfail).
    split_and!; [done| | |done].
    + intros ? ? Hcur. by rewrite Hfail in Hcur.
    + intros _. split; [done|apply user_added_refl].
Qed.

(** A content of one letter followed by 2000 blanks is trimmed and stored;
    one of 2001 letters is refused. *)
Lemma create_post_effect_witness :
  let blanks := String.string_of_list_ascii (repeat " "%char 2000) in
  let request := mkRequest (Some 1) ("a" +:+ blanks) 0 None in
  let db := mkDb {[ 1 := mkUser "alice" "" 0 ]} ∅ ∅ [] [] in
  (PostViewSet.create 7 request db).1 = Created (next_pk (posts db))
  ∧ posts (PostViewSet.create 7 request db).2 !! 1 = Some (mkPost 1 "a" 0 7).
Proof.
  intros blanks request db.
  pose proof (create_post_effect 7 request db) as (_ & Hcreated & _).
  split; [|vm_compute; reflexivity].
  apply (Hcreated 1 db); [reflexivity|vm_compute; discriminate| |vm_compute; reflexivity].
  apply Nat.leb_le. vm_compute. reflexivity.
Defined.

(** X14: the comment endpoint of a post never reports success.  The POST
    branch of [PostViewSet.comments] ends with an update of
    [Post.comments_count], a field [Post] does not have: the view never
    answers [Created].  When the request is valid the comment row has been
    inserted by then, outside of any transaction, and the answer is the
    uncaught [FieldDoesNotExist]; in every other case the comments are
    untouched. *)
Theorem post_comments_never_created now request pk db :
  let r := (PostViewSet.comments now request pk db).1 in
  let db' := (PostViewSet.comments now request pk db).2 in
  (∀ c, r ≠ Created c)
  ∧ (r = ServerError FieldDoesNotExist →
     ∃ user parent,
       comments db'
       = <[next_pk (comments db) :=
             mkComment pk parent user (Serializers.strip (data_content request)) 0 now]>
           (comments db)
       ∧ is_Some (posts db !! pk)
       ∧ Serializers.strip (data_content request) ≠ EmptyString)
  ∧ (r ≠ ServerError FieldDoesNotExist → comments db' = comments db)
  ∧ (is_Some (posts db !! pk) →
     Serializers.strip (data_content request) ≠ EmptyString →
     data_parent request = None →
     r = ServerError FieldDoesNotExist ∨ r = ServerError User_MultipleObjectsReturned).
Proof.
  cbv zeta. rewrite post_comments_result.
  destruct (posts db !! pk) as [p|] eqn:Hp;
    [|split_and!; [done..|by intros ?%is_Some_None]].
  destruct (_get_current_user_cases request db) as [(user & db0 & Hcur & Hres)|Hfail];
    rewrite ?Hcur, ?Hfail; [|split_and!; [done..|by right]].
  destruct (resolved_frame _ _ _ _ Hres) as (_ & Hc & _).
  cbv zeta. case_bool_decide as Hblank; [by split_and!|].
  assert (∀ parent,
    (∀ c, ServerError FieldDoesNotExist ≠ Created c)
    ∧ (ServerError FieldDoesNotExist = ServerError FieldDoesNotExist →
       ∃ user' parent',
         comments (set_comments
                     (insert (next_pk (comments db0))
                        (mkComment pk parent user
                           (Serializers.strip (data_content request)) 0 now)) db0)
         = <[next_pk (comments db) :=
               mkComment pk parent' user' (Serializers.strip (data_content request)) 0 now]>
             (comments db)
         ∧ is_Some (Some p)
         ∧ Serializers.strip (data_content request) ≠ EmptyString)
    ∧ (ServerError FieldDoesNotExist ≠ ServerError FieldDoesNotExist →
       comments (set_comments
                   (insert (next_pk (comments db0))
                      (mkComment pk parent user
                         (Serializers.strip (data_content request)) 0 now)) db0)
       = comments db)) as Hcreated.
  { intros parent. split_and!; [done| |done]. intros _. exists user, parent.
    cbn. by rewrite Hc. }
  destruct (data_parent request) as [parent_id|].
  - case_bool_decide.
    + destruct (Hcreated None) as (? & ? & ?). by split_and!.
    + destruct (comments db0 !! parent_id) as [parent|]; [|by split_and!].
      case_bool_decide; [|by split_and!].
      destruct (Hcreated (Some parent_id)) as (? & ? & ?). by split_and!.
  - destruct (Hcreated None) as (? & ? & ?). split_and!; [done..|by left].
Qed.

(** ** More on the leaderboard *)

Lemma recipients_exist_listed now db user :
  recipients_exist db → user ∈ (positive now db).*1 → is_Some (users db !! user).
Proof.
  intros Hfk ([u k] & -> & Hin)%list_elem_of_fmap.
  apply elem_of_positive in Hin as (Hin & _).
  apply list_elem_of_fmap in Hin as (t & -> & Hin).
  apply Hfk. unfold recent, created_at__gte in Hin.
  by apply list_elem_of_filter in Hin as [_ Hin].
Qed.

Lemma enumerate_rows (l : list (Z * Z)) start :
  (λ re : Z * (Z * Z), (re.2.1, re.2.2)) <$> enumerate l start = l.
Proof.
  revert start. induction l as [|[u k] l IH]; intros start; [done|].
  cbn [enumerate fmap list_fmap]. by rewrite IH.
Qed.

(** With every recipient a user, [get] lists the rows of the query one for
    one. *)
Lemma get_rows now db :
  recipients_exist db →
  (λ e, ((entry_user e).1, entry_karma_24h e)) <$> get now db = leaderboard_data now db.
Proof.
  intros Hfk.
  assert (entry_row <$> get now db
          = (λ re, (re.2.1, re.2.2, re.1)) <$> enumerate (leaderboard_data now db) 1)
    as Hrows.
  { rewrite get_unfold. apply rank_entries_all. intros user Hin.
    rewrite (fetched_users_lookup _ _ _ Hin).
    apply (recipients_exist_listed now); [done|].
    apply list_elem_of_fmap in Hin as (x & -> & Hin).
    apply list_elem_of_fmap. exists x. split; [done|].
    by apply leaderboard_data_subseteq. }
  transitivity (fst <$> (entry_row <$> get now db)).
  { rewrite <- list_fmap_compose. by apply list_fmap_ext. }
  rewrite Hrows, <- list_fmap_compose.
  rewrite <- (enumerate_rows (leaderboard_data now db) 1) at 2.
  by apply list_fmap_ext.
Qed.

(** X15: who is left out.  With every recipient a user of the store, no user
    is listed twice, and a recipient with positive karma in the window is
    missing from the leaderboard only when it is full, and then with no more
    karma than anyone listed; with at most five such recipients all are
    listed. *)
Theorem leaderboard_leaves_out_smaller now db :
  recipients_exist db →
  let out := get now db in
  NoDup ((λ e, (entry_user e).1) <$> out)
  ∧ (∀ user karma,
       (user, karma) ∈ positive now db →
       user ∉ (λ e, (entry_user e).1) <$> out →
       length out = 5%nat ∧ ∀ e, e ∈ out → karma ≤ entry_karma_24h e)
  ∧ ((length (positive now db) ≤ 5)%nat →
     ∀ user karma, (user, karma) ∈ positive now db →
       ∃ e, e ∈ out ∧ (entry_user e).1 = user ∧ entry_karma_24h e = karma).
Proof.
  intros Hfk. cbv zeta. pose proof (get_rows now db Hfk) as Hrows.
  assert ((λ e, (entry_user e).1) <$> get now db = (leaderboard_data now db).*1)
    as Husers.
  { rewrite <- Hrows, <- list_fmap_compose. by apply list_fmap_ext. }
  set (sorted := merge_sort karma_ge (positive now db)).
  assert (StronglySorted karma_ge (take 5 sorted ++ drop 5 sorted)) as Hsorted.
  { rewrite take_drop. apply StronglySorted_merge_sort; apply _. }
  assert (∀ x, x ∈ positive now db → x ∈ take 5 sorted ∨ x ∈ drop 5 sorted) as Hsplit.
  { intros x Hx. apply elem_of_app. rewrite take_drop. unfold sorted.
    by rewrite merge_sort_Permutation. }
  split_and!.
  - rewrite Husers. apply leaderboard_data_NoDup.
  - intros user karma Hin Hout. rewrite Husers in Hout.
    destruct (Hsplit _ Hin) as [Htake|Hdrop].
    { destruct Hout. apply list_elem_of_fmap. by exists (user, karma). }
    split.
    + rewrite <- (length_fmap (λ e, ((entry_user e).1, entry_karma_24h e))), Hrows.
      rewrite leaderboard_data_unfold. fold sorted. rewrite length_take.
      assert (5 < length sorted)%nat; [|lia].
      apply list_elem_of_lookup in Hdrop as [i Hi].
      apply lookup_lt_Some in Hi. rewrite length_drop in Hi. lia.
    + intros e He.
      assert (((entry_user e).1, entry_karma_24h e) ∈ take 5 sorted) as Hlisted.
      { change (take 5 sorted) with (leaderboard_data now db). rewrite <- Hrows.
        apply list_elem_of_fmap. by exists e. }
      apply (StronglySorted_app_1_elem_of _ _ _ _ _ Hsorted Hlisted Hdrop).
  - intros Hfew user karma Hin.
    assert ((user, karma) ∈ leaderboard_data now db) as Hlisted.
    { rewrite leaderboard_data_unfold. fold sorted. rewrite take_ge.
      - unfold sorted. by rewrite merge_sort_Permutation.
      - unfold sorted. by rewrite merge_sort_Permutation. }
    rewrite <- Hrows in Hlisted.
    apply list_elem_of_fmap in Hlisted as (e & [= -> ->] & He). by exists e.
Qed.

Lemma leaderboard_leaves_out_smaller_witness :
  length (get (hours 100) crowded_db) = 5%nat
  ∧ ∀ e, e ∈ get (hours 100) crowded_db → 2 ≤ entry_karma_24h e.
Proof.
  assert (recipients_exist crowded_db) as Hfk.
  { unfold recipients_exist.
    apply (Forall_forall (λ t, is_Some (users crowded_db !! kt_user_id t))).
    apply (bool_decide_unpack _). vm_compute. exact I. }
  destruct (leaderboard_leaves_out_smaller (hours 100) crowded_db Hfk) as (_ & Hout & _).
  apply (Hout 2 2).
  - apply (bool_decide_unpack _). vm_compute. exact I.
  - apply (bool_decide_unpack _). vm_compute. exact I.
Defined.

(** *** Likes and the leaderboard *)

Lemma window_sum_snoc now user rows t :
  window_sum now user (rows ++ [t])
  = window_sum now user rows
    + (if bool_decide (kt_user_id t = user ∧ now - 24 * 3600 * 1000000 ≤ kt_created_at t)
       then kt_amount t else 0).
Proof.
  unfold window_sum. rewrite filter_app, fmap_app, filter_cons, filter_nil.
  case_bool_decide as Hp.
  - rewrite decide_True by done.
    induction (kt_amount <$> filter _ rows) as [|x l IH]; cbn in *; lia.
  - rewrite decide_False by done. cbn. rewrite app_nil_r. lia.
Qed.

(** X16: a like counts for a day.  The ledger row of a like that went
    through adds its amount to the author's karma of the last 24 hours at
    every time within 24 hours of the like, and to nobody else's and at no
    later time; if the author's karma in the window was not negative, the
    author is then among the recipients the leaderboard ranks. *)
Theorem like_counts_for_a_day ty now request pk db n k db' :
  like_target ty now request pk db = (LikeOk n k, db') →
  ∃ author,
    target_author ty pk db = Some author
    ∧ (∀ now' user,
         window_sum now' user (karma_transactions db')
         = window_sum now' user (karma_transactions db)
           + (if bool_decide (user = author ∧ now' - 24 * 3600 * 1000000 ≤ now)
              then k else 0))
    ∧ (∀ now',
         now' - 24 * 3600 * 1000000 ≤ now →
         0 ≤ window_sum now' author (karma_transactions db) →
         (author, window_sum now' author (karma_transactions db) + k)
         ∈ positive now' db').
Proof.
  intros Hlike.
  destruct (like_target_spec ty now request pk db)
    as [(user & db0 & Hcur & Hres & Hspec)|Hmany]; [|by rewrite Hmany in Hlike].
  rewrite Hlike in Hspec.
  inversion Hspec as [n0 author a Hn Hauthor Hnone Ha Hn0 Hk|r Hr]; [|done]. subst.
  destruct (resolved_frame _ _ _ _ Hres) as (_ & _ & _ & Hledger & _).
  destruct (liked_db_fields ty now user pk n0 author a db0) as (_ & _ & Hk').
  assert (∀ now' user',
    window_sum now' user' (karma_transactions (liked_db ty now user pk n0 author a db0))
    = window_sum now' user' (karma_transactions db)
      + (if bool_decide (user' = author ∧ now' - 24 * 3600 * 1000000 ≤ now)
         then karma_for ty else 0)) as Hsum.
  { intros now' user'. rewrite Hk', Hledger, window_sum_snoc. cbn.
    rewrite (bool_decide_ext _ (user' = author ∧ now' - 24 * 3600 * 1000000 ≤ now));
      [done|]. split; intros [? ?]; by split. }
  exists author. split_and!.
  - by rewrite <- (user_added_target_author db db0)
      by apply (resolved_frame _ _ _ _ Hres).
  - done.
  - intros now' Hnow Hpos. apply elem_of_positive. split_and!.
    + unfold recent, created_at__gte. rewrite Hk'.
      apply list_elem_of_fmap. eexists. split; [|apply list_elem_of_filter; split;
        [|apply elem_of_app; right; apply list_elem_of_here]]; [done|].
      cbn. unfold twenty_four_hours_ago. lia.
    + rewrite Hsum, bool_decide_eq_true_2; done.
    + destruct ty; cbn; lia.
Qed.

Lemma like_counts_for_a_day_witness :
  let request := mkRequest (Some 2) "" 0 None in
  let db := mkDb {[ 1 := mkUser "alice" "" 0; 2 := mkUser "bob" "" 0 ]}
                 {[ 10 := mkPost 1 "hi" 0 0 ]} ∅ [] [] in
  ∃ author,
    (author, 0 + 5)
    ∈ positive (hours 30) (like_target TARGET_POST (hours 10) request 10 db).2.
Proof.
  cbv zeta.
  match goal with
  | |- ∃ author, _ ∈ positive _ (like_target _ _ ?request _ ?db).2 =>
      destruct (like_counts_for_a_day TARGET_POST (hours 10) request 10 db 1 5
                  (like_target TARGET_POST (hours 10) request 10 db).2)
        as (author & _ & _ & Hlisted); [vm_compute; reflexivity|]
  end.
  exists author. apply Hlisted; [vm_compute; discriminate|vm_compute; discriminate].
Defined.

(** *** Requests that leave the leaderboard alone *)

Lemma get_frame now db db' :
  karma_transactions db' = karma_transactions db → users db ⊆ users db' →
  recipients_exist db → get now db' = get now db.
Proof.
  intros Hledger Husers Hfk.
  assert (leaderboard_data now db' = leaderboard_data now db) as Hdata
    by (unfold leaderboard_data; by rewrite Hledger).
  rewrite !get_unfold, Hdata. f_equal. unfold fetched_users. rewrite Hdata.
  apply map_eq. intros i. apply option_eq. intros u.
  rewrite !map_lookup_filter_Some. cbn. split; intros [Hi Hin]; (split; [|done]).
  - destruct (recipients_exist_listed now db i Hfk) as [u0 Hu0].
    { apply list_elem_of_fmap in Hin as (x & -> & Hin).
      apply list_elem_of_fmap. exists x. split; [done|].
      by apply leaderboard_data_subseteq. }
    pose proof (lookup_weaken _ _ _ _ Hu0 Husers). congruence.
  - by apply (lookup_weaken _ _ _ _ Hi).
Qed.

Lemma not_liked_frame op db :
  (∀ n k, (run_op op db).1 ≠ LikeOk n k) →
  karma_transactions (run_op op db).2 = karma_transactions db
  ∧ users db ⊆ users (run_op op db).2.
Proof.
  destruct op as [ty now request pk|ty request pk|now request|now request|now request pk];
    unfold run_op; intros Hnot.
  - destruct (like_target_frame ty now request pk db) as (user & db0 & Hfr & Hspec).
    destruct Hspec as [n author a _ _ _ _ _ _|r _]; cbn [fst snd] in *.
    + by destruct (Hnot (n + 1) (karma_for ty)).
    + by destruct Hfr as (_ & _ & _ & ? & ?).
  - destruct (unlike_target_frame ty request pk db) as (user & db0 & Hfr & Hspec).
    destruct Hfr as (_ & _ & _ & ? & ?).
    destruct Hspec as [n i _ _ _|r _]; cbn [fst snd] in *; [by destruct ty|done].
  - by destruct (create_views_frame (OpCreatePost now request) db I)
      as [(? & _ & _ & _ & ?) _].
  - by destruct (create_views_frame (OpCreateComment now request) db I)
      as [(? & _ & _ & _ & ?) _].
  - by destruct (create_views_frame (OpPostComments now request pk) db I)
      as [(? & _ & _ & _ & ?) _].
Qed.

(** X17: only likes move the leaderboard.  With every recipient a user of
    the store, a request that is not a like that went through (an unlike, a
    failed like, the creation of a post or a comment) leaves the leaderboard
    of every moment exactly as it was. *)
Theorem leaderboard_moves_only_on_likes now op db :
  recipients_exist db →
  (∀ n k, (run_op op db).1 ≠ LikeOk n k) →
  get now (run_op op db).2 = get now db.
Proof.
  intros Hfk Hnot. destruct (not_liked_frame op db Hnot) as [Hledger Husers].
  by apply get_frame.
Qed.

Lemma leaderboard_moves_only_on_likes_witness :
  get (hours 100) (run_op (OpUnlike TARGET_POST (mkRequest None "" 0 None) 1) crowded_db).2
  = get (hours 100) crowded_db.
Proof.
  apply leaderboard_moves_only_on_likes.
  - unfold recipients_exist.
    apply (Forall_forall (λ t, is_Some (users crowded_db !! kt_user_id t))).
    apply (bool_decide_unpack _). vm_compute. exact I.
  - intros n k. vm_compute. discriminate.
Defined.

(** ** The comment tree: rendering always ends *)

Lemma at_depth_lookup comments cm i d :
  at_depth comments cm i d → is_Some (comments !! i).
Proof.
  intros [r c Hr _|j p d' Hp _]; [by exists c|].
  unfold parent_object in Hp. by destruct (comments !! j).
Qed.

Lemma at_depth_fun comments cm i d d' :
  at_depth comments cm i d → at_depth comments cm i d' → d = d'.
Proof.
  intros Hd. revert d'. induction Hd as [r c Hr Hnone|i p d Hp Hd IH]; intros d' Hd'.
  - destruct Hd' as [|? p ? Hp _]; [done|].
    unfold parent_object in Hp. rewrite Hr in Hp. cbn in Hp. by rewrite Hnone in Hp.
  - destruct Hd' as [? c Hr Hnone|? p' d' Hp' Hd'].
    + unfold parent_object in Hp. rewrite Hr in Hp. cbn in Hp. by rewrite Hnone in Hp.
    + rewrite Hp in Hp'. injection Hp' as <-. f_equal. by apply IH.
Qed.

(** The objects from an object up to its root are all different. *)
Lemma at_depth_chain comments cm i d :
  at_depth comments cm i d →
  ∃ l, length l = S d ∧ NoDup l
       ∧ ∀ x, x ∈ l → ∃ d', (d' ≤ d)%nat ∧ at_depth comments cm x d'.
Proof.
  induction 1 as [r c Hr Hnone|i p d Hp Hd (l & Hlen & Hnd & Hl)].
  - exists [r]. split_and!; [done|apply NoDup_singleton|].
    intros x ->%list_elem_of_singleton. exists O. split; [done|by econstructor].
  - exists (i :: l). split_and!; [cbn; by rewrite Hlen| |].
    + apply NoDup_cons. split; [|done]. intros (d' & Hle & Hd')%Hl.
      assert (d' = S d) by (eapply at_depth_fun; [done|by econstructor]). lia.
    + intros x [->|Hx]%elem_of_cons.
      * exists (S d). split; [done|by econstructor].
      * destruct (Hl x Hx) as (d' & Hle & Hd'). exists d'. split; [lia|done].
Qed.

Lemma at_depth_bound comments cm i d :
  at_depth comments cm i d → (d < length comments)%nat.
Proof.
  intros (l & Hlen & Hnd & Hl)%at_depth_chain.
  assert (l ⊆+ seq 0 (length comments)) as Hsub.
  { apply NoDup_submseteq; [done|]. intros x (d' & _ & Hx)%Hl.
    apply at_depth_lookup in Hx as [c Hc]. apply lookup_lt_Some in Hc.
    apply elem_of_seq. lia. }
  apply submseteq_length in Hsub. rewrite length_seq in Hsub. lia.
Qed.

(** The forest of [build_comment_tree]: roots are at depth 0, and the
    replies of an object are one deeper than the object. *)
Lemma build_comment_tree_forest comments user liked :
  ∃ cm,
    (∀ r, r ∈ (build_comment_tree comments user liked).1 → at_depth comments cm r 0)
    ∧ (∀ p replies i,
         _prefetched_replies (build_comment_tree comments user liked).2 !! p
         = Some replies →
         i ∈ replies → parent_object comments cm i = Some p).
Proof.
  unfold build_comment_tree. cbn [fst snd].
  set (st0 := mkBuilder (mkAttrs ∅ ∅) ∅ []).
  set (st1 := foldl (first_pass (default ∅ liked)) st0 (objects comments)).
  exists (comment_map st1). split.
  - intros r. rewrite second_pass_root_comments. unfold st1.
    rewrite first_pass_root_comments. cbn.
    intros ([i c] & -> & [Hnone Hin]%list_elem_of_filter)%list_elem_of_fmap.
    apply elem_of_objects in Hin. by econstructor.
  - intros p replies i Hlook Hin.
    destruct (second_pass_replies _ _ _ _ _ Hlook Hin)
      as [(old & Hold & Hc)|(id & row & pid & Hobj & Hp & Hm)].
    + assert (old = []) as ->; [|by apply elem_of_nil in Hc].
      eapply (first_pass_replies (default ∅ liked) st0 (objects comments)); [|exact Hold].
      apply map_Forall_empty.
    + apply elem_of_objects in Hobj. unfold parent_object.
      rewrite Hobj. cbn. by rewrite Hp.
Qed.

Lemma render_at_depth comments cm a fuel i d :
  (∀ p replies j, _prefetched_replies a !! p = Some replies → j ∈ replies →
                  parent_object comments cm j = Some p) →
  at_depth comments cm i d → (length comments ≤ d + fuel)%nat →
  is_Some (render fuel comments a i).
Proof.
  intros Hreplies. revert i d. induction fuel as [|fuel IH]; intros i d Hd Hfuel.
  - apply at_depth_bound in Hd. lia.
  - destruct (at_depth_lookup _ _ _ _ Hd) as [[id row] Hi]. cbn. rewrite Hi.
    assert (is_Some (mapM (render fuel comments a)
                       (default [] (_prefetched_replies a !! i)))) as [rs ->];
      [|by eexists].
    apply mapM_is_Some, Forall_forall. intros j Hj.
    destruct (_prefetched_replies a !! i) as [replies|] eqn:Hlook;
      [|by apply elem_of_nil in Hj].
    apply (IH j (S d)); [|lia]. econstructor; [|done]. by eapply Hreplies.
Qed.

(** X18: rendering always ends.  Whatever the list of comments (also with
    parents that point at each other, at themselves or at nothing), the roots
    [build_comment_tree] returns and the reply lists it attached form a
    forest no deeper than the list is long: the recursion of
    [CommentSerializer.get_replies] over it ends and yields the nested
    output. *)
Theorem render_tree_total comments user_liked_ids :
  is_Some (render_tree comments user_liked_ids).
Proof.
  unfold render_tree.
  destruct (build_comment_tree_forest comments None user_liked_ids)
    as (cm & Hroots & Hreplies).
  destruct (build_comment_tree comments None user_liked_ids) as [roots a].
  apply mapM_is_Some, Forall_forall. intros r Hr.
  apply (render_at_depth comments cm a _ r 0); [done|by apply Hroots|lia].
Qed.

(** ** The comment tree: what hangs where *)

Lemma objects_fst comments : (objects comments).*1 = seq 0 (length comments).
Proof.
  unfold objects. apply list_eq. intros i.
  rewrite list_lookup_fmap, list_lookup_imap.
  destruct (comments !! i) as [c|] eqn:Hi; cbn.
  - apply lookup_lt_Some in Hi. by rewrite lookup_seq_lt.
  - apply lookup_ge_None in Hi. by rewrite lookup_seq_ge.
Qed.

Lemma first_pass_attrs_other liked st objs p :
  p ∉ objs.*1 →
  _prefetched_replies (attrs (foldl (first_pass liked) st objs)) !! p
  = _prefetched_replies (attrs st) !! p
  ∧ _liked_by_user (attrs (foldl (first_pass liked) st objs)) !! p
    = _liked_by_user (attrs st) !! p.
Proof.
  revert st. induction objs as [|[i [id row]] objs IH]; intros st Hp; [done|].
  cbn in Hp. apply not_elem_of_cons in Hp as [Hne Hp].
  change (foldl (first_pass liked) st ((i, (id, row)) :: objs))
    with (foldl (first_pass liked) (first_pass liked st (i, (id, row))) objs).
  destruct (IH (first_pass liked st (i, (id, row))) Hp) as [-> ->]. cbn.
  by rewrite !lookup_insert_ne.
Qed.

Lemma first_pass_attrs liked st objs p id row :
  NoDup objs.*1 → (p, (id, row)) ∈ objs →
  _prefetched_replies (attrs (foldl (first_pass liked) st objs)) !! p = Some []
  ∧ _liked_by_user (attrs (foldl (first_pass liked) st objs)) !! p
    = Some (bool_decide (id ∈ liked)).
Proof.
  revert st. induction objs as [|[i [id' row']] objs IH]; intros st Hnd Hin;
    [by apply elem_of_nil in Hin|].
  cbn in Hnd. apply NoDup_cons in Hnd as [Hi Hnd].
  change (foldl (first_pass liked) st ((i, (id', row')) :: objs))
    with (foldl (first_pass liked) (first_pass liked st (i, (id', row'))) objs).
  apply elem_of_cons in Hin as [[= -> -> ->]|Hin].
  - destruct (first_pass_attrs_other liked (first_pass liked st (i, (id', row'))) objs i Hi)
      as [-> ->]. cbn. by rewrite !lookup_insert_eq.
  - by apply IH.
Qed.

Lemma first_pass_comment_map_Some liked st objs id p :
  comment_map (foldl (first_pass liked) st objs) !! id = Some p →
  comment_map st !! id = Some p ∨ ∃ row, (p, (id, row)) ∈ objs.
Proof.
  revert st. induction objs as [|[i [id' row']] objs IH]; intros st Hp; [by left|].
  cbn in Hp. destruct (IH _ Hp) as [Hst|[row Hin]].
  - cbn in Hst. apply lookup_insert_Some in Hst as [[<- <-]|[_ Hst]].
    + right. exists row'. apply list_elem_of_here.
    + by left.
  - right. exists row. by apply list_elem_of_further.
Qed.

Lemma first_pass_comment_map_last liked st objs id p row :
  NoDup (objs.*2).*1 → (p, (id, row)) ∈ objs →
  comment_map (foldl (first_pass liked) st objs) !! id = Some p.
Proof.
  revert st. induction objs as [|[i [id' row']] objs IH]; intros st Hnd Hin;
    [by apply elem_of_nil in Hin|].
  cbn in Hnd. apply NoDup_cons in Hnd as [Hid Hnd].
  change (foldl (first_pass liked) st ((i, (id', row')) :: objs))
    with (foldl (first_pass liked) (first_pass liked st (i, (id', row'))) objs).
  apply elem_of_cons in Hin as [[= -> -> ->]|Hin]; [|by apply IH].
  destruct (comment_map (foldl (first_pass liked) (first_pass liked st (i, (id', row'))) objs)
              !! id') as [q|] eqn:Hq.
  - apply first_pass_comment_map_Some in Hq as [Hq|[row Hq]].
    + cbn in Hq. by rewrite lookup_insert_eq in Hq.
    + destruct Hid. apply list_elem_of_fmap. exists (id', row). split; [done|].
      apply list_elem_of_fmap. by exists (q, (id', row)).
  - apply first_pass_comment_map in Hq as [Hq _]. cbn in Hq.
    by rewrite lookup_insert_eq in Hq.
Qed.

Lemma second_pass_liked st objs :
  _liked_by_user (attrs (foldl second_pass st objs)) = _liked_by_user (attrs st).
Proof.
  revert st. induction objs as [|[i [id row]] objs IH]; intros st; [done|].
  cbn. rewrite IH. destruct (comment_parent_id row) as [pid|]; [|done].
  by destruct (comment_map st !! pid).
Qed.

(** The reply list of an object after the second pass, exactly. *)
Lemma second_pass_replies_exact st objs p :
  _prefetched_replies (attrs (foldl second_pass st objs)) !! p
  = (λ old, old ++ (filter (λ obj, comment_parent_id obj.2.2 ≫= (comment_map st !!.)
                                   = Some p) objs).*1)
      <$> _prefetched_replies (attrs st) !! p.
Proof.
  revert st. induction objs as [|[i [id row]] objs IH]; intros st.
  - cbn. destruct (_ !! p); cbn; [|done]. by rewrite app_nil_r.
  - change (foldl second_pass st ((i, (id, row)) :: objs))
      with (foldl second_pass (second_pass st (i, (id, row))) objs).
    rewrite IH, filter_cons. cbn [fst snd].
    assert (comment_map (second_pass st (i, (id, row))) = comment_map st) as ->.
    { unfold second_pass. destruct (comment_parent_id row) as [pid|]; [|done].
      by destruct (comment_map st !! pid). }
    unfold second_pass. destruct (comment_parent_id row) as [pid|] eqn:Hpid; cbn.
    + destruct (comment_map st !! pid) as [q|] eqn:Hq; cbn.
      * rewrite lookup_alter. destruct (decide (q = p)) as [->|Hne].
        -- rewrite decide_True by done.
           destruct (_prefetched_replies (attrs st) !! p); cbn; [|done].
           by rewrite <- app_assoc.
        -- by rewrite decide_False by congruence.
      * by rewrite decide_False by done.
    + by rewrite decide_False by done.
Qed.

(** The attributes [build_comment_tree] leaves on the object at [p]. *)
Lemma build_comment_tree_attrs comments user liked p id row :
  comments !! p = Some (id, row) →
  ∃ cm : gmap Z nat,
    (∀ pid q, cm !! pid = Some q → ∃ row', comments !! q = Some (pid, row'))
    ∧ (NoDup comments.*1 →
       ∀ pid q row', comments !! q = Some (pid, row') → cm !! pid = Some q)
    ∧ _prefetched_replies (build_comment_tree comments user liked).2 !! p
      = Some ((filter (λ obj, comment_parent_id obj.2.2 ≫= (cm !!.) = Some p)
                 (objects comments)).*1)
    ∧ _liked_by_user (build_comment_tree comments user liked).2 !! p
      = Some (bool_decide (id ∈ default ∅ liked)).
Proof.
  intros Hp. unfold build_comment_tree. cbn [fst snd].
  set (st0 := mkBuilder (mkAttrs ∅ ∅) ∅ []).
  set (st1 := foldl (first_pass (default ∅ liked)) st0 (objects comments)).
  assert (NoDup (objects comments).*1) as Hnd
    by (rewrite objects_fst; apply NoDup_seq).
  destruct (first_pass_attrs (default ∅ liked) st0 (objects comments) p id row Hnd)
    as [Hreplies Hliked]; [by apply elem_of_objects|].
  exists (comment_map st1). split_and!.
  - intros pid q [Hq|[row' Hq]]%first_pass_comment_map_Some; [done|].
    exists row'. by apply elem_of_objects.
  - intros Hids pid q row' Hq. apply (first_pass_comment_map_last _ _ _ _ _ row').
    + unfold objects. by rewrite imap_snd.
    + by apply elem_of_objects.
  - rewrite second_pass_replies_exact. fold st0 st1 in Hreplies.
    by rewrite Hreplies.
  - by rewrite second_pass_liked.
Qed.

Lemma build_comment_tree_domain comments user liked p replies :
  _prefetched_replies (build_comment_tree comments user liked).2 !! p = Some replies →
  is_Some (comments !! p).
Proof.
  unfold build_comment_tree. cbn [fst snd]. rewrite second_pass_replies_exact.
  destruct (decide (p ∈ (objects comments).*1)) as [Hin|Hout].
  - intros _. rewrite objects_fst in Hin. apply elem_of_seq in Hin.
    apply lookup_lt_is_Some. lia.
  - destruct (first_pass_attrs_other (default ∅ liked) (mkBuilder (mkAttrs ∅ ∅) ∅ [])
                (objects comments) p Hout) as [-> _]. done.
Qed.

(** X19: every object hangs in one place.  In the forest
    [build_comment_tree] leaves, whatever the input, no object is listed
    twice among the roots or twice among the replies of an object, no reply
    is a root, and no object is a reply of two objects: serializing the
    forest shows a comment at most once. *)
Theorem comment_tree_no_repeats comments user user_liked_ids :
  let roots := (build_comment_tree comments user user_liked_ids).1 in
  let a := (build_comment_tree comments user user_liked_ids).2 in
  NoDup roots
  ∧ ∀ p replies,
      _prefetched_replies a !! p = Some replies →
      NoDup replies
      ∧ ∀ i, i ∈ replies →
          (i ∉ roots)
          ∧ ∀ p' replies',
              _prefetched_replies a !! p' = Some replies' → i ∈ replies' → p' = p.
Proof.
  cbv zeta.
  destruct (build_comment_tree_forest comments user user_liked_ids)
    as (cm & Hroots & Hreplies).
  assert (NoDup (objects comments).*1) as Hnd
    by (rewrite objects_fst; apply NoDup_seq).
  split.
  - unfold build_comment_tree. cbn [fst snd].
    rewrite second_pass_root_comments, first_pass_root_comments. cbn.
    apply (sublist_NoDup _ _ Hnd), fmap_sublist, sublist_filter.
  - intros p replies Hlook. split.
    + destruct (build_comment_tree_domain _ _ _ _ _ Hlook) as [[id row] Hp].
      destruct (build_comment_tree_attrs comments user user_liked_ids p id row Hp)
        as (cm' & _ & _ & Hexact & _).
      rewrite Hexact in Hlook. injection Hlook as <-.
      apply (sublist_NoDup _ _ Hnd), fmap_sublist, sublist_filter.
    + intros i Hi. pose proof (Hreplies _ _ _ Hlook Hi) as Hparent. split.
      * intros Hroot%Hroots. inversion Hroot as [r c Hr Hnone|]; subst.
        unfold parent_object in Hparent. rewrite Hr in Hparent. cbn in Hparent.
        by rewrite Hnone in Hparent.
      * intros p' replies' Hlook' Hi'.
        pose proof (Hreplies _ _ _ Hlook' Hi') as Hparent'. congruence.
Qed.

Lemma build_comment_tree_replies_of comments user liked p id row :
  NoDup comments.*1 → comments !! p = Some (id, row) →
  _prefetched_replies (build_comment_tree comments user liked).2 !! p
  = Some (replies_of comments id).
Proof.
  intros Hids Hp.
  destruct (build_comment_tree_attrs comments user liked p id row Hp)
    as (cm & Hcm & Hlast & -> & _).
  f_equal. unfold replies_of. f_equal. apply list_filter_iff.
  intros [i [id' row']]. cbn. destruct (comment_parent_id row') as [pid|]; cbn.
  - split.
    + intros (row'' & Hq)%Hcm. by simplify_eq.
    + intros [= ->]. by apply (Hlast Hids _ _ row).
  - done.
Qed.

(** X20: the replies of a comment.  When the ids of the input are all
    different, the builder leaves on every object the list of the objects
    whose comment names its id as parent, in input order, and the flag that
    tells whether its id is among the liked ids (never, when none are
    given). *)
Theorem comment_tree_replies comments user user_liked_ids p id row :
  NoDup comments.*1 →
  comments !! p = Some (id, row) →
  let a := (build_comment_tree comments user user_liked_ids).2 in
  _prefetched_replies a !! p = Some (replies_of comments id)
  ∧ _liked_by_user a !! p = Some (bool_decide (id ∈ default ∅ user_liked_ids))
  ∧ (user_liked_ids = None → _liked_by_user a !! p = Some false).
Proof.
  intros Hids Hp. cbv zeta.
  destruct (build_comment_tree_attrs comments user user_liked_ids p id row Hp)
    as (cm & _ & _ & _ & Hliked).
  split_and!.
  - by apply (build_comment_tree_replies_of _ _ _ _ _ row).
  - done.
  - intros ->. by rewrite Hliked.
Qed.

Lemma comment_tree_replies_witness :
  let c parent := mkComment 1 parent 1 "" 0 0 in
  let comments := [(1, c None); (2, c (Some 1)); (3, c (Some 2)); (4, c (Some 1))] in
  _prefetched_replies (build_comment_tree comments None (Some {[ 1; 4 ]})).2 !! 0%nat
  = Some (replies_of comments 1)
  ∧ replies_of comments 1 = [1%nat; 3%nat].
Proof.
  cbv zeta. split; [|vm_compute; reflexivity].
  match goal with
  | |- _prefetched_replies (build_comment_tree ?comments _ _).2 !! _ = _ =>
      refine (proj1 (comment_tree_replies comments None (Some {[ 1; 4 ]}) 0 1
                       (mkComment 1 None 1 "" 0 0) _ eq_refl))
  end.
  apply (bool_decide_unpack _). vm_compute. exact I.
Defined.

(** ** Reading the comments of a post *)

Lemma flags_Node id liked replies :
  flags (Node id liked replies) = (id, liked) :: (replies ≫= flags).
Proof. reflexivity. Qed.

Lemma to_representation_at_depth request db comments cm a fuel i d :
  (∀ p replies j, _prefetched_replies a !! p = Some replies → j ∈ replies →
                  parent_object comments cm j = Some p) →
  at_depth comments cm i d → (length comments ≤ d + fuel)%nat →
  is_Some (to_representation fuel request db comments a i).
Proof.
  intros Hreplies. revert i d. induction fuel as [|fuel IH]; intros i d Hd Hfuel.
  - apply at_depth_bound in Hd. lia.
  - destruct (at_depth_lookup _ _ _ _ Hd) as [[id row] Hi]. cbn. rewrite Hi.
    destruct (_prefetched_replies a !! i) as [replies|] eqn:Hlook; [|by eexists].
    assert (is_Some (mapM (to_representation fuel request db comments a) replies))
      as [rs ->]; [|by eexists].
    apply mapM_is_Some, Forall_forall. intros j Hj.
    apply (IH j (S d)); [|lia]. econstructor; [|done]. by eapply Hreplies.
Qed.

(** Every pair in the output is the id of an object and the flag
    [get_liked_by_current_user] gives for it. *)
Lemma to_representation_flags request db comments a fuel i t id liked :
  to_representation fuel request db comments a i = Some t →
  (id, liked) ∈ flags t →
  ∃ j row, comments !! j = Some (id, row)
           ∧ liked = get_liked_by_current_user request db a j id.
Proof.
  revert i t. induction fuel as [|fuel IH]; intros i t; [done|]. cbn.
  destruct (comments !! i) as [[id' row]|] eqn:Hi; [|done].
  destruct (_prefetched_replies a !! i) as [replies|].
  - destruct (mapM (to_representation fuel request db comments a) replies)
      as [rs|] eqn:Hrs; [|done]. cbn. intros [= <-].
    rewrite flags_Node. intros [[= -> ->]|Hin]%elem_of_cons; [by exists i, row|].
    apply list_elem_of_bind in Hin as (t & Hin & Ht).
    apply mapM_Some in Hrs.
    apply list_elem_of_lookup in Ht as [k Hk].
    destruct (Forall2_lookup_r _ _ _ _ _ Hrs Hk) as (j & _ & Hj).
    by apply (IH j t).
  - cbn. intros [= <-]. rewrite flags_Node. cbn.
    intros [= -> ->]%list_elem_of_singleton. by exists i, row.
Qed.

Lemma elem_of_comments_of_post pk db id c :
  (id, c) ∈ merge_sort created_le
              (filter (λ kc : Z * Comment, comment_post_id kc.2 = pk)
                      (map_to_list (comments db)))
  ↔ comments db !! id = Some c ∧ comment_post_id c = pk.
Proof.
  rewrite merge_sort_Permutation, list_elem_of_filter, elem_of_map_to_list. cbn. tauto.
Qed.

Lemma elem_of_get_user_liked_ids user ty (ids : list Z) db id :
  id ∈ (list_to_set
          (like_target_id <$>
             filter (λ l, like_user_id l = user ∧ like_target_type l = ty
                          ∧ like_target_id l ∈ ids) (likes db)) : gset Z)
  ↔ id ∈ ids ∧ List.filter (like_matches user ty id) (likes db) ≠ [].
Proof.
  rewrite elem_of_list_to_set, list_elem_of_fmap. split.
  - intros (l & -> & [(Hu & Hty & Hin) Hl]%list_elem_of_filter).
    split; [done|]. intros Hnil.
    assert (In l (List.filter (like_matches user ty (like_target_id l)) (likes db)))
      as Hl'.
    { apply filter_In. split; [by apply list_elem_of_In|by apply like_matches_spec]. }
    by rewrite Hnil in Hl'.
  - intros [Hin Hne].
    destruct (List.filter (like_matches user ty id) (likes db)) as [|l rest] eqn:Hf;
      [done|].
    assert (In l (List.filter (like_matches user ty id) (likes db))) as Hl
      by (rewrite Hf; by left).
    apply filter_In in Hl as [Hl (Hu & Hty & Hid)%like_matches_spec].
    exists l. split; [done|]. apply list_elem_of_filter.
    split; [by rewrite Hid|by apply list_elem_of_In].
Qed.

(** [PostViewSet.comments] on a GET, once the post is found and the user
    resolved. *)
Lemma comments_get_unfold request pk db user db0 :
  is_Some (posts db !! pk) →
  _get_current_user request db = (inr (Some user), db0) →
  let rows := merge_sort created_le
                (filter (λ kc : Z * Comment, comment_post_id kc.2 = pk)
                        (map_to_list (comments db0))) in
  let liked_ids : gset Z :=
    list_to_set
      (like_target_id <$>
         filter (λ l, like_user_id l = user ∧ like_target_type l = TARGET_COMMENT
                      ∧ like_target_id l ∈ rows.*1) (likes db0)) in
  PostViewSetGet.comments request pk db
  = (Listed (mapM (to_representation (S (length rows)) request db0 rows
                     (build_comment_tree rows (Some user) (Some liked_ids)).2)
                  (build_comment_tree rows (Some user) (Some liked_ids)).1), db0).
Proof.
  intros [p Hp] Hcur.
  unfold PostViewSetGet.comments, listing, bind, try_except, get_post, ret, read,
    comments_of_post, get_user_liked_ids.
  rewrite Hp. cbn -[build_comment_tree to_representation merge_sort].
  rewrite Hcur. cbn -[build_comment_tree to_representation merge_sort].
  by destruct (build_comment_tree _ _ _).
Qed.

Lemma comments_get_result request pk db user db0 :
  is_Some (posts db !! pk) →
  _get_current_user request db = (inr (Some user), db0) →
  ∃ forest,
    PostViewSetGet.comments request pk db = (Listed (Some forest), db0)
    ∧ ∀ id liked, (id, liked) ∈ forest ≫= flags →
        (∃ c, comments db0 !! id = Some c ∧ comment_post_id c = pk)
        ∧ liked
          = match request_user request with
            | Some _ =>
                bool_decide (List.filter (like_matches user TARGET_COMMENT id) (likes db0)
                             ≠ [])
            | None => false
            end.
Proof.
  intros Hpost Hcur. rewrite (comments_get_unfold _ _ _ _ _ Hpost Hcur). cbv zeta.
  set (rows := merge_sort created_le _).
  set (liked_ids := list_to_set _ : gset Z).
  destruct (build_comment_tree_forest rows (Some user) (Some liked_ids))
    as (cm & Hroots & Hreplies).
  pose proof (λ j id row, build_comment_tree_attrs rows (Some user) (Some liked_ids) j id row)
    as Hattrs.
  destruct (build_comment_tree rows (Some user) (Some liked_ids)) as [roots a] eqn:Hbuild.
  cbn [fst snd] in *.
  assert (is_Some (mapM (to_representation (S (length rows)) request db0 rows a) roots))
    as [forest Hforest].
  { apply mapM_is_Some, Forall_forall. intros r Hr.
    apply (to_representation_at_depth request db0 rows cm a _ r 0);
      [done|by apply Hroots|lia]. }
  rewrite Hforest. exists forest. split; [done|].
  intros id liked (t & Hin & Ht)%list_elem_of_bind.
  apply mapM_Some in Hforest. apply list_elem_of_lookup in Ht as [k Hk].
  destruct (Forall2_lookup_r _ _ _ _ _ Hforest Hk) as (r & _ & Hr).
  destruct (to_representation_flags _ _ _ _ _ _ _ _ _ Hr Hin) as (j & row & Hj & ->).
  assert ((id, row) ∈ rows) as Hrow by by eapply list_elem_of_lookup_2.
  split.
  - exists row. by apply elem_of_comments_of_post.
  - unfold get_liked_by_current_user. destruct (request_user request); [|done].
    destruct (Hattrs j id row Hj) as (_ & _ & _ & _ & ->). cbn.
    apply bool_decide_ext. unfold liked_ids.
    rewrite elem_of_get_user_liked_ids. split; [by intros [_ ?]|].
    intros Hne. split; [|done]. apply list_elem_of_fmap. by exists (id, row).
Qed.

(** X21: an anonymous reader never sees a like.  A GET of the comments of
    a post without an authenticated user is served as the demo user: the
    read leaves a user named [demo_user] in the store, creating it when
    there was none, and changes nothing else; yet every comment of the answer
    is flagged as not liked, also those the demo user likes, because the
    serializer asks the request, not the resolved user. *)
Theorem anonymous_reader_sees_no_like request pk db :
  request_user request = None → is_Some (posts db !! pk) → usernames_unique db →
  ∃ forest db',
    PostViewSetGet.comments request pk db = (Listed (Some forest), db')
    ∧ user_added db db'
    ∧ (∃ demo, username <$> users db' !! demo = Some "demo_user")
    ∧ ∀ id liked, (id, liked) ∈ forest ≫= flags → liked = false.
Proof.
  intros Hanon Hpost Huniq.
  destruct (usernames_unique_resolves request db Huniq) as (user & db0 & Hcur & Hres).
  destruct (comments_get_result request pk db user db0 Hpost Hcur) as (forest & Hget & Hflags).
  exists forest, db0. split_and!; [done|by eapply resolved_frame| |].
  - exists user. by eapply resolved_demo_user.
  - intros id liked [_ ->]%Hflags. by rewrite Hanon.
Qed.

Lemma anonymous_reader_sees_no_like_witness :
  let request := mkRequest None "" 0 None in
  let db := mkDb {[ 1 := mkUser "alice" "" 0; 2 := mkUser "demo_user" "" 100 ]}
                 {[ 10 := mkPost 1 "hi" 0 0 ]}
                 {[ 20 := mkComment 10 None 1 "first" 1 0 ]}
                 [mkLike 2 TARGET_COMMENT 20 0] [] in
  PostViewSetGet.comments request 10 db = (Listed (Some [Node 20 false []]), db)
  ∧ ∃ forest db',
      PostViewSetGet.comments request 10 db = (Listed (Some forest), db')
      ∧ ∀ id liked, (id, liked) ∈ forest ≫= flags → liked = false.
Proof.
  cbv zeta. split; [vm_compute; reflexivity|].
  match goal with
  | |- ∃ forest db', PostViewSetGet.comments ?request _ ?db = _ ∧ _ =>
      destruct (anonymous_reader_sees_no_like request 10 db)
        as (forest & db' & Hget & _ & _ & Hflags)
  end.
  - reflexivity.
  - by eexists.
  - intros pk1 pk2 u1 u2 H1 H2 Hn. cbn [users] in H1, H2.
    apply lookup_insert_Some in H1 as [[<- <-]|[? H1]];
      apply lookup_insert_Some in H2 as [[<- <-]|[? H2]]; try done.
    + apply lookup_singleton_Some in H2 as [<- <-]. done.
    + apply lookup_singleton_Some in H1 as [<- <-]. done.
    + apply lookup_singleton_Some in H1 as [<- <-].
      by apply lookup_singleton_Some in H2 as [<- <-].
  - by exists forest, db'.
Defined.

(** X22: what an authenticated reader sees.  A GET of the comments of a post
    by an authenticated user changes nothing in the store and always yields
    the nested output; every comment in it is a comment of that post, and it
    is flagged as liked exactly when the store holds a [Like] row of that
    user for it.  Without the post the answer is [ListingNotFound]. *)
Theorem reader_sees_own_likes request pk db user :
  request_user request = Some user →
  (posts db !! pk = None →
   PostViewSetGet.comments request pk db = (ListingNotFound, db))
  ∧ (is_Some (posts db !! pk) →
     ∃ forest,
       PostViewSetGet.comments request pk db = (Listed (Some forest), db)
       ∧ ∀ id liked, (id, liked) ∈ forest ≫= flags →
           (∃ c, comments db !! id = Some c ∧ comment_post_id c = pk)
           ∧ (liked = true ↔
              ∃ l, l ∈ likes db ∧ like_user_id l = user
                   ∧ like_target_type l = TARGET_COMMENT ∧ like_target_id l = id)).
Proof.
  intros Huser. split.
  - intros Hnone.
    unfold PostViewSetGet.comments, listing, bind, try_except, get_post, ret.
    by rewrite Hnone.
  - intros Hpost.
    assert (_get_current_user request db = (inr (Some user), db)) as Hcur
      by (unfold _get_current_user; by rewrite Huser).
    destruct (comments_get_result request pk db user db Hpost Hcur)
      as (forest & Hget & Hflags).
    exists forest. split; [done|]. intros id liked [Hc ->]%Hflags. split; [done|].
    rewrite Huser, bool_decide_eq_true. split.
    + intros Hne.
      destruct (List.filter (like_matches user TARGET_COMMENT id) (likes db))
        as [|l rest] eqn:Hf; [done|].
      assert (In l (List.filter (like_matches user TARGET_COMMENT id) (likes db))) as Hl
        by (rewrite Hf; by left).
      apply filter_In in Hl as [Hl Hm%like_matches_spec].
      exists l. split; [by apply list_elem_of_In|done].
    + intros (l & Hl & Hm) Hnil.
      assert (In l (List.filter (like_matches user TARGET_COMMENT id) (likes db))) as Hl'.
      { apply filter_In. split; [by apply list_elem_of_In|by apply like_matches_spec]. }
      by rewrite Hnil in Hl'.
Qed.

Lemma reader_sees_own_likes_witness :
  let request := mkRequest (Some 2) "" 0 None in
  let db := mkDb {[ 1 := mkUser "alice" "" 0; 2 := mkUser "bob" "" 0 ]}
                 {[ 10 := mkPost 1 "hi" 0 0 ]}
                 {[ 20 := mkComment 10 None 1 "first" 1 0;
                    21 := mkComment 10 (Some 20) 2 "reply" 0 1 ]}
                 [mkLike 2 TARGET_COMMENT 20 0] [] in
  PostViewSetGet.comments request 10 db
  = (Listed (Some [Node 20 true [Node 21 false []]]), db)
  ∧ PostViewSetGet.comments request 11 db = (ListingNotFound, db).
Proof.
  cbv zeta. split; [vm_compute; reflexivity|].
  match goal with
  | |- PostViewSetGet.comments ?request _ ?db = _ =>
      refine (proj1 (reader_sees_own_likes request 11 db 2 eq_refl) _)
  end.
  vm_compute. reflexivity.
Defined.

(** *** Likes, unlikes and what the reader sees *)

Lemma filter_like_matches_In user ty pk rows l :
  l ∈ rows → like_matches user ty pk l = true →
  List.filter (like_matches user ty pk) rows ≠ [].
Proof.
  intros Hl Hm Hnil.
  assert (In l (List.filter (like_matches user ty pk) rows)) as Hl'
    by (apply filter_In; split; [by apply list_elem_of_In|done]).
  by rewrite Hnil in Hl'.
Qed.

(** With unique likes, deleting the row an unlike found leaves the user
    without a like of the target. *)
Lemma unlike_leaves_no_like user ty pk db i :
  likes_unique db → find_like user ty pk (likes db) = Some i →
  List.filter (like_matches user ty pk) (take i (likes db) ++ drop (S i) (likes db)) = [].
Proof.
  intros Huniq Hfind.
  destruct (find_like_Some _ _ _ _ _ Hfind) as (l & Hi & Hl).
  destruct (List.filter _ _) as [|l' rest] eqn:Hf; [done|]. exfalso.
  assert (In l' (List.filter (like_matches user ty pk)
                   (take i (likes db) ++ drop (S i) (likes db)))) as Hl'
    by (rewrite Hf; by left).
  apply filter_In in Hl' as [Hin Hm]. apply list_elem_of_In in Hin.
  apply like_matches_key in Hl, Hm.
  unfold likes_unique in Huniq.
  assert ((like_key <$> likes db) !! i = Some (user, ty, pk)) as Hki
    by (by rewrite list_lookup_fmap, Hi; cbn; rewrite Hl).
  apply elem_of_app in Hin as [Hin|Hin]; apply list_elem_of_lookup in Hin as [j Hj].
  - apply lookup_take_Some in Hj as [Hj Hlt].
    assert ((like_key <$> likes db) !! j = Some (user, ty, pk)) as Hkj
      by (by rewrite list_lookup_fmap, Hj; cbn; rewrite Hm).
    pose proof (NoDup_lookup _ _ _ _ Huniq Hkj Hki). lia.
  - rewrite lookup_drop in Hj.
    assert ((like_key <$> likes db) !! (S i + j)%nat = Some (user, ty, pk)) as Hkj
      by (by rewrite list_lookup_fmap, Hj; cbn; rewrite Hm).
    pose proof (NoDup_lookup _ _ _ _ Huniq Hkj Hki). lia.
Qed.

Lemma comments_get_flag request user pk db forest db' id liked :
  request_user request = Some user →
  PostViewSetGet.comments request pk db = (Listed (Some forest), db') →
  (id, liked) ∈ forest ≫= flags →
  liked = bool_decide (List.filter (like_matches user TARGET_COMMENT id) (likes db) ≠ []).
Proof.
  intros Huser Hget Hin.
  assert (_get_current_user request db = (inr (Some user), db)) as Hcur
    by (unfold _get_current_user; by rewrite Huser).
  destruct (posts db !! pk) as [p|] eqn:Hp.
  - destruct (comments_get_result request pk db user db (mk_is_Some _ _ Hp) Hcur)
      as (forest' & Hget' & Hflags).
    rewrite Hget in Hget'. injection Hget' as ->.
    destruct (Hflags _ _ Hin) as [_ ->]. by rewrite Huser.
  - unfold PostViewSetGet.comments, listing, bind, try_except, get_post, ret in Hget.
    by rewrite Hp in Hget.
Qed.

(** X23: the flag follows the likes.  Once an authenticated user's like of a
    comment went through, every later reading of the comments by that user
    flags the comment as liked; once an unlike went through, in a store with
    unique likes, it flags the comment as not liked. *)
Theorem liked_flag_follows_likes request user c db :
  request_user request = Some user →
  (∀ now n k db1,
     like_target TARGET_COMMENT now request c db = (LikeOk n k, db1) →
     ∀ pk forest db2 liked,
       PostViewSetGet.comments request pk db1 = (Listed (Some forest), db2) →
       (c, liked) ∈ forest ≫= flags → liked = true)
  ∧ (likes_unique db →
     ∀ n db1,
       unlike_target TARGET_COMMENT request c db = (UnlikeOk n, db1) →
       ∀ pk forest db2 liked,
         PostViewSetGet.comments request pk db1 = (Listed (Some forest), db2) →
         (c, liked) ∈ forest ≫= flags → liked = false).
Proof.
  intros Huser.
  assert (_get_current_user request db = (inr (Some user), db)) as Hcur
    by (unfold _get_current_user; by rewrite Huser).
  split.
  - intros now n k db1 Hlike pk forest db2 liked Hget Hin.
    rewrite (comments_get_flag _ _ _ _ _ _ _ _ Huser Hget Hin).
    apply bool_decide_eq_true.
    rewrite (like_target_result _ _ _ _ _ _ _ Hcur) in Hlike.
    pose proof (like_result_spec TARGET_COMMENT now user c db) as Hspec.
    rewrite Hlike in Hspec.
    inversion Hspec as [n0 author a _ _ _ _ _ _|r Hr]; [|done]. subst.
    rewrite likes_liked_db.
    apply (filter_like_matches_In _ _ _ _ (mkLike user TARGET_COMMENT c now)).
    + apply elem_of_app. right. apply list_elem_of_here.
    + apply like_matches_self.
  - intros Huniq n db1 Hunlike pk forest db2 liked Hget Hin.
    rewrite (comments_get_flag _ _ _ _ _ _ _ _ Huser Hget Hin).
    apply bool_decide_eq_false. intros Hne. apply Hne. clear Hne.
    rewrite (unlike_target_result _ _ _ _ _ _ Hcur) in Hunlike.
    pose proof (unlike_result_spec TARGET_COMMENT user c db) as Hspec.
    rewrite Hunlike in Hspec.
    inversion Hspec as [n0 i _ Hfind _|r Hr]; [|done]. subst.
    cbn [likes set_likes set_comments]. by apply unlike_leaves_no_like.
Qed.

Lemma liked_flag_follows_likes_witness :
  let request := mkRequest (Some 2) "" 0 None in
  let db := mkDb {[ 1 := mkUser "alice" "" 0; 2 := mkUser "bob" "" 0 ]}
                 {[ 10 := mkPost 1 "hi" 0 0 ]}
                 {[ 20 := mkComment 10 None 1 "first" 0 0 ]} [] [] in
  let db1 := (like_target TARGET_COMMENT 5 request 20 db).2 in
  PostViewSetGet.comments request 10 db1 = (Listed (Some [Node 20 true []]), db1)
  ∧ ∀ liked, (20, liked) ∈ [Node 20 true []] ≫= flags → liked = true.
Proof.
  intros request db db1. split; [vm_compute; reflexivity|]. intros liked.
  refine (proj1 (liked_flag_follows_likes request 2 20 db eq_refl)
            5 1 1 db1 _ 10 [Node 20 true []] db1 liked _);
    vm_compute; reflexivity.
Defined.

(** ** The admin's preview of a content *)

Lemma app_length s t :
  String.length (s +:+ t) = (String.length s + String.length t)%nat.
Proof. by rewrite <- !chars_length, app_chars, length_app. Qed.

Lemma substring_length n s :
  String.length (String.substring 0 n s) = (n `min` String.length s)%nat.
Proof.
  revert s. induction n as [|n IH]; intros [|a s]; cbn; [done..|]. by rewrite IH.
Qed.

Lemma substring_prefix n s t :
  (n ≤ String.length s)%nat →
  String.substring 0 n (String.substring 0 n s +:+ t) = String.substring 0 n s.
Proof.
  revert s. induction n as [|n IH]; intros [|a s] Hn; cbn in *;
    [rewrite app_nil; by destruct t..|lia|].
  rewrite app_cons. cbn. rewrite IH by lia. done.
Qed.

(** X24: the preview of the admin.  [content_preview] shows a content of at
    most 50 characters as it is; a longer one is cut to its first 50
    characters and three dots, 53 characters in all, which is longer than
    a content of 51 or 52 characters. *)
Theorem content_preview_length content :
  let preview := PostAdmin.content_preview content in
  String.length preview
  = (if (50 <? String.length content)%nat then 53 else String.length content)%nat
  ∧ ((String.length content ≤ 50)%nat → preview = content)
  ∧ ((50 < String.length content)%nat →
     String.substring 0 50 preview = String.substring 0 50 content
     ∧ String.substring 50 3 preview = "...")
  ∧ (String.length content = 51%nat → (String.length content < String.length preview)%nat).
Proof.
  cbv zeta. unfold PostAdmin.content_preview.
  destruct (50 <? String.length content)%nat eqn:Hlen.
  - apply Nat.ltb_lt in Hlen.
    assert (String.length (String.substring 0 50 content +:+ "...") = 53%nat) as Hp.
    { rewrite app_length, substring_length.
      change (String.length "...") with 3%nat. lia. }
    split_and!; [done|lia| |lia].
    intros _. split.
    + by apply substring_prefix; lia.
    + assert (∀ n s t, String.length s = n →
                String.substring n 3 (s +:+ t) = String.substring 0 3 t) as Hdrop.
      { intros n s. revert n. induction s as [|a s IH]; intros n t Hn; cbn in Hn; subst;
          [done|]. rewrite app_cons. cbn. by apply IH. }
      rewrite (Hdrop 50%nat); [done|]. rewrite substring_length. lia.
  - apply Nat.ltb_ge in Hlen. split_and!; [done|done|lia|lia].
Qed.

(** ** The list of posts *)

#[local] Instance newest_first_trans : Transitive newest_first.
Proof. unfold newest_first. intros ???; lia. Qed.

#[local] Instance newest_first_total : Total newest_first.
Proof. unfold newest_first. intros ??; lia. Qed.

Lemma group_by_post_lookup m l pk :
  default [] (foldl group_by_post m l !! pk)
  = default [] (m !! pk) ++ filter (λ kc : Z * Comment, comment_post_id kc.2 = pk) l.
Proof.
  revert m. induction l as [|c l IH]; intros m; [by rewrite app_nil_r|].
  change (foldl group_by_post m (c :: l)) with (foldl group_by_post (group_by_post m c) l).
  rewrite IH, filter_cons. unfold group_by_post.
  destruct (decide (comment_post_id c.2 = pk)) as [->|Hne].
  - rewrite lookup_alter_eq.
    destruct (m !! pk) as [old|] eqn:Hold.
    + rewrite Hold. cbn. by rewrite <- app_assoc.
    + by rewrite lookup_insert_eq.
  - rewrite lookup_alter_ne by done.
    destruct (m !! comment_post_id c.2); by rewrite ?lookup_insert_ne.
Qed.

Lemma StronglySorted_lookup_lt {A} (R : relation A) l i j x y :
  StronglySorted R l → l !! i = Some x → l !! j = Some y → (i < j)%nat → R x y.
Proof.
  intros Hl. revert i j. induction Hl as [|z l Hl IH Hall]; intros i j Hi Hj Hlt;
    [done|].
  destruct j as [|j]; [lia|]. destruct i as [|i]; cbn in *.
  - injection Hi as ->. rewrite Forall_forall in Hall.
    by eapply Hall, list_elem_of_lookup_2.
  - apply (IH i j); [done..|lia].
Qed.

(** [PostViewSet.list], once the user is resolved. *)
Lemma list_result request db user db0 :
  _get_current_user request db = (inr (Some user), db0) →
  ∃ data,
    PostViewSetGet.list request db = (Listed data, db0)
    ∧ data_id <$> data
      = (take 20 (merge_sort newest_first (map_to_list (posts db)))).*1
    ∧ ∀ d, d ∈ data →
        (∃ p, posts db !! data_id d = Some p ∧ data_likes_count d = post_likes_count p)
        ∧ data_comment_count d
          = length (filter (λ kc : Z * Comment, comment_post_id kc.2 = data_id d)
                           (map_to_list (comments db0)))
        ∧ is_Some (data_comments d)
        ∧ data_liked_by_current_user d
          = match request_user request with
            | Some _ =>
                bool_decide (List.filter (like_matches user TARGET_POST (data_id d))
                                         (likes db0) ≠ [])
            | None => false
            end.
Proof.
  intros Hcur.
  unfold PostViewSetGet.list, listing, bind, ret, read, get_user_liked_ids.
  cbn -[build_comment_tree to_representation merge_sort take].
  rewrite Hcur. cbn -[build_comment_tree to_representation merge_sort take].
  set (rows := take 20 (merge_sort newest_first (map_to_list (posts db)))).
  set (all_comments := merge_sort created_le _).
  match goal with
  | |- context [build_comment_tree _ _ (Some ?s)] => set (comment_liked_ids := s)
  end.
  match goal with
  | |- context [bool_decide (_ ∈ ?s)] => set (post_liked_ids := s)
  end.
  eexists. split; [done|]. split.
  { rewrite <- list_fmap_compose. apply list_fmap_ext. intros i [pk p] _.
    cbn -[build_comment_tree to_representation].
    by destruct (build_comment_tree _ (Some user) (Some comment_liked_ids)). }
  intros d ([pk p] & -> & Hin)%list_elem_of_fmap. cbn [fst snd].
  set (post_comments := default [] (foldl group_by_post ∅ all_comments !! pk)).
  destruct (build_comment_tree_forest post_comments (Some user) (Some comment_liked_ids))
    as (cm & Hroots & Hreplies).
  destruct (build_comment_tree post_comments (Some user) (Some comment_liked_ids))
    as [roots a]. cbn [fst snd data_id data_likes_count data_comment_count
                       data_comments data_liked_by_current_user] in *.
  assert ((pk, p) ∈ map_to_list (posts db)) as Hpost.
  { unfold rows in Hin.
    pose proof (elem_of_sublist _ _ _ Hin (sublist_take _ _)) as Hin'.
    by rewrite merge_sort_Permutation in Hin'. }
  split_and!.
  - exists p. split; [by apply elem_of_map_to_list|done].
  - unfold post_comments. rewrite group_by_post_lookup, lookup_empty. cbn.
    unfold all_comments. rewrite merge_sort_Permutation, list_filter_filter.
    f_equal. apply list_filter_iff. intros [k c]. cbn. split; [by intros [? ?]|].
    intros ->. split; [done|]. apply list_elem_of_fmap. by exists (pk, p).
  - apply mapM_is_Some, Forall_forall. intros r Hr.
    apply (to_representation_at_depth request db0 post_comments cm a _ r 0);
      [done|by apply Hroots|lia].
  - destruct (request_user request); [|done]. apply bool_decide_ext.
    unfold post_liked_ids. rewrite elem_of_get_user_liked_ids.
    split; [by intros [_ ?]|]. intros Hne. split; [|done].
    apply list_elem_of_fmap. by exists (pk, p).
Qed.

(** X25: the list of posts.  With unique user names, [PostViewSet.list]
    answers with at most 20 posts, as many as the store has up to 20, none
    twice and the newest first: a post left out is no newer than any post
    listed.  Each entry carries the post's [likes_count], the number of
    comments the store holds for the post as [comment_count], a comment tree
    whose serialization ends, and a like flag that is false for a request
    without an authenticated user. *)
Theorem list_shows_newest request db :
  usernames_unique db →
  ∃ data db',
    PostViewSetGet.list request db = (Listed data, db')
    ∧ user_added db db'
    ∧ length data = (20 `min` size (posts db))%nat
    ∧ NoDup (data_id <$> data)
    ∧ (∀ d, d ∈ data →
         (∃ p, posts db !! data_id d = Some p ∧ data_likes_count d = post_likes_count p)
         ∧ data_comment_count d
           = length (filter (λ kc : Z * Comment, comment_post_id kc.2 = data_id d)
                            (map_to_list (comments db)))
         ∧ is_Some (data_comments d)
         ∧ (request_user request = None → data_liked_by_current_user d = false))
    ∧ (∀ i j d1 d2 p1 p2,
         data !! i = Some d1 → data !! j = Some d2 → (i < j)%nat →
         posts db !! data_id d1 = Some p1 → posts db !! data_id d2 = Some p2 →
         post_created_at p2 ≤ post_created_at p1)
    ∧ (∀ pk p d q,
         posts db !! pk = Some p → pk ∉ data_id <$> data →
         d ∈ data → posts db !! data_id d = Some q →
         post_created_at p ≤ post_created_at q).
Proof.
  intros Huniq.
  destruct (usernames_unique_resolves request db Huniq) as (user & db0 & Hcur & Hres).
  destruct (list_result request db user db0 Hcur) as (data & Hlist & Hids & Hdata).
  pose proof (resolved_frame _ _ _ _ Hres) as Hfr.
  set (sorted := merge_sort newest_first (map_to_list (posts db))) in *.
  assert (StronglySorted newest_first (take 20 sorted ++ drop 20 sorted)) as Hsorted.
  { rewrite take_drop. apply StronglySorted_merge_sort; apply _. }
  assert (NoDup sorted.*1) as Hnd.
  { unfold sorted. rewrite merge_sort_Permutation. apply NoDup_fst_map_to_list. }
  assert (∀ pk p, (pk, p) ∈ sorted ↔ posts db !! pk = Some p) as Hsorted_elem.
  { intros pk p. unfold sorted. by rewrite merge_sort_Permutation, elem_of_map_to_list. }
  assert (∀ i d, data !! i = Some d →
            ∃ p, take 20 sorted !! i = Some (data_id d, p)) as Hrow.
  { intros i d Hi.
    assert ((data_id <$> data) !! i = Some (data_id d)) as Hi'
      by (by rewrite list_lookup_fmap, Hi).
    rewrite Hids, list_lookup_fmap in Hi'.
    destruct (take 20 sorted !! i) as [[k p]|]; [|done].
    injection Hi' as <-. by exists p. }
  assert (∀ k q, (k, q) ∈ take 20 sorted → posts db !! k = Some q) as Hstore.
  { intros k q Hin. apply Hsorted_elem.
    exact (elem_of_sublist _ _ _ Hin (sublist_take _ _)). }
  exists data, db0. split_and!.
  - done.
  - done.
  - rewrite <- (length_fmap data_id), Hids, length_fmap, length_take.
    unfold sorted. by rewrite merge_sort_Permutation, length_map_to_list.
  - rewrite Hids. apply (sublist_NoDup _ _ Hnd), fmap_sublist, sublist_take.
  - intros d Hd. destruct (Hdata d Hd) as (Hp & Hcount & Htree & Hliked).
    split_and!; [done| |done|].
    + rewrite Hcount. by rewrite (proj1 (proj2 Hfr)).
    + intros Hanon. by rewrite Hliked, Hanon.
  - intros i j d1 d2 p1 p2 Hi Hj Hlt Hp1 Hp2.
    destruct (Hrow _ _ Hi) as (q1 & Hq1). destruct (Hrow _ _ Hj) as (q2 & Hq2).
    assert (q1 = p1) as ->.
    { pose proof (Hstore _ _ (list_elem_of_lookup_2 _ _ _ Hq1)). congruence. }
    assert (q2 = p2) as ->.
    { pose proof (Hstore _ _ (list_elem_of_lookup_2 _ _ _ Hq2)). congruence. }
    apply StronglySorted_app_1_l in Hsorted.
    apply (StronglySorted_lookup_lt _ _ _ _ _ _ Hsorted Hq1 Hq2 Hlt).
  - intros pk p d q Hp Hout Hd Hq.
    apply list_elem_of_lookup in Hd as [i Hi]. destruct (Hrow _ _ Hi) as (q' & Hq').
    apply list_elem_of_lookup_2 in Hq' as Hlisted.
    assert (q' = q) as ->.
    { pose proof (Hstore _ _ Hlisted). congruence. }
    assert ((pk, p) ∈ drop 20 sorted) as Hdropped.
    { apply Hsorted_elem in Hp. rewrite <- (take_drop 20 sorted) in Hp.
      apply elem_of_app in Hp as [Hp|Hp]; [|done].
      destruct Hout. rewrite Hids. apply list_elem_of_fmap. by exists (pk, p). }
    apply (StronglySorted_app_1_elem_of _ _ _ _ _ Hsorted Hlisted Hdropped).
Qed.

Lemma list_shows_newest_witness :
  let request := mkRequest (Some 1) "" 0 None in
  let db := mkDb {[ 1 := mkUser "alice" "" 0 ]}
                 {[ 10 := mkPost 1 "old" 0 5; 11 := mkPost 1 "new" 2 9 ]}
                 {[ 20 := mkComment 10 None 1 "first" 0 6;
                    21 := mkComment 10 (Some 20) 1 "reply" 0 7 ]}
                 [mkLike 1 TARGET_POST 11 9] [] in
  PostViewSetGet.list request db
  = (Listed [mkPostData 11 2 true 0 (Some []);
             mkPostData 10 0 false 2 (Some [Node 20 false [Node 21 false []]])], db)
  ∧ ∃ data db', PostViewSetGet.list request db = (Listed data, db')
                ∧ length data = (20 `min` 2)%nat.
Proof.
  cbv zeta. split; [vm_compute; reflexivity|].
  match goal with
  | |- ∃ data db', PostViewSetGet.list ?request ?db = _ ∧ _ =>
      destruct (list_shows_newest request db) as (data & db' & Hlist & _ & Hlen & _)
  end.
  - intros pk1 pk2 u1 u2 H1 H2 _. cbn [users] in H1, H2.
    apply lookup_singleton_Some in H1 as [<- _].
    by apply lookup_singleton_Some in H2 as [<- _].
  - exists data, db'. split; [exact Hlist|exact Hlen].
Defined.

(** ** Every comment of a well-formed list is shown *)

Lemma filter_length_lt {A} (P Q : A → Prop) `{!∀ x, Decision (P x)}
    `{!∀ x, Decision (Q x)} (l : list A) x :
  (∀ y, P y → Q y) → x ∈ l → Q x → ¬ P x →
  (length (filter P l) < length (filter Q l))%nat.
Proof.
  intros HPQ Hx HQx HPx.
  assert (∀ k : list A, (length (filter P k) ≤ length (filter Q k))%nat) as Hle.
  { intros k. induction k as [|y k IH]; [done|]. rewrite !filter_cons.
    destruct (decide (P y)) as [Hy|Hy].
    - rewrite decide_True by by apply HPQ. cbn. lia.
    - destruct (decide (Q y)); cbn; lia. }
  induction l as [|y l IH]; [by apply elem_of_nil in Hx|].
  rewrite !filter_cons. apply elem_of_cons in Hx as [<-|Hx].
  - rewrite decide_False, decide_True by done. cbn. specialize (Hle l). lia.
  - specialize (IH Hx). destruct (decide (P y)) as [Hy|Hy].
    + rewrite decide_True by by apply HPQ. cbn. lia.
    + destruct (decide (Q y)); cbn; lia.
Qed.

Lemma flags_to_representation request db rows a fuel i t :
  to_representation fuel request db rows a i = Some t →
  ∃ id row, rows !! i = Some (id, row) ∧ id ∈ (flags t).*1.
Proof.
  destruct fuel as [|fuel]; [done|]. cbn.
  destruct (rows !! i) as [[id row]|]; [|done].
  destruct (match _prefetched_replies a !! i with
            | Some replies => mapM (to_representation fuel request db rows a) replies
            | None => Some []
            end) as [rs|]; [|done].
  cbn. intros [= <-]. exists id, row. split; [done|].
  rewrite flags_Node. cbn. apply list_elem_of_here.
Qed.

(** In a list with unique ids whose parents are present and older, every
    object is serialized somewhere below a root. *)
Lemma to_representation_covers request db rows user liked forest :
  NoDup rows.*1 →
  (∀ i id row pid, rows !! i = Some (id, row) → comment_parent_id row = Some pid →
                   pid < id ∧ pid ∈ rows.*1) →
  mapM (to_representation (S (length rows)) request db rows
          (build_comment_tree rows user liked).2)
       (build_comment_tree rows user liked).1 = Some forest →
  ∀ i id row, rows !! i = Some (id, row) →
    ∃ fuel t,
      to_representation fuel request db rows (build_comment_tree rows user liked).2 i
      = Some t
      ∧ ∀ x, x ∈ flags t → x ∈ forest ≫= flags.
Proof.
  intros Hids Hparents Hforest.
  assert ((build_comment_tree rows user liked).1
          = (filter (λ obj, comment_parent_id obj.2.2 = None) (objects rows)).*1)
    as Hroots.
  { unfold build_comment_tree. cbn [fst snd].
    by rewrite second_pass_root_comments, first_pass_root_comments. }
  pose proof (λ p id row, build_comment_tree_replies_of rows user liked p id row Hids)
    as Hreplies.
  remember (build_comment_tree rows user liked).2 as a eqn:Ha in *. clear Ha.
  apply mapM_Some in Hforest.
  intros i id row Hi.
  remember (length (filter (λ r : Z * Comment, r.1 < id) rows)) as m eqn:Hm.
  revert i id row Hi Hm. induction (lt_wf m) as [m _ IH]. intros i id row Hi ->.
  destruct (comment_parent_id row) as [pid|] eqn:Hpid.
  - destruct (Hparents _ _ _ _ Hi Hpid) as [Hlt Hin].
    apply list_elem_of_fmap in Hin as ([pid' prow] & [= <-] & Hin).
    apply list_elem_of_lookup in Hin as [p Hp].
    destruct (IH (length (filter (λ r : Z * Comment, r.1 < pid) rows))) with p pid prow
      as (fuel & t & Ht & Hsub); [|done|done|].
    { apply (filter_length_lt _ _ _ (pid, prow)); cbn;
        [intros; lia|by eapply list_elem_of_lookup_2|done|lia]. }
    destruct fuel as [|fuel]; [done|]. cbn in Ht. rewrite Hp in Ht.
    rewrite (Hreplies _ _ _ Hp) in Ht.
    destruct (mapM (to_representation fuel request db rows a) (replies_of rows pid))
      as [children|] eqn:Hchildren; [|done].
    cbn in Ht. injection Ht as <-.
    assert (i ∈ replies_of rows pid) as Hreply.
    { unfold replies_of. apply list_elem_of_fmap. exists (i, (id, row)).
      split; [done|]. apply list_elem_of_filter. split; [done|].
      by apply elem_of_objects. }
    apply mapM_Some in Hchildren. apply list_elem_of_lookup in Hreply as [k Hk].
    destruct (Forall2_lookup_l _ _ _ _ _ Hchildren Hk) as (ti & Hti & Hrender).
    exists fuel, ti. split; [done|]. intros x Hx. apply Hsub.
    rewrite flags_Node. apply list_elem_of_further, list_elem_of_bind.
    exists ti. split; [done|]. by eapply list_elem_of_lookup_2.
  - assert (i ∈ (build_comment_tree rows user liked).1) as Hroot.
    { rewrite Hroots. apply list_elem_of_fmap. exists (i, (id, row)).
      split; [done|]. apply list_elem_of_filter. split; [done|].
      by apply elem_of_objects. }
    apply list_elem_of_lookup in Hroot as [k Hk].
    destruct (Forall2_lookup_l _ _ _ _ _ Hforest Hk) as (t & Ht & Hrender).
    exists (S (length rows)), t. split; [done|]. intros x Hx.
    apply list_elem_of_bind. exists t. split; [done|]. by eapply list_elem_of_lookup_2.
Qed.

(** X26: the reader sees every comment.  In a store whose comments are on
    posts of the store with parents that are older comments on the same
    post, the comments an authenticated user reads for a post hold every
    comment the store has for that post: none is dropped as an orphan. *)
Theorem reader_sees_every_comment request pk db user :
  request_user request = Some user → comments_ok db → is_Some (posts db !! pk) →
  ∃ forest,
    PostViewSetGet.comments request pk db = (Listed (Some forest), db)
    ∧ ∀ id c, comments db !! id = Some c → comment_post_id c = pk →
        id ∈ (forest ≫= flags).*1.
Proof.
  intros Huser Hok Hpost.
  assert (_get_current_user request db = (inr (Some user), db)) as Hcur
    by (unfold _get_current_user; by rewrite Huser).
  destruct (comments_get_result request pk db user db Hpost Hcur)
    as (forest & Hget & _).
  exists forest. split; [done|].
  rewrite (comments_get_unfold _ _ _ _ _ Hpost Hcur) in Hget. cbv zeta in Hget.
  set (rows := merge_sort created_le _) in Hget.
  set (liked_ids := list_to_set _ : gset Z) in Hget.
  injection Hget as Hforest.
  assert (NoDup rows.*1) as Hids.
  { unfold rows. rewrite merge_sort_Permutation.
    apply (sublist_NoDup _ (map_to_list (comments db)).*1);
      [apply NoDup_fst_map_to_list|apply fmap_sublist, sublist_filter]. }
  intros id c Hc Hpk.
  assert ((id, c) ∈ rows) as Hin by by apply elem_of_comments_of_post.
  apply list_elem_of_lookup in Hin as [i Hi].
  destruct (to_representation_covers request db rows (Some user) (Some liked_ids) forest
              Hids) with i id c as (fuel & t & Ht & Hsub); [|done|done|].
  - intros j id' row pid Hj Hpid.
    apply list_elem_of_lookup_2, elem_of_comments_of_post in Hj as [Hj Hpost'].
    destruct (Hok _ _ Hj) as [_ Hparent].
    destruct (Hparent pid Hpid) as (Hlt & p & Hp & Hpp). split; [done|].
    apply list_elem_of_fmap. exists (pid, p). split; [done|].
    apply elem_of_comments_of_post. split; [done|congruence].
  - destruct (flags_to_representation _ _ _ _ _ _ _ Ht) as (id' & row & Hi' & Hid).
    rewrite Hi in Hi'. injection Hi' as <- <-.
    apply list_elem_of_fmap in Hid as ([id'' liked] & -> & Hx).
    apply list_elem_of_fmap. exists (id'', liked). split; [done|]. by apply Hsub.
Qed.

Lemma reader_sees_every_comment_witness :
  let request := mkRequest (Some 2) "" 0 None in
  let db := mkDb {[ 1 := mkUser "alice" "" 0; 2 := mkUser "bob" "" 0 ]}
                 {[ 10 := mkPost 1 "hi" 0 0 ]}
                 {[ 20 := mkComment 10 None 1 "first" 1 0;
                    21 := mkComment 10 (Some 20) 2 "reply" 0 1 ]}
                 [] [] in
  ∃ forest,
    PostViewSetGet.comments request 10 db = (Listed (Some forest), db)
    ∧ 21 ∈ (forest ≫= flags).*1.
Proof.
  intros request db.
  destruct (reader_sees_every_comment request 10 db 2) as (forest & Hget & Hall).
  - reflexivity.
  - intros pk c Hpk. cbn [comments db] in Hpk.
    apply lookup_insert_Some in Hpk as [[<- <-]|[_ Hpk]];
      [|apply lookup_singleton_Some in Hpk as [<- <-]]; cbn.
    + split; [by eexists|done].
    + split; [by eexists|]. intros pid [= <-]. split; [done|]. by eexists.
  - by eexists.
  - exists forest. split; [exact Hget|].
    apply (Hall 21 (mkComment 10 (Some 20) 2 "reply" 0 1)); reflexivity.
Defined.

(** ** Likes and their ledger rows *)

Lemma request_step_likes_paid db db' :
  request_step db db' → likes_paid db → likes_paid db'.
Proof.
  intros [|request user db0 Hres
          |request user db0 ty now pk n author a Hres _ _ _ _ _ _
          |request user db0 ty pk n i Hres _ _ _
          |request user db0 content now Hres
          |request user db0 post parent content now Hres _ _] Hpaid; [done|..];
    (assert (likes_paid db0) as Hpaid0;
     [destruct (resolved_frame _ _ _ _ Hres) as (_ & _ & Hl & Hk & _);
      intros l; rewrite Hl, Hk; apply Hpaid|]);
    [done| | |done..].
  - destruct (liked_db_fields ty now user pk n author a db0) as (_ & Hl & Hk).
    intros l. rewrite Hl, Hk. intros [Hin| ->%list_elem_of_singleton]%elem_of_app.
    + destruct (Hpaid0 l Hin) as (t & Ht & Hrest). exists t.
      split; [apply elem_of_app; by left|done].
    + eexists. split; [apply elem_of_app; right; apply list_elem_of_here|done].
  - intros l. rewrite likes_set_likes_count. cbn [likes set_likes].
    intros Hin.
    destruct (Hpaid0 l (elem_of_sublist _ _ _ Hin (take_drop_sublist _ _)))
      as (t & Ht & Hrest).
    exists t. split; [|done]. by destruct ty.
Qed.

(** X27: every like was paid for.  If every [Like] row of the store has a
    ledger row that credits its karma (same liker, same target, the reason
    and amount of its kind), this is still so after any sequence of mutating
    requests: a like writes both rows in one transaction, and nothing ever
    removes a ledger row. *)
Theorem likes_stay_paid ops db : likes_paid db → likes_paid (run ops db).2.
Proof.
  intros Hpaid. revert db Hpaid. apply run_invariant. intros op db Hpaid l Hl.
  exact (request_step_likes_paid _ _ (run_op_step op db) Hpaid l Hl).
Qed.

Lemma likes_stay_paid_witness :
  let request := mkRequest (Some 2) "" 0 None in
  let db := mkDb {[ 1 := mkUser "alice" "" 0; 2 := mkUser "bob" "" 0 ]}
                 {[ 10 := mkPost 1 "hi" 0 0 ]} {[ 20 := mkComment 10 None 1 "c" 0 0 ]}
                 [] [] in
  likes_paid
    (run [OpLike TARGET_POST 1 request 10; OpLike TARGET_COMMENT 2 request 20;
          OpUnlike TARGET_POST request 10; OpLike TARGET_POST 3 request 10] db).2.
Proof.
  intros request db. apply likes_stay_paid. intros l Hl. by apply elem_of_nil in Hl.
Defined.

(** ** Creating comments *)

(** [CommentViewSet.create] for a resolved user: the comment is created, or
    one of the fields is refused and nothing is written. *)
Lemma create_comment_cases now request db user db0 :
  _get_current_user request db = (inr (Some user), db0) →
  let content := Serializers.strip (data_content request) in
  (is_Some (posts db !! data_post request)
   ∧ (∀ pid, data_parent request = Some pid →
        ∃ p, comments db !! pid = Some p ∧ comment_post_id p = data_post request)
   ∧ content ≠ EmptyString
   ∧ (String.length content ≤ 1000)%nat
   ∧ Serializers.has_nul content = false
   ∧ CommentViewSet.create now request db
     = (Created (next_pk (comments db)),
        set_comments
          (insert (next_pk (comments db))
             (mkComment (data_post request) (data_parent request) user content 0 now))
          db0))
  ∨ ((posts db !! data_post request = None
      ∨ (∃ pid, data_parent request = Some pid
                ∧ ∀ p, comments db !! pid = Some p →
                       comment_post_id p ≠ data_post request)
      ∨ content = EmptyString
      ∨ (1000 < String.length content)%nat
      ∨ Serializers.has_nul content = true)
     ∧ CommentViewSet.create now request db = (BadRequest, db0)).
Proof.
  intros Hcur. cbv zeta.
  destruct (_get_current_user_inv _ _ _ _ Hcur) as (? & [= <-] & Hres).
  destruct (resolved_frame _ _ _ _ Hres) as (Hp & Hc & _).
  rewrite (create_comment_result _ _ _ _ _ Hcur), Hp, Hc.
  destruct (posts db !! data_post request) as [post|] eqn:Hpost; cycle 1.
  { right. split; [by left|].
    by destruct (match data_parent request with
                 | Some pid => option_map (λ c, Some (pid, c)) (comments db !! pid)
                 | None => Some None
                 end). }
  assert (Serializers.CharField 1000 (data_content request) = None →
          Serializers.strip (data_content request) = EmptyString
          ∨ (1000 < String.length (Serializers.strip (data_content request)))%nat
          ∨ Serializers.has_nul (Serializers.strip (data_content request)) = true)
    as Hrefused.
  { unfold Serializers.CharField. case_bool_decide; [by left|]. cbv zeta.
    destruct (1000 <? _)%nat eqn:Hmax; [apply Nat.ltb_lt in Hmax; by right; left|].
    destruct (Serializers.has_nul _); [by right; right|done]. }
  destruct (data_parent request) as [pid|] eqn:Hpid; cbn.
  - destruct (comments db !! pid) as [p|] eqn:Hparent; cbn; cycle 1.
    { right. split; [|done]. right; left. exists pid. split; [done|].
      intros p Hp'. by rewrite Hparent in Hp'. }
    case_bool_decide as Hsame; cbn.
    { right. split; [|done]. right; left. exists pid. split; [done|].
      intros p0 Hp0. rewrite Hparent in Hp0. by injection Hp0 as <-. }
    destruct (Serializers.CharField 1000 (data_content request)) as [content|] eqn:Hf.
    + apply CharField_Some in Hf as (-> & ? & ? & ?). left.
      split_and!; try done. intros ? [= <-]. exists p. split; [done|].
      by destruct (decide (comment_post_id p = data_post request)).
    + right. split; [|done]. right; right. by apply Hrefused.
  - destruct (Serializers.CharField 1000 (data_content request)) as [content|] eqn:Hf.
    + apply CharField_Some in Hf as (-> & ? & ? & ?). left. by split_and!.
    + right. split; [|done]. right; right. by apply Hrefused.
Qed.

(** X28: a comment that is created.  [CommentViewSet.create] answers
    [Created] only under a key no comment had; the new comment is on the
    post the request names, which exists, under the parent it names, which
    is then a comment of that post, written by the resolved user at the time
    of the request with the trimmed content and no likes; every other
    comment is as it was.  It does so whenever the user resolves, the post
    exists, the parent, if any, is a comment of that post, and the content,
    once trimmed, is not empty, has at most 1000 characters and holds no
    NUL character.  A request that fails one of these creates nothing. *)
Theorem create_comment_effect now request db :
  let r := (CommentViewSet.create now request db).1 in
  let db' := (CommentViewSet.create now request db).2 in
  let content := Serializers.strip (data_content request) in
  (∀ pk, r = Created pk →
     ∃ user db0,
       _get_current_user request db = (inr (Some user), db0)
       ∧ comments db !! pk = None
       ∧ comments db'
         = <[pk := mkComment (data_post request) (data_parent request) user content 0 now]>
             (comments db)
       ∧ is_Some (posts db !! data_post request)
       ∧ (∀ pid, data_parent request = Some pid →
            ∃ p, comments db !! pid = Some p ∧ comment_post_id p = data_post request)
       ∧ content ≠ EmptyString
       ∧ (String.length content ≤ 1000)%nat
       ∧ Serializers.has_nul content = false)
  ∧ (∀ user db0,
       _get_current_user request db = (inr (Some user), db0) →
       is_Some (posts db !! data_post request) →
       (∀ pid, data_parent request = Some pid →
          ∃ p, comments db !! pid = Some p ∧ comment_post_id p = data_post request) →
       content ≠ EmptyString →
       (String.length content ≤ 1000)%nat →
       Serializers.has_nul content = false →
       r = Created (next_pk (comments db)))
  ∧ ((posts db !! data_post request = None
      ∨ (∃ pid, data_parent request = Some pid
                ∧ ∀ p, comments db !! pid = Some p →
                       comment_post_id p ≠ data_post request)
      ∨ content = EmptyString
      ∨ (1000 < String.length content)%nat
      ∨ Serializers.has_nul content = true) →
     (∀ pk, r ≠ Created pk) ∧ user_added db db')
  ∧ ((∀ pk, r ≠ Created pk) → comments db' = comments db).
Proof.
  cbv zeta.
  destruct (_get_current_user_cases request db) as [(user & db0 & Hcur & Hres)|Hfail].
  - pose proof (resolved_frame _ _ _ _ Hres) as Hfr.
    destruct (create_comment_cases now _ _ _ _ Hcur)
      as [(Hpost & Hparent & Hblank & Hmax & Hnul & ->)|[Hwhy ->]]; cbn [fst snd].
    + split_and!.
      * intros pk [= <-]. exists user, db0. split_and!; try done.
        -- apply next_pk_fresh.
        -- cbn. by rewrite (proj1 (proj2 Hfr)).
      * done.
      * intros [Hnone|[(pid & Hpid & Hother)|[?|[?|Hn]]]].
        -- rewrite Hnone in Hpost. by apply is_Some_None in Hpost.
        -- destruct (Hparent _ Hpid) as (p & Hp & ?). by destruct (Hother p).
        -- done.
        -- lia.
        -- by rewrite Hnul in Hn.
      * intros Hnot. by destruct (Hnot (next_pk (comments db))).
    + split_and!; [done| |by intros _|intros _; apply Hfr].
      intros ? ? _ Hpost Hparent Hblank Hmax Hnul.
      destruct Hwhy as [Hnone|[(pid & Hpid & Hother)|[?|[?|Hn]]]].
      * rewrite Hnone in Hpost. by apply is_Some_None in Hpost.
      * destruct (Hparent _ Hpid) as (p & Hp & ?). by destruct (Hother p).
      * done.
      * lia.
      * by rewrite Hnul in Hn.
  - assert (CommentViewSet.create now request db
            = (ServerError User_MultipleObjectsReturned, db)) as ->
      by (unfold CommentViewSet.create, respond, bind; by rewrite Hfail).
    split_and!; [done| | |done].
    + intros ? ? Hcur. by rewrite Hfail in Hcur.
    + intros _. split; [done|apply user_added_refl].
Qed.

(** A reply to a comment of the same post is stored trimmed; a blank
    content is refused. *)
Lemma create_comment_effect_witness :
  let db := mkDb {[ 1 := mkUser "alice" "" 0 ]} {[ 10 := mkPost 1 "hi" 0 0 ]}
                 {[ 4 := mkComment 10 None 1 "first" 0 1 ]} [] [] in
  let request := mkRequest (Some 1) "  a reply " 10 (Some 4) in
  (CommentViewSet.create 7 request db).1 = Created (next_pk (comments db))
  ∧ comments (CommentViewSet.create 7 request db).2 !! 5
    = Some (mkComment 10 (Some 4) 1 "a reply" 0 7)
  ∧ (CommentViewSet.create 7 (mkRequest (Some 1) "   " 10 (Some 4)) db).1 = BadRequest.
Proof.
  intros db request.
  pose proof (create_comment_effect 7 request db) as (_ & Hcreated & _).
  split; [|split; vm_compute; reflexivity].
  apply (Hcreated 1 db); [reflexivity|by eexists| |vm_compute; discriminate|
                          |vm_compute; reflexivity].
  - intros pid [= <-]. eexists. split; reflexivity.
  - apply Nat.leb_le. vm_compute. reflexivity.
Defined.

(** ** Liking one's own post or comment *)

(** X29: authors may like themselves.  Neither like view compares the liker
    with the author: the like of one's own post or comment, on a counter and
    a [total_karma] that are not negative, goes through as any other and
    credits the liker's own [total_karma] and ledger with the karma of the
    like. *)
Theorem self_like_pays ty now request pk db user db0 n a :
  _get_current_user request db = (inr (Some user), db0) →
  target_author ty pk db = Some user →
  likes_count ty pk db = Some n → 0 ≤ n →
  users db0 !! user = Some a → 0 ≤ total_karma a →
  List.filter (like_matches user ty pk) (likes db) = [] →
  let db' := (like_target ty now request pk db).2 in
  (like_target ty now request pk db).1 = LikeOk (n + 1) (karma_for ty)
  ∧ total_karma <$> users db' !! user = Some (total_karma a + karma_for ty)
  ∧ karma_transactions db'
    = karma_transactions db
      ++ [mkKarmaTransaction user (karma_for ty) (reason_for ty) pk (Some user) now].
Proof.
  intros Hcur Hauthor Hn Hn0 Ha Hk Hnone. cbv zeta.
  destruct (_get_current_user_inv _ _ _ _ Hcur) as (? & [= <-] & Hres).
  pose proof (resolved_frame _ _ _ _ Hres) as Hfr.
  rewrite (like_target_result _ _ _ _ _ _ _ Hcur). unfold like_result.
  rewrite (user_added_likes_count _ _ _ _ Hfr), (user_added_target_author _ _ _ _ Hfr).
  rewrite Hn, Hauthor. destruct Hfr as (_ & _ & Hl & Hledger & _).
  rewrite Hl, Hnone, Ha.
  assert (0 < karma_for ty) by (destruct ty; cbn; lia).
  rewrite !bool_decide_eq_true_2 by lia. cbn [fst snd].
  destruct (liked_db_fields ty now user pk n user a db0) as (-> & _ & ->).
  split_and!; [done| |by rewrite Hledger].
  by rewrite lookup_insert_eq.
Qed.

Lemma self_like_pays_witness :
  let request := mkRequest (Some 1) "" 0 None in
  let db := mkDb {[ 1 := mkUser "alice" "" 0 ]} {[ 10 := mkPost 1 "mine" 0 0 ]} ∅ [] [] in
  (like_target TARGET_POST 7 request 10 db).1 = LikeOk (0 + 1) (karma_for TARGET_POST)
  ∧ total_karma <$> users (like_target TARGET_POST 7 request 10 db).2 !! 1
    = Some (0 + karma_for TARGET_POST).
Proof.
  intros request db.
  destruct (self_like_pays TARGET_POST 7 request 10 db 1 db 0 (mkUser "alice" "" 0))
    as (Hr & Hk & _); try reflexivity; try lia.
  split; [exact Hr|exact Hk].
Defined.
